(** * TrainStream backend: reference-code allocation and partial-update merging

    A shallow embedding of the decision-carrying parts of the FastAPI
    backend: [app/api/courses.py], [app/api/course_templates.py],
    [app/api/participants.py] and [app/api/users.py].

    Python strings are lists of Unicode code points, Python integers are
    [Z], Optional values are [option], the SQLite database is a record of
    row lists threaded through a small state-and-error monad, and an
    [HTTPException] is an error result carrying its status code.

    The database driver binds an integer as a signed 64-bit value and
    raises for any other.  This is modelled where an identifier of the
    request selects a row ([fetch_by_id]); the integers and reals bound
    as column values are taken to be ones the database holds as bound
    ([is_int64], [real_kept]). *)

From Stdlib Require Import String Ascii ZArith List Bool Lia SpecFloat.
From Stdlib Require Import Permutation Sorted.
Import ListNotations.
Local Open Scope Z_scope.

(** ** Python strings *)

Module PyStr.

(** A character is its code point, [ord(c)]. *)
Abbreviation char := Z (only parsing).
Abbreviation str := (list Z) (only parsing).

(** ASCII literals, for readable examples. *)
Definition of_string (s : string) : str :=
  map (fun a => Z.of_N (N_of_ascii a)) (list_ascii_of_string s).

(** The part of the Unicode character database that [str.isalnum],
    [str.upper] and [int] consult for code points outside ASCII.  The
    ASCII range is defined concretely below; the tables for the rest of
    Unicode belong to the Python runtime and are taken as an interface.
    [ucd_decimal] is negative for a code point without a decimal value. *)
Class UnicodeData := {
  ucd_isalnum : char -> bool;
  ucd_upper : char -> str;
  ucd_decimal : char -> Z
}.

Definition ascii_isdigit (c : char) : bool := (48 <=? c) && (c <=? 57).
Definition ascii_isupper (c : char) : bool := (65 <=? c) && (c <=? 90).
Definition ascii_islower (c : char) : bool := (97 <=? c) && (c <=? 122).

(** [str.isspace] on one code point: the complete list of the runtime. *)
Definition isspace (c : char) : bool :=
  ((9 <=? c) && (c <=? 13)) || ((28 <=? c) && (c <=? 32))
  || (c =? 133) || (c =? 160) || (c =? 5760)
  || ((8192 <=? c) && (c <=? 8202))
  || (c =? 8232) || (c =? 8233) || (c =? 8239) || (c =? 8287)
  || (c =? 12288).

(** The C-level [Py_ISSPACE] used by the integer parser. *)
Definition c_isspace (c : char) : bool :=
  ((9 <=? c) && (c <=? 13)) || (c =? 32).

Fixpoint lstrip_by (p : char -> bool) (s : str) : str :=
  match s with
  | [] => []
  | c :: s' => if p c then lstrip_by p s' else s
  end.

Definition rstrip_by (p : char -> bool) (s : str) : str :=
  rev (lstrip_by p (rev s)).

(** [s.strip()] *)
Definition strip (s : str) : str := rstrip_by isspace (lstrip_by isspace s).

(** [sep.join(parts)] *)
Fixpoint join (sep : str) (parts : list str) : str :=
  match parts with
  | [] => []
  | [p] => p
  | p :: ps => p ++ sep ++ join sep ps
  end.

(** [s.split(sep)] for a one-character separator: never returns the
    empty list. *)
Fixpoint split (sep : char) (s : str) : list str :=
  match s with
  | [] => [[]]
  | c :: s' =>
      if c =? sep then [] :: split sep s'
      else match split sep s' with
           | [] => [[c]]
           | p :: ps => (c :: p) :: ps
           end
  end.

(** Truthiness of a string and of an Optional string; [a or b]. *)
Definition truthy (s : str) : bool :=
  match s with [] => false | _ => true end.

Definition truthy_opt (o : option str) : bool :=
  match o with Some s => truthy s | None => false end.

Definition or_str (a : option str) (b : str) : str :=
  match a with
  | Some s => if truthy s then s else b
  | None => b
  end.

Definition or_opt (a b : option str) : option str :=
  if truthy_opt a then a else b.

(** Decimal rendering of a non-negative integer, most significant digit
    first.  The fuel is the bit length, which bounds the digit count. *)
Fixpoint dec_digits (fuel : nat) (n : Z) (acc : str) : str :=
  match fuel with
  | O => acc
  | S f =>
      let acc' := (48 + n mod 10) :: acc in
      if n <? 10 then acc' else dec_digits f (n / 10) acc'
  end.

Definition decimal (n : Z) : str :=
  dec_digits (S (Z.to_nat (Z.log2 n))) n [].

Definition zfill (width : nat) (s : str) : str :=
  repeat 48 (width - length s) ++ s.

(** [format(n, "03d")]: the sign counts towards the width. *)
Definition format_03d (n : Z) : str :=
  if n <? 0 then 45 :: zfill 2 (decimal (- n)) else zfill 3 (decimal n).

Definition format_02d (n : Z) : str :=
  if n <? 0 then 45 :: zfill 1 (decimal (- n)) else zfill 2 (decimal n).

(** The digit run of a base-10 literal: digits, with single underscores
    allowed between them.  [prev] is the previous character. *)
Fixpoint int_body (s : str) (prev : char) (acc : Z) : option Z :=
  match s with
  | [] => if prev =? 95 then None else Some acc
  | c :: s' =>
      if c =? 95 then
        if prev =? 95 then None else int_body s' c acc
      else if ascii_isdigit c then int_body s' c (10 * acc + (c - 48))
      else None
  end.

Section Unicode.
Context {U : UnicodeData}.

(** [ch.isalnum()] *)
Definition isalnum (c : char) : bool :=
  if c <? 128 then ascii_isdigit c || ascii_isupper c || ascii_islower c
  else ucd_isalnum c.

Definition upper_char (c : char) : str :=
  if c <? 128 then [if ascii_islower c then c - 32 else c]
  else ucd_upper c.

(** [s.upper()]: the full upper-case mapping, character by character. *)
Definition upper (s : str) : str := flat_map upper_char s.

(** The runtime first turns Unicode spaces and decimal digits into their
    ASCII counterparts; anything else outside ASCII becomes ['?']. *)
Definition to_ascii_digit (c : char) : char :=
  if c <? 127 then c
  else if isspace c then 32
  else let decimal := ucd_decimal c in
       if decimal <? 0 then 63 else 48 + decimal.

(** [int(s)]; [None] stands for the raised [ValueError].  Surrounding
    whitespace is skipped, one sign is allowed, the digits follow.  The
    runtime's configurable ceiling on the number of digits of an
    integer-string conversion is left out, here and in the formatting
    above. *)
Definition py_int (s : str) : option Z :=
  let a := lstrip_by c_isspace (map to_ascii_digit s) in
  let '(sign, a) :=
    match a with
    | c :: r =>
        if c =? 43 then (1, r)
        else if c =? 45 then (-1, r)
        else (1, a)
    | [] => (1, a)
    end in
  let a := rstrip_by c_isspace a in
  match a with
  | [] => None
  | c :: _ =>
      if c =? 95 then None
      else match int_body a 0 0 with
           | Some v => Some (sign * v)
           | None => None
           end
  end.

End Unicode.

End PyStr.

Import PyStr.

(** ** SQLite pieces used by the statements of the routes *)

Module Sqlite.

(** ASCII case folding of the built-in [LIKE]. *)
Definition like_fold (c : char) : char :=
  if ascii_isupper c then c + 32 else c.

Definition like_char_eq (a b : char) : bool := like_fold a =? like_fold b.

(** [s LIKE p] without an ESCAPE clause: ['%'] (37) matches any run of
    characters, ['_'] (95) exactly one, any other character itself up to
    ASCII case. *)
Fixpoint like (p : str) : str -> bool :=
  match p with
  | [] => fun s => match s with [] => true | _ => false end
  | c :: p' =>
      if c =? 37 then
        fix star (s : str) : bool :=
          like p' s || match s with [] => false | _ :: s' => star s' end
      else
        fun s =>
          match s with
          | [] => false
          | d :: s' => ((c =? 95) || like_char_eq c d) && like p' s'
          end
  end.

(** A comparison against a possibly NULL column: NULL never matches. *)
Definition like_opt (p : str) (o : option str) : bool :=
  match o with Some s => like p s | None => false end.

Definition eq_opt (k : Z) (o : option Z) : bool :=
  match o with Some v => v =? k | None => false end.

(** Largest element of a non-empty list, as [max(x, *xs)]. *)
Definition max_of (x : Z) (xs : list Z) : Z := fold_left Z.max xs x.

(** The rowid given to an inserted row: one more than the largest
    rowid in the table, 1 for an empty table. *)
Definition next_rowid (ids : list Z) : Z :=
  match ids with
  | [] => 1
  | i :: rest => max_of i rest + 1
  end.

(** Comparison of TEXT values under the default BINARY collation: code
    point by code point, a proper prefix first. *)
Fixpoint text_compare (a b : str) : comparison :=
  match a, b with
  | [], [] => Eq
  | [], _ :: _ => Lt
  | _ :: _, [] => Gt
  | x :: a', y :: b' =>
      match x ?= y with
      | Eq => text_compare a' b'
      | Lt => Lt
      | Gt => Gt
      end
  end.

Definition text_eqb (a b : str) : bool :=
  match text_compare a b with Eq => true | _ => false end.

(** [column = ?] against a possibly NULL column. *)
Definition text_eq_opt (o : option str) (v : str) : bool :=
  match o with Some s => text_eqb s v | None => false end.

(** NULL sorts before every value. *)
Definition text_compare_opt (a b : option str) : comparison :=
  match a, b with
  | None, None => Eq
  | None, Some _ => Lt
  | Some _, None => Gt
  | Some x, Some y => text_compare x y
  end.

(** The integers the driver can bind as a parameter and the database can
    hold: signed 64-bit values. *)
Definition is_int64 (k : Z) : bool :=
  (- 2 ^ 63 <=? k) && (k <? 2 ^ 63).

(** The REAL values a column returns as they were bound.  NaN is
    stored as NULL, and negative zero is returned as zero. *)
Definition real_kept (x : spec_float) : bool :=
  match x with
  | S754_nan => false
  | S754_zero true => false
  | _ => true
  end.

(** [ORDER BY]: rows sorted by a less-or-equal test; rows that compare
    equal stay in table order. *)
Fixpoint insert_by {A} (le : A -> A -> bool) (x : A) (l : list A) : list A :=
  match l with
  | [] => [x]
  | y :: l' => if le x y then x :: l else y :: insert_by le x l'
  end.

Definition order_by {A} (le : A -> A -> bool) (l : list A) : list A :=
  fold_right (insert_by le) [] l.

End Sqlite.

Import Sqlite.
(** ** The database and the request monad *)

Module Store.

(** Table [course_templates]; the REAL column [cpd_hours] holds a binary
    floating-point value. *)
Record TemplateRow := {
  t_id : Z;
  t_name : str;
  t_course_type : option str;
  t_default_title : option str;
  t_default_venue_id : option Z;
  t_default_trainer : option str;
  t_default_capacity : option Z;
  t_course_title : option str;
  t_provider_type : option str;
  t_validity_months : option Z;
  t_cpd_hours : option spec_float
}.

(** Table [courses]. *)
Record CourseRow := {
  c_id : Z;
  c_course_ref : option str;
  c_course_date : option str;
  c_template_id : option Z;
  c_course_title : option str;
  c_trainer : option str;
  c_venue_id : option Z;
  c_capacity : option Z;
  c_status : option str
}.

(** Table [venues], as far as the course read-back joins it. *)
Record VenueRow := {
  v_id : Z;
  v_name : option str
}.

(** Table [participants]. *)
Record ParticipantRow := {
  p_id : Z;
  p_course_id : Z;
  p_first_name : str;
  p_surname : str;
  p_contact_number : option str;
  p_email : option str;
  p_payment_status : option str;
  p_joining_sent : Z;
  p_notes : option str
}.

(** Table [users]. *)
Record UserRow := {
  u_id : Z;
  u_first_name : str;
  u_surname : str;
  u_full_name : str;
  u_email : option str;
  u_role : str;
  u_must_change_password : Z;
  u_password_hash : str
}.

Record DB := {
  course_templates : list TemplateRow;
  courses : list CourseRow;
  venues : list VenueRow;
  participants : list ParticipantRow;
  users : list UserRow
}.

Definition with_course_templates (f : list TemplateRow -> list TemplateRow)
  (db : DB) : DB :=
  {| course_templates := f (course_templates db);
     courses := courses db;
     venues := venues db;
     participants := participants db;
     users := users db |}.

Definition with_courses (f : list CourseRow -> list CourseRow) (db : DB) : DB :=
  {| course_templates := course_templates db;
     courses := f (courses db);
     venues := venues db;
     participants := participants db;
     users := users db |}.

Definition with_participants (f : list ParticipantRow -> list ParticipantRow)
  (db : DB) : DB :=
  {| course_templates := course_templates db;
     courses := courses db;
     venues := venues db;
     participants := f (participants db);
     users := users db |}.

Definition with_users (f : list UserRow -> list UserRow) (db : DB) : DB :=
  {| course_templates := course_templates db;
     courses := courses db;
     venues := venues db;
     participants := participants db;
     users := f (users db) |}.

(** The outcome of a request handler: a response, or the status code of
    the [HTTPException] it raised. *)
Inductive result (A : Type) : Type :=
| Ok (a : A)
| HTTPError (status : Z).

Arguments Ok {A} a.
Arguments HTTPError {A} status.

(** A handler reads and writes the database and may raise. *)
Definition M (A : Type) : Type := DB -> result A * DB.

Definition ret {A} (a : A) : M A := fun db => (Ok a, db).

Definition bind {A B} (m : M A) (k : A -> M B) : M B :=
  fun db =>
    match m db with
    | (Ok a, db') => k a db'
    | (HTTPError e, db') => (HTTPError e, db')
    end.

Definition raise {A} (status : Z) : M A := fun db => (HTTPError status, db).

Definition query {A} (q : DB -> A) : M A := fun db => (Ok (q db), db).

Definition execute (w : DB -> DB) : M unit := fun db => (Ok tt, w db).

(** [cur.execute("SELECT ... WHERE id = ?", (k,))] and [cur.fetchone()]
    for an id taken from the request.  The driver raises OverflowError
    for an integer that is not a signed 64-bit value; no handler catches
    it and the framework answers with status 500.  A stored id is a
    signed 64-bit value, so such a [k] is the id of no row. *)
Definition fetch_by_id {R} (select : Z -> DB -> option R) (k : Z)
  : M (option R) :=
  fun db =>
    match select k db with
    | Some r => (Ok (Some r), db)
    | None => if is_int64 k then (Ok None, db) else (HTTPError 500, db)
    end.

End Store.

Import Store.

Declare Scope handler_scope.
Delimit Scope handler_scope with handler.
Notation "x <- c ;; k" := (bind c (fun x => k))
  (at level 61, c at next level, right associativity) : handler_scope.
Notation "c ;;; k" := (bind c (fun _ => k))
  (at level 61, right associativity) : handler_scope.

Local Open Scope handler_scope.

(** ** app/api/courses.py *)

Module Courses.

(** [datetime.date] *)
Record date := {
  year : Z;
  month : Z;
  day : Z
}.

(** [d.strftime("%Y")] and [d.strftime("%Y-%m-%d")].  A date has a year
    from 1 to 9999.  The year is written in decimal: four digits from
    1000 on, and without padding below (the C library of Linux; others
    pad such years with zeros). *)
Definition strftime_Y (d : date) : str := decimal (year d).

Definition strftime_Ymd (d : date) : str :=
  decimal (year d) ++ [45] ++ format_02d (month d)
  ++ [45] ++ format_02d (day d).

Record Course := {
  id : Z;
  title : str;
  code : str;
  start_date : str;
  end_date : option str;
  trainer_name : str;
  venue_name : str;
  status : str
}.

(** The JSON body of [POST /courses]: a field with a default in the
    model may be left out. *)
Record CourseCreateBody := {
  body_template_id : Z;
  body_course_date : date;
  body_venue_id : option Z;
  body_trainer : option str;
  body_capacity : option Z;
  body_status : option str
}.

(** Payload for creating a new course from a template. *)
Record CourseCreate := {
  template_id : Z;
  course_date : date;
  venue_id : option Z;
  trainer : str;
  capacity : option Z;
  payload_status : str
}.

(** The model's field defaults: [trainer = ""], [status = "Planned"]. *)
Definition parse_CourseCreate (b : CourseCreateBody) : CourseCreate :=
  {| template_id := body_template_id b;
     course_date := body_course_date b;
     venue_id := body_venue_id b;
     trainer := match body_trainer b with Some t => t | None => [] end;
     capacity := body_capacity b;
     payload_status :=
       match body_status b with
       | Some st => st
       | None => of_string "Planned"
       end |}.

(** The columns the template lookup of [create_course] selects. *)
Record TemplateBrief := {
  tb_id : Z;
  tb_name : str;
  tb_course_title : option str;
  tb_default_capacity : option Z
}.

(** The row that [WHERE id = k] selects; binding [k] is the part of
    [fetch_by_id]. *)
Definition select_template_brief (k : Z) (db : DB) : option TemplateBrief :=
  match find (fun t => t_id t =? k) (course_templates db) with
  | Some t =>
      Some {| tb_id := t_id t;
              tb_name := t_name t;
              tb_course_title := t_course_title t;
              tb_default_capacity := t_default_capacity t |}
  | None => None
  end.

(** A row of the read-back query, with its COALESCEd columns. *)
Record CourseJoined := {
  j_id : Z;
  j_title : option str;
  j_code : option str;
  j_start_date : option str;
  j_end_date : option str;
  j_trainer_name : str;
  j_venue_name : str;
  j_status : str
}.

Definition coalesce (o : option str) (d : str) : str :=
  match o with Some s => s | None => d end.

Definition joined_venue_name (vid : option Z) (db : DB) : str :=
  match vid with
  | Some k =>
      match find (fun v => v_id v =? k) (venues db) with
      | Some v => coalesce (v_name v) []
      | None => []
      end
  | None => []
  end.

(** The row that [WHERE id = k] selects; binding [k] is the part of
    [fetch_by_id]. *)
Definition select_course_joined (k : Z) (db : DB) : option CourseJoined :=
  match find (fun c => c_id c =? k) (courses db) with
  | Some c =>
      Some {| j_id := c_id c;
              j_title := c_course_title c;
              j_code := c_course_ref c;
              j_start_date := c_course_date c;
              j_end_date := c_course_date c;
              j_trainer_name := coalesce (c_trainer c) [];
              j_venue_name := joined_venue_name (c_venue_id c) db;
              j_status := coalesce (c_status c) (of_string "Planned") |}
  | None => None
  end.

(** [_row_to_course]: the model requires [title], [code] and
    [start_date] to be strings; [None] is the validation error. *)
Definition _row_to_course (row : CourseJoined) : option Course :=
  match j_title row, j_code row, j_start_date row with
  | Some t, Some c, Some d =>
      Some {| id := j_id row;
              title := t;
              code := c;
              start_date := d;
              end_date := j_end_date row;
              trainer_name := j_trainer_name row;
              venue_name := j_venue_name row;
              status := j_status row |}
  | _, _, _ => None
  end.

(** The columns both read queries select from one course row. *)
Definition join_course (db : DB) (c : CourseRow) : CourseJoined :=
  {| j_id := c_id c;
     j_title := c_course_title c;
     j_code := c_course_ref c;
     j_start_date := c_course_date c;
     j_end_date := c_course_date c;
     j_trainer_name := coalesce (c_trainer c) [];
     j_venue_name := joined_venue_name (c_venue_id c) db;
     j_status := coalesce (c_status c) (of_string "Planned") |}.

(** [ORDER BY c.course_date DESC, c.id DESC] *)
Definition course_order (a b : CourseRow) : bool :=
  match text_compare_opt (c_course_date b) (c_course_date a) with
  | Lt => true
  | Eq => c_id b <=? c_id a
  | Gt => false
  end.

(** [[_row_to_course(r) for r in rows]]: the first invalid row aborts. *)
Fixpoint rows_to_courses (rows : list CourseJoined) : option (list Course) :=
  match rows with
  | [] => Some []
  | r :: rows' =>
      match _row_to_course r with
      | Some c =>
          match rows_to_courses rows' with
          | Some cs => Some (c :: cs)
          | None => None
          end
      | None => None
      end
  end.

Definition list_courses : M (list Course) :=
  rows <- query (fun db => map (join_course db)
                             (order_by course_order (courses db))) ;;
  match rows_to_courses rows with
  | Some cs => ret cs
  | None => raise 500
  end.

Definition get_course (course_id : Z) : M Course :=
  row <- fetch_by_id select_course_joined course_id ;;
  match row with
  | None => raise 404
  | Some row =>
      match _row_to_course row with
      | Some c => ret c
      | None => raise 500
      end
  end.

Section WithUnicode.
Context {U : UnicodeData}.

Definition _get_template_shortname (template_name : str) : str :=
  let clean :=
    join [] (map (fun ch => [ch]) (filter isalnum template_name)) in
  upper clean.

(** The pattern [f"%-{year}-%"]. *)
Definition year_pattern (year : str) : str :=
  [37; 45] ++ year ++ [45; 37].

Definition select_course_refs (template_id : Z) (pattern : str) (db : DB)
  : list (option str) :=
  map c_course_ref
    (filter (fun c => eq_opt template_id (c_template_id c)
                      && like_opt pattern (c_course_ref c))
            (courses db)).

(** One turn of the loop over the fetched rows. *)
Definition cohort_step (numbers : list Z) (course_ref : option str) : list Z :=
  match course_ref with
  | None => numbers
  | Some ref =>
      if negb (truthy ref) then numbers
      else
        let parts := split 45 ref in
        if (length parts <? 3)%nat then numbers
        else match py_int (last parts []) with
             | Some n => numbers ++ [n]
             | None => numbers
             end
  end.

Definition _get_next_cohort_number (template_id : Z) (year : str) : M Z :=
  rows <- query (select_course_refs template_id (year_pattern year)) ;;
  let numbers := fold_left cohort_step rows [] in
  ret (match numbers with
       | [] => 1
       | n :: rest => max_of n rest + 1
       end).

Definition insert_course (ref date : str) (tid : Z) (title trainer : str)
  (venue_id : option Z) (capacity : Z) (status : str) : M Z :=
  lastrowid <- query (fun db => next_rowid (map c_id (courses db))) ;;
  execute (with_courses (fun rows =>
    rows ++ [{| c_id := lastrowid;
                c_course_ref := Some ref;
                c_course_date := Some date;
                c_template_id := Some tid;
                c_course_title := Some title;
                c_trainer := Some trainer;
                c_venue_id := venue_id;
                c_capacity := Some capacity;
                c_status := Some status |}])) ;;;
  ret lastrowid.

Definition create_course (payload : CourseCreate) : M Course :=
  tmpl <- fetch_by_id select_template_brief (template_id payload) ;;
  match tmpl with
  | None => raise 404
  | Some tmpl =>
      let template_name := tb_name tmpl in
      let course_title := or_str (tb_course_title tmpl) template_name in
      let default_capacity :=
        match tb_default_capacity tmpl with
        | Some d => if d =? 0 then 12 else d
        | None => 12
        end in
      let year_str := strftime_Y (course_date payload) in
      let shortname := _get_template_shortname template_name in
      next_cohort <- _get_next_cohort_number (template_id payload) year_str ;;
      let course_ref :=
        shortname ++ [45] ++ year_str ++ [45] ++ format_03d next_cohort in
      let capacity :=
        match capacity payload with
        | Some c => if negb (c =? 0) && (0 <? c) then c else default_capacity
        | None => default_capacity
        end in
      let status :=
        if truthy (payload_status payload) then payload_status payload
        else of_string "Planned" in
      let course_date_str := strftime_Ymd (course_date payload) in
      new_id <- insert_course course_ref course_date_str
                  (template_id payload) course_title (trainer payload)
                  (venue_id payload) capacity status ;;
      row <- query (select_course_joined new_id) ;;
      match row with
      | None => raise 500
      | Some row =>
          match _row_to_course row with
          | Some c => ret c
          | None => raise 500
          end
      end
  end.

End WithUnicode.

End Courses.

(** [x if x is not None else y] *)
Definition if_not_none {A} (x y : option A) : option A :=
  match x with
  | Some v => Some v
  | None => y
  end.

Definition if_not_none_str (x : option str) (y : str) : str :=
  match x with
  | Some v => v
  | None => y
  end.

(** ** app/api/course_templates.py *)

Module CourseTemplates.

Record CourseTemplateBase := {
  name : str;
  course_type : option str;
  course_title : option str;
  provider_type : option str;
  default_capacity : option Z;
  validity_months : option Z;
  cpd_hours : option spec_float;
  default_trainer : option str;
  default_venue_id : option Z
}.

Definition CourseTemplateCreate := CourseTemplateBase.

Record CourseTemplateUpdate := {
  upd_name : option str;
  upd_course_type : option str;
  upd_course_title : option str;
  upd_provider_type : option str;
  upd_default_capacity : option Z;
  upd_validity_months : option Z;
  upd_cpd_hours : option spec_float;
  upd_default_trainer : option str;
  upd_default_venue_id : option Z
}.

Record CourseTemplateOut := {
  id : Z;
  base : CourseTemplateBase
}.

Definition row_to_template (row : TemplateRow) : CourseTemplateOut :=
  {| id := t_id row;
     base :=
       {| name := t_name row;
          course_type := t_course_type row;
          course_title := or_opt (t_course_title row) (t_default_title row);
          provider_type := t_provider_type row;
          default_capacity := t_default_capacity row;
          validity_months := t_validity_months row;
          cpd_hours := t_cpd_hours row;
          default_trainer := t_default_trainer row;
          default_venue_id := t_default_venue_id row |} |}.

(** The row that [WHERE id = k] selects; binding [k] is the part of
    [fetch_by_id]. *)
Definition select_template (k : Z) (db : DB) : option TemplateRow :=
  find (fun t => t_id t =? k) (course_templates db).

(** The column tuple both the INSERT and the UPDATE bind: the title is
    bound to [default_title] and to [course_title]. *)
Definition template_columns (k : Z) (b : CourseTemplateBase) : TemplateRow :=
  {| t_id := k;
     t_name := name b;
     t_course_type := course_type b;
     t_default_title := course_title b;
     t_default_venue_id := default_venue_id b;
     t_default_trainer := default_trainer b;
     t_default_capacity := default_capacity b;
     t_course_title := course_title b;
     t_provider_type := provider_type b;
     t_validity_months := validity_months b;
     t_cpd_hours := cpd_hours b |}.

(** The bodies whose numbers the database holds as they are bound: the
    integer fields are signed 64-bit values and [cpd_hours] is a REAL
    the column keeps. *)
Definition stored_as_given (b : CourseTemplateBase) : bool :=
  let int_kept (o : option Z) :=
    match o with Some n => is_int64 n | None => true end in
  int_kept (default_capacity b) && int_kept (validity_months b)
  && int_kept (default_venue_id b)
  && match cpd_hours b with Some x => real_kept x | None => true end.

Definition create_course_template (body : CourseTemplateCreate)
  : M CourseTemplateOut :=
  template_id <- query (fun db => next_rowid (map t_id (course_templates db))) ;;
  execute (with_course_templates (fun rows =>
    rows ++ [template_columns template_id body])) ;;;
  row <- query (select_template template_id) ;;
  match row with
  | None => raise 500
  | Some row => ret (row_to_template row)
  end.

(** The merge of [update_course_template]. *)
Definition merge_template (updates : CourseTemplateUpdate)
  (current : CourseTemplateBase) : CourseTemplateBase :=
  {| name := or_str (upd_name updates) (name current);
     course_type := or_opt (upd_course_type updates) (course_type current);
     course_title := or_opt (upd_course_title updates) (course_title current);
     provider_type :=
       or_opt (upd_provider_type updates) (provider_type current);
     default_capacity :=
       if_not_none (upd_default_capacity updates) (default_capacity current);
     validity_months :=
       if_not_none (upd_validity_months updates) (validity_months current);
     cpd_hours := if_not_none (upd_cpd_hours updates) (cpd_hours current);
     default_trainer :=
       if_not_none (upd_default_trainer updates) (default_trainer current);
     default_venue_id :=
       if_not_none (upd_default_venue_id updates) (default_venue_id current) |}.

Definition update_template_rows (k : Z) (new : CourseTemplateBase)
  (rows : list TemplateRow) : list TemplateRow :=
  map (fun r => if t_id r =? k then template_columns (t_id r) new else r) rows.

Definition update_course_template (template_id : Z)
  (updates : CourseTemplateUpdate) : M CourseTemplateOut :=
  row <- fetch_by_id select_template template_id ;;
  match row with
  | None => raise 404
  | Some row =>
      let current := row_to_template row in
      let new := merge_template updates (base current) in
      execute (with_course_templates (update_template_rows template_id new)) ;;;
      updated_row <- query (select_template template_id) ;;
      match updated_row with
      | None => raise 500
      | Some updated_row => ret (row_to_template updated_row)
      end
  end.

(** [ORDER BY name ASC] *)
Definition template_order (a b : TemplateRow) : bool :=
  match text_compare (t_name a) (t_name b) with
  | Gt => false
  | _ => true
  end.

Definition list_course_templates : M (list CourseTemplateOut) :=
  rows <- query (fun db => order_by template_order (course_templates db)) ;;
  ret (map row_to_template rows).

End CourseTemplates.

(** ** app/api/participants.py *)

Module Participants.

Record ParticipantUpdate := {
  first_name : option str;
  surname : option str;
  contact_number : option str;
  email : option str;
  payment_status : option str;
  notes : option str;
  joining_sent : option bool
}.

Record Participant := {
  id : Z;
  course_id : Z;
  out_first_name : str;
  out_surname : str;
  out_contact_number : option str;
  out_email : option str;
  out_payment_status : option str;
  out_notes : option str;
  out_joining_sent : bool
}.

Definition row_to_participant (row : ParticipantRow) : Participant :=
  {| id := p_id row;
     course_id := p_course_id row;
     out_first_name := p_first_name row;
     out_surname := p_surname row;
     out_contact_number := p_contact_number row;
     out_email := p_email row;
     out_payment_status := p_payment_status row;
     out_notes := p_notes row;
     out_joining_sent := negb (p_joining_sent row =? 0) |}.

(** The row that [WHERE id = k] selects; binding [k] is the part of
    [fetch_by_id]. *)
Definition select_participant (k : Z) (db : DB) : option ParticipantRow :=
  find (fun r => p_id r =? k) (participants db).

(** The [updated] dictionary, laid over the current row. *)
Definition merge_participant (payload : ParticipantUpdate)
  (current : ParticipantRow) : ParticipantRow :=
  {| p_id := p_id current;
     p_course_id := p_course_id current;
     p_first_name := if_not_none_str (first_name payload) (p_first_name current);
     p_surname := if_not_none_str (surname payload) (p_surname current);
     p_contact_number :=
       if_not_none (contact_number payload) (p_contact_number current);
     p_email := if_not_none (email payload) (p_email current);
     p_payment_status :=
       if_not_none (payment_status payload) (p_payment_status current);
     p_joining_sent :=
       match joining_sent payload with
       | Some true => 1
       | Some false => 0
       | None => p_joining_sent current
       end;
     p_notes := if_not_none (notes payload) (p_notes current) |}.

Definition update_participant_rows (k : Z) (updated : ParticipantRow)
  (rows : list ParticipantRow) : list ParticipantRow :=
  map (fun r =>
         if p_id r =? k then
           {| p_id := p_id r;
              p_course_id := p_course_id r;
              p_first_name := p_first_name updated;
              p_surname := p_surname updated;
              p_contact_number := p_contact_number updated;
              p_email := p_email updated;
              p_payment_status := p_payment_status updated;
              p_joining_sent := p_joining_sent updated;
              p_notes := p_notes updated |}
         else r) rows.

Definition update_participant (participant_id : Z)
  (payload : ParticipantUpdate) : M Participant :=
  row <- fetch_by_id select_participant participant_id ;;
  match row with
  | None => raise 404
  | Some current =>
      let updated := merge_participant payload current in
      execute (with_participants
                 (update_participant_rows participant_id updated)) ;;;
      row <- query (select_participant participant_id) ;;
      match row with
      | None => raise 500
      | Some row => ret (row_to_participant row)
      end
  end.

Record ParticipantCreate := {
  new_first_name : str;
  new_surname : str;
  new_contact_number : option str;
  new_email : option str;
  new_payment_status : option str;
  new_notes : option str;
  new_joining_sent : bool
}.



Definition create_participant (course_id : Z) (payload : ParticipantCreate)
  : M Participant :=
  new_id <- query (fun db => next_rowid (map p_id (participants db))) ;;
  execute (with_participants (fun rows =>
    rows ++ [{| p_id := new_id;
                p_course_id := course_id;
                p_first_name := new_first_name payload;
                p_surname := new_surname payload;
                p_contact_number := new_contact_number payload;
                p_email := new_email payload;
                p_payment_status := new_payment_status payload;
                p_joining_sent := if new_joining_sent payload then 1 else 0;
                p_notes := new_notes payload |}])) ;;;
  row <- query (select_participant new_id) ;;
  match row with
  | None => raise 500
  | Some row => ret (row_to_participant row)
  end.

(** The body [{"ok": True}]. *)
Record Deleted := {
  ok : bool
}.

Definition delete_participant (participant_id : Z) : M Deleted :=
  execute (with_participants
             (filter (fun r => negb (p_id r =? participant_id)))) ;;;
  ret {| ok := true |}.

End Participants.

(** ** app/api/users.py *)

Module Users.

(** [hash_password]: PBKDF2 over a freshly drawn salt.  The digest plays
    no part in the merge rules and is kept opaque. *)
Class PasswordHasher := {
  hash_password : str -> str
}.

Record User := {
  id : Z;
  out_first_name : str;
  out_surname : str;
  out_full_name : str;
  out_role : str;
  out_email : option str;
  out_must_change_password : bool
}.

Record UserUpdate := {
  first_name : option str;
  surname : option str;
  full_name : option str;
  role : option str;
  email : option str;
  must_change_password : option bool;
  password : option str
}.

Definition row_to_user (row : UserRow) : User :=
  {| id := u_id row;
     out_first_name := u_first_name row;
     out_surname := u_surname row;
     out_full_name := u_full_name row;
     out_role := u_role row;
     out_email := u_email row;
     out_must_change_password := negb (u_must_change_password row =? 0) |}.

(** The row that [WHERE id = k] selects; binding [k] is the part of
    [fetch_by_id]. *)
Definition select_user (k : Z) (db : DB) : option UserRow :=
  find (fun r => u_id r =? k) (users db).

(** [ORDER BY role ASC, full_name ASC] *)
Definition user_order (a b : UserRow) : bool :=
  match text_compare (u_role a) (u_role b) with
  | Lt => true
  | Eq => match text_compare (u_full_name a) (u_full_name b) with
          | Gt => false
          | _ => true
          end
  | Gt => false
  end.

Definition list_users : M (list User) :=
  rows <- query (fun db => order_by user_order (users db)) ;;
  ret (map row_to_user rows).

Section WithHasher.
Context {H : PasswordHasher}.

(** The values [update_user] binds to its UPDATE statement. *)
Definition merge_user (updates : UserUpdate) (row : UserRow) : UserRow :=
  let current_must_change := negb (u_must_change_password row =? 0) in
  let new_first_name := or_str (first_name updates) (u_first_name row) in
  let new_surname := or_str (surname updates) (u_surname row) in
  let new_full_name :=
    if truthy_opt (full_name updates) then
      if_not_none_str (full_name updates) (u_full_name row)
    else if truthy_opt (first_name updates) || truthy_opt (surname updates)
    then strip (new_first_name ++ [32] ++ new_surname)
    else u_full_name row in
  let new_email := if_not_none (email updates) (u_email row) in
  let new_role := or_str (role updates) (u_role row) in
  let new_must_change :=
    match must_change_password updates with
    | Some b => b
    | None => current_must_change
    end in
  let new_password_hash :=
    match password updates with
    | Some pw => if truthy pw then hash_password pw else u_password_hash row
    | None => u_password_hash row
    end in
  {| u_id := u_id row;
     u_first_name := new_first_name;
     u_surname := new_surname;
     u_full_name := new_full_name;
     u_email := new_email;
     u_role := new_role;
     u_must_change_password := if new_must_change then 1 else 0;
     u_password_hash := new_password_hash |}.

Definition update_user_rows (k : Z) (new : UserRow) (rows : list UserRow)
  : list UserRow :=
  map (fun r =>
         if u_id r =? k then
           {| u_id := u_id r;
              u_first_name := u_first_name new;
              u_surname := u_surname new;
              u_full_name := u_full_name new;
              u_email := u_email new;
              u_role := u_role new;
              u_must_change_password := u_must_change_password new;
              u_password_hash := u_password_hash new |}
         else r) rows.

Definition update_user (user_id : Z) (updates : UserUpdate) : M User :=
  row <- fetch_by_id select_user user_id ;;
  match row with
  | None => raise 404
  | Some row =>
      let new := merge_user updates row in
      execute (with_users (update_user_rows user_id new)) ;;;
      updated_row <- query (select_user user_id) ;;
      match updated_row with
      | None => raise 500
      | Some updated_row => ret (row_to_user updated_row)
      end
  end.

Record UserCreate := {
  new_first_name : str;
  new_surname : str;
  new_role : str;
  new_email : option str;
  new_password : str
}.

(** The duplicate check: [SELECT 1 FROM users WHERE full_name = ? AND
    email = ?]. *)
Definition select_duplicate (full_name email : str) (db : DB) : bool :=
  existsb (fun r => text_eqb (u_full_name r) full_name
                    && text_eq_opt (u_email r) email) (users db).

Definition create_user (user : UserCreate) : M User :=
  let full_name := strip (new_first_name user ++ [32] ++ new_surname user) in
  let hashed := hash_password (new_password user) in
  found <- query (select_duplicate full_name (or_str (new_email user) [])) ;;
  if found then raise 400
  else
    user_id <- query (fun db => next_rowid (map u_id (users db))) ;;
    execute (with_users (fun rows =>
      rows ++ [{| u_id := user_id;
                  u_first_name := new_first_name user;
                  u_surname := new_surname user;
                  u_full_name := full_name;
                  u_email := Some (or_str (new_email user) []);
                  u_role := new_role user;
                  u_must_change_password := 1;
                  u_password_hash := hashed |}])) ;;;
    row <- query (select_user user_id) ;;
    match row with
    | None => raise 500
    | Some row => ret (row_to_user row)
    end.

End WithHasher.

End Users.

(** ** upgrade_course_templates.py *)

Module Upgrade.

(** A row of [PRAGMA table_info]: the column's name and declared type. *)
Record Column := {
  col_name : str;
  col_type : str
}.

(** The columns of a table, [None] when the table does not exist. *)
Definition Schema : Type := option (list Column).

(** [has_column]: the pragma yields no rows for a missing table; the
    name is looked up with Python's [in], an exact comparison. *)
Definition has_column (s : Schema) (column : str) : bool :=
  match s with
  | Some cols => existsb (fun c => text_eqb c column) (map col_name cols)
  | None => false
  end.

(** Column names are compared without regard to ASCII case by the
    database itself. *)
Definition same_column_name (a b : str) : bool :=
  text_eqb (map like_fold a) (map like_fold b).

(** [ALTER TABLE course_templates ADD COLUMN name type]: refused, with
    an OperationalError, when the table is missing or already has a
    column of that name; otherwise the column is appended, at once. *)
Definition add_column (s : Schema) (name type : str) : option Schema :=
  match s with
  | None => None
  | Some cols =>
      if existsb (fun c => same_column_name (col_name c) name) cols
      then None
      else Some (Some (cols ++ [{| col_name := name; col_type := type |}]))
  end.

(** How a run of the script ends: normally, with the flag [changed], or
    by the uncaught error of a refused statement. *)
Inductive outcome : Type :=
| Finished (s : Schema) (changed : bool)
| Crashed (s : Schema).

Definition upgrade (s : Schema) : outcome :=
  let step1 :=
    if negb (has_column s (of_string "validity_months")) then
      match add_column s (of_string "validity_months")
              (of_string "INTEGER") with
      | Some s1 => Some (s1, true)
      | None => None
      end
    else Some (s, false) in
  match step1 with
  | None => Crashed s
  | Some (s1, changed) =>
      if negb (has_column s1 (of_string "cpd_hours")) then
        match add_column s1 (of_string "cpd_hours") (of_string "REAL") with
        | Some s2 => Finished s2 true
        | None => Crashed s1
        end
      else Finished s1 changed
  end.

End Upgrade.

(** ** Reference definitions

    Written from the specification's wording, to be compared with the
    handlers above. *)

Module Spec.

Fixpoint is_prefix (p s : str) : bool :=
  match p, s with
  | [], _ => true
  | _ :: _, [] => false
  | a :: p', b :: s' => (a =? b) && is_prefix p' s'
  end.

(** [needle] occurs in [hay] as a contiguous substring. *)
Fixpoint contains (needle hay : str) : bool :=
  is_prefix needle hay
  || match hay with
     | [] => false
     | _ :: hay' => contains needle hay'
     end.

(** The literal [-<year>-]. *)
Definition year_infix (year : str) : str := [45] ++ year ++ [45].

(** A LIKE pattern character that stands for itself and for nothing else:
    no wildcard and no ASCII letter. *)
Definition plain_char (c : Z) : Prop :=
  c <> 37 /\ c <> 95 /\ ascii_isupper c = false /\ ascii_islower c = false.

(** The value of a run of ASCII digits. *)
Definition dec_value (s : str) : Z :=
  fold_left (fun a c => 10 * a + (c - 48)) s 0.

(** [max] of a non-empty collection, and the next cohort number:
    [max(collected) + 1], or 1 if nothing was collected. *)
Fixpoint maximum (x : Z) (xs : list Z) : Z :=
  match xs with
  | [] => x
  | y :: ys => Z.max x (maximum y ys)
  end.

Definition next_cohort (nums : list Z) : Z :=
  match nums with
  | [] => 1
  | n :: rest => maximum n rest + 1
  end.

Section WithUnicode.
Context {U : UnicodeData}.

(** Short-name: drop what is not a letter or digit, then upper-case. *)
Fixpoint drop_non_alnum (s : str) : str :=
  match s with
  | [] => []
  | c :: s' => if isalnum c then c :: drop_non_alnum s' else drop_non_alnum s'
  end.

Fixpoint upper_cased (s : str) : str :=
  match s with
  | [] => []
  | c :: s' => upper_char c ++ upper_cased s'
  end.

Definition shortname (name : str) : str := upper_cased (drop_non_alnum name).

(** The final [-]-separated segment of a reference, if it parses. *)
Definition final_segment_number (ref : str) : option Z :=
  py_int (last (split 45 ref) []).

(** Cohort numbers collected for a template and a year: over the
    template's references containing [-<year>-], the final segments
    that parse as integers. *)
Fixpoint collected (template_id : Z) (year : str) (rows : list CourseRow)
  : list Z :=
  match rows with
  | [] => []
  | c :: rows' =>
      let rest := collected template_id year rows' in
      match c_template_id c, c_course_ref c with
      | Some t, Some ref =>
          if (t =? template_id) && contains (year_infix year) ref then
            match final_segment_number ref with
            | Some n => n :: rest
            | None => rest
            end
          else rest
      | _, _ => rest
      end
  end.

End WithUnicode.

(** A template row with other defaults for trainer and venue. *)
Definition with_template_defaults (dt : TemplateRow -> option str)
  (dv : TemplateRow -> option Z) (t : TemplateRow) : TemplateRow :=
  {| t_id := t_id t;
     t_name := t_name t;
     t_course_type := t_course_type t;
     t_default_title := t_default_title t;
     t_default_venue_id := dv t;
     t_default_trainer := dt t;
     t_default_capacity := t_default_capacity t;
     t_course_title := t_course_title t;
     t_provider_type := t_provider_type t;
     t_validity_months := t_validity_months t;
     t_cpd_hours := t_cpd_hours t |}.

(** Capacity rule as the specification words it: the proposed capacity
    when present and positive, else the template default when present,
    else 12. *)
Definition capacity_as_specified (proposed template_default : option Z) : Z :=
  match proposed with
  | Some c => if 0 <? c then c
              else match template_default with Some d => d | None => 12 end
  | None => match template_default with Some d => d | None => 12 end
  end.

(** Capacity rule with a zero template default counted as absent. *)
Definition capacity_rule (proposed template_default : option Z) : Z :=
  let fallback :=
    match template_default with
    | Some d => if d =? 0 then 12 else d
    | None => 12
    end in
  match proposed with
  | Some c => if 0 <? c then c else fallback
  | None => fallback
  end.

End Spec.

(** ** Concrete data for the worked examples *)

Module Sample.

(** An excerpt of the Unicode database: the Latin-1 Supplement block is
    classified as the runtime does; code points beyond it are treated as
    caseless non-alphanumerics, which is what the General Punctuation
    block (home of the en dash, U+2013) is. *)
Definition latin1_isalnum (c : char) : bool :=
  (c =? 170) || (c =? 178) || (c =? 179) || (c =? 181) || (c =? 185)
  || (c =? 186) || ((188 <=? c) && (c <=? 190))
  || ((192 <=? c) && (c <=? 214)) || ((216 <=? c) && (c <=? 246))
  || ((248 <=? c) && (c <=? 255)).

Definition latin1_upper (c : char) : str :=
  if c =? 181 then [924]
  else if c =? 223 then [83; 83]
  else if ((224 <=? c) && (c <=? 246)) || ((248 <=? c) && (c <=? 254))
  then [c - 32]
  else if c =? 255 then [376]
  else [c].

Definition latin1 : UnicodeData :=
  {| ucd_isalnum := latin1_isalnum;
     ucd_upper := latin1_upper;
     ucd_decimal := fun _ => -1 |}.

(** A hasher standing in for PBKDF2 in examples. *)
Definition tagging_hasher : Users.PasswordHasher :=
  {| Users.hash_password := fun pw => of_string "pbkdf2:" ++ pw |}.

Definition template_row (k : Z) (name : string) (cap : option Z)
  : TemplateRow :=
  {| t_id := k;
     t_name := of_string name;
     t_course_type := None;
     t_default_title := None;
     t_default_venue_id := Some 7;
     t_default_trainer := Some (of_string "Default Trainer");
     t_default_capacity := cap;
     t_course_title := None;
     t_provider_type := None;
     t_validity_months := None;
     t_cpd_hours := None |}.

Definition course_row (k tid : Z) (ref : string) : CourseRow :=
  {| c_id := k;
     c_course_ref := Some (of_string ref);
     c_course_date := Some (of_string "2024-01-15");
     c_template_id := Some tid;
     c_course_title := Some (of_string "X");
     c_trainer := Some [];
     c_venue_id := None;
     c_capacity := Some 12;
     c_status := Some (of_string "Planned") |}.

(** One template, three courses: the references of the worked example. *)
Definition db_three_refs : DB :=
  {| course_templates := [template_row 1 "X" (Some 10)];
     courses := [course_row 1 1 "X-2024-001";
                 course_row 2 1 "X-2024-003";
                 course_row 3 1 "X-2024-abc"];
     venues := [];
     participants := [];
     users := [] |}.

(** A template whose latest cohort of 2024 is number 999. *)
Definition db_cohort_999 : DB :=
  {| course_templates := [template_row 1 "X" (Some 10)];
     courses := [course_row 1 1 "X-2024-999"];
     venues := [];
     participants := [];
     users := [] |}.

(** A template whose default capacity was set to zero. *)
Definition db_zero_default : DB :=
  {| course_templates := [template_row 1 "First Aid" (Some 0)];
     courses := [];
     venues := [];
     participants := [];
     users := [] |}.

Definition payload_plain (tid : Z) (cap : option Z) : Courses.CourseCreate :=
  {| Courses.template_id := tid;
     Courses.course_date :=
       {| Courses.year := 2024; Courses.month := 1; Courses.day := 15 |};
     Courses.venue_id := None;
     Courses.trainer := [];
     Courses.capacity := cap;
     Courses.payload_status := of_string "Planned" |}.

(** The same request for the first of June of another year. *)
Definition payload_in_year (tid y : Z) : Courses.CourseCreate :=
  {| Courses.template_id := tid;
     Courses.course_date :=
       {| Courses.year := y; Courses.month := 6; Courses.day := 1 |};
     Courses.venue_id := None;
     Courses.trainer := [];
     Courses.capacity := None;
     Courses.payload_status := of_string "Planned" |}.

(** A request body naming only the template and the date. *)
Definition body_minimal (tid : Z) : Courses.CourseCreateBody :=
  {| Courses.body_template_id := tid;
     Courses.body_course_date :=
       {| Courses.year := 2024; Courses.month := 1; Courses.day := 15 |};
     Courses.body_venue_id := None;
     Courses.body_trainer := None;
     Courses.body_capacity := None;
     Courses.body_status := None |}.

Definition jane : UserRow :=
  {| u_id := 1;
     u_first_name := of_string "Jane";
     u_surname := of_string "Doe";
     u_full_name := of_string "Jane Doe";
     u_email := Some (of_string "jane@example.org");
     u_role := of_string "Trainer";
     u_must_change_password := 0;
     u_password_hash := of_string "salt:digest" |}.

Definition ann : ParticipantRow :=
  {| p_id := 1;
     p_course_id := 1;
     p_first_name := of_string "Ann";
     p_surname := of_string "Lee";
     p_contact_number := None;
     p_email := Some (of_string "ann@example.org");
     p_payment_status := None;
     p_joining_sent := 0;
     p_notes := None |}.

Definition db_people : DB :=
  {| course_templates := [template_row 1 "First Aid" (Some 10)];
     courses := [];
     venues := [];
     participants := [ann];
     users := [jane] |}.

Definition no_user_update : Users.UserUpdate :=
  {| Users.first_name := None;
     Users.surname := None;
     Users.full_name := None;
     Users.role := None;
     Users.email := None;
     Users.must_change_password := None;
     Users.password := None |}.

Definition no_participant_update : Participants.ParticipantUpdate :=
  {| Participants.first_name := None;
     Participants.surname := None;
     Participants.contact_number := None;
     Participants.email := None;
     Participants.payment_status := None;
     Participants.notes := None;
     Participants.joining_sent := None |}.

(** Updates that supply a single field. *)
Definition surname_only (s : string) : Users.UserUpdate :=
  {| Users.first_name := None;
     Users.surname := Some (of_string s);
     Users.full_name := None;
     Users.role := None;
     Users.email := None;
     Users.must_change_password := None;
     Users.password := None |}.

Definition participant_first_name_only (s : str)
  : Participants.ParticipantUpdate :=
  {| Participants.first_name := Some s;
     Participants.surname := None;
     Participants.contact_number := None;
     Participants.email := None;
     Participants.payment_status := None;
     Participants.notes := None;
     Participants.joining_sent := None |}.

Definition template_name_and_capacity (n : option str) (cap : option Z)
  : CourseTemplates.CourseTemplateUpdate :=
  {| CourseTemplates.upd_name := n;
     CourseTemplates.upd_course_type := None;
     CourseTemplates.upd_course_title := None;
     CourseTemplates.upd_provider_type := None;
     CourseTemplates.upd_default_capacity := cap;
     CourseTemplates.upd_validity_months := None;
     CourseTemplates.upd_cpd_hours := None;
     CourseTemplates.upd_default_trainer := None;
     CourseTemplates.upd_default_venue_id := None |}.

(** Updates that supply the empty string for every string field. *)
Definition template_blank : CourseTemplates.CourseTemplateUpdate :=
  {| CourseTemplates.upd_name := Some [];
     CourseTemplates.upd_course_type := Some [];
     CourseTemplates.upd_course_title := Some [];
     CourseTemplates.upd_provider_type := Some [];
     CourseTemplates.upd_default_capacity := None;
     CourseTemplates.upd_validity_months := None;
     CourseTemplates.upd_cpd_hours := None;
     CourseTemplates.upd_default_trainer := Some [];
     CourseTemplates.upd_default_venue_id := None |}.

Definition user_blank : Users.UserUpdate :=
  {| Users.first_name := Some [];
     Users.surname := Some [];
     Users.full_name := Some [];
     Users.role := Some [];
     Users.email := Some [];
     Users.must_change_password := None;
     Users.password := Some [] |}.

Definition participant_blank : Participants.ParticipantUpdate :=
  {| Participants.first_name := Some [];
     Participants.surname := Some [];
     Participants.contact_number := Some [];
     Participants.email := Some [];
     Participants.payment_status := Some [];
     Participants.notes := Some [];
     Participants.joining_sent := None |}.

(** A template with a legacy title only, and one with both titles. *)
Definition legacy_template : TemplateRow :=
  {| t_id := 1;
     t_name := of_string "First Aid";
     t_course_type := None;
     t_default_title := Some (of_string "Legacy Title");
     t_default_venue_id := None;
     t_default_trainer := None;
     t_default_capacity := Some 10;
     t_course_title := None;
     t_provider_type := None;
     t_validity_months := None;
     t_cpd_hours := None |}.

Definition db_legacy : DB :=
  {| course_templates := [legacy_template];
     courses := [];
     venues := [];
     participants := [];
     users := [] |}.

(** A body with every number given; [cpd_hours] is 6.5. *)
Definition template_body_numbers : CourseTemplates.CourseTemplateBase :=
  {| CourseTemplates.name := of_string "CPR";
     CourseTemplates.course_type := None;
     CourseTemplates.course_title := Some (of_string "CPR Basics");
     CourseTemplates.provider_type := None;
     CourseTemplates.default_capacity := Some 12;
     CourseTemplates.validity_months := Some 36;
     CourseTemplates.cpd_hours :=
       Some (S754_finite false 7318349394477056 (-50));
     CourseTemplates.default_trainer := None;
     CourseTemplates.default_venue_id := Some 7 |}.

Definition no_template_update : CourseTemplates.CourseTemplateUpdate :=
  {| CourseTemplates.upd_name := None;
     CourseTemplates.upd_course_type := None;
     CourseTemplates.upd_course_title := None;
     CourseTemplates.upd_provider_type := None;
     CourseTemplates.upd_default_capacity := None;
     CourseTemplates.upd_validity_months := None;
     CourseTemplates.upd_cpd_hours := None;
     CourseTemplates.upd_default_trainer := None;
     CourseTemplates.upd_default_venue_id := None |}.

(** Two templates whose names share a short-name. *)
Definition db_twins : DB :=
  {| course_templates := [template_row 1 "First Aid" (Some 10);
                          template_row 2 "FIRST-AID" (Some 8)];
     courses := [];
     venues := [];
     participants := [];
     users := [] |}.

(** A request naming a venue. *)
Definition payload_at_venue (tid vid : Z) : Courses.CourseCreate :=
  {| Courses.template_id := tid;
     Courses.course_date :=
       {| Courses.year := 2024; Courses.month := 1; Courses.day := 15 |};
     Courses.venue_id := Some vid;
     Courses.trainer := of_string "Sam";
     Courses.capacity := None;
     Courses.payload_status := [] |}.

(** A course table holding one row without a reference. *)
Definition course_without_ref : CourseRow :=
  {| c_id := 2;
     c_course_ref := None;
     c_course_date := Some (of_string "2023-05-01");
     c_template_id := Some 1;
     c_course_title := Some (of_string "X");
     c_trainer := None;
     c_venue_id := None;
     c_capacity := None;
     c_status := None |}.

Definition db_with_legacy_course : DB :=
  {| course_templates := [template_row 1 "X" (Some 10)];
     courses := [course_row 1 1 "X-2024-001"; course_without_ref];
     venues := [];
     participants := [];
     users := [] |}.


Definition new_user (email : option str) : Users.UserCreate :=
  {| Users.new_first_name := of_string "Jane";
     Users.new_surname := of_string "Doe";
     Users.new_role := of_string "Admin";
     Users.new_email := email;
     Users.new_password := of_string "secret" |}.

(** The template table before the two later columns were added. *)
Definition old_template_schema : Upgrade.Schema :=
  Some [ {| Upgrade.col_name := of_string "id";
            Upgrade.col_type := of_string "INTEGER" |};
         {| Upgrade.col_name := of_string "name";
            Upgrade.col_type := of_string "TEXT" |} ].


End Sample.

(** * Properties *)

Import Spec.

(** ** Decimal rendering *)

Section Decimal.

Lemma dec_digits_app (f : nat) :
  forall n acc, dec_digits f n acc = dec_digits f n [] ++ acc.
Proof.
  induction f as [|f IH]; intros n acc; simpl; [reflexivity|].
  destruct (n <? 10); [reflexivity|].
  rewrite IH, (IH _ [_]), <- app_assoc. reflexivity.
Qed.

Lemma dec_digits_step (f : nat) (n : Z) :
  dec_digits (S f) n [] =
  if n <? 10 then [48 + n mod 10]
  else dec_digits f (n / 10) [] ++ [48 + n mod 10].
Proof.
  simpl. destruct (n <? 10); [reflexivity|]. apply dec_digits_app.
Qed.

Lemma dec_value_snoc (s : str) (c : char) :
  dec_value (s ++ [c]) = 10 * dec_value s + (c - 48).
Proof. unfold dec_value. rewrite fold_left_app. reflexivity. Qed.

Lemma dec_digits_value (f : nat) :
  forall n, 0 <= n < 2 ^ Z.of_nat f -> dec_value (dec_digits f n []) = n.
Proof.
  induction f as [|f IH]; intros n Hn.
  - simpl in *. unfold dec_value. simpl. lia.
  - rewrite dec_digits_step.
    destruct (Z.ltb_spec n 10) as [Hlt|Hge].
    + unfold dec_value; cbn [fold_left]. rewrite Z.mod_small by lia. lia.
    + rewrite dec_value_snoc, IH.
      * pose proof (Z.div_mod n 10 ltac:(lia)). lia.
      * rewrite Nat2Z.inj_succ, Z.pow_succ_r in Hn by lia.
        split; [apply Z.div_pos; lia|].
        apply Z.div_lt_upper_bound; lia.
Qed.

Lemma decimal_fuel (n : Z) :
  0 <= n -> 0 <= n < 2 ^ Z.of_nat (S (Z.to_nat (Z.log2 n))).
Proof.
  intros Hn. split; [assumption|].
  rewrite Nat2Z.inj_succ, Z2Nat.id by apply Z.log2_nonneg.
  destruct (Z.eq_dec n 0) as [->|Hne]; [reflexivity|].
  apply Z.log2_spec. lia.
Qed.

Lemma decimal_value (n : Z) : 0 <= n -> dec_value (decimal n) = n.
Proof. intros Hn. apply dec_digits_value, decimal_fuel, Hn. Qed.

Lemma dec_digits_all_digits (f : nat) :
  forall n acc,
    Forall (fun c => ascii_isdigit c = true) acc ->
    Forall (fun c => ascii_isdigit c = true) (dec_digits f n acc).
Proof.
  induction f as [|f IH]; intros n acc Hacc; simpl; [assumption|].
  assert (Hd : ascii_isdigit (48 + n mod 10) = true).
  { unfold ascii_isdigit. pose proof (Z.mod_pos_bound n 10 ltac:(lia)).
    apply andb_true_iff; split; apply Z.leb_le; lia. }
  destruct (n <? 10); [|apply IH]; constructor; assumption.
Qed.

Lemma decimal_all_digits (n : Z) :
  Forall (fun c => ascii_isdigit c = true) (decimal n).
Proof. apply dec_digits_all_digits. constructor. Qed.

Lemma dec_digits_length_le (f : nat) :
  forall n k, 0 <= n < 10 ^ Z.of_nat (S k) ->
    (length (dec_digits f n []) <= S k)%nat.
Proof.
  induction f as [|f IH]; intros n k Hn; [simpl; lia|].
  rewrite dec_digits_step.
  destruct (Z.ltb_spec n 10) as [Hlt|Hge]; [simpl; lia|].
  rewrite length_app; simpl.
  destruct k as [|k]; [simpl in Hn; lia|].
  enough (length (dec_digits f (n / 10) []) <= S k)%nat by lia.
  apply IH.
  rewrite (Nat2Z.inj_succ (S k)), Z.pow_succ_r in Hn by lia.
  split; [apply Z.div_pos; lia|].
  apply Z.div_lt_upper_bound; lia.
Qed.

Lemma dec_digits_length_ge (f : nat) :
  forall n k, 0 <= n < 2 ^ Z.of_nat f -> 10 ^ Z.of_nat k <= n ->
    (S k <= length (dec_digits f n []))%nat.
Proof.
  induction f as [|f IH]; intros n k Hn Hk.
  - simpl in Hn. pose proof (Z.pow_pos_nonneg 10 (Z.of_nat k)). lia.
  - rewrite dec_digits_step.
    destruct (Z.ltb_spec n 10) as [Hlt|Hge].
    + destruct k as [|k]; [simpl; lia|].
      rewrite Nat2Z.inj_succ, Z.pow_succ_r in Hk by lia.
      pose proof (Z.pow_pos_nonneg 10 (Z.of_nat k)). lia.
    + rewrite length_app; simpl.
      destruct k as [|k]; [lia|].
      enough (S k <= length (dec_digits f (n / 10) []))%nat by lia.
      rewrite Nat2Z.inj_succ, Z.pow_succ_r in Hk, Hn by lia.
      apply IH.
      * split; [apply Z.div_pos; lia|].
        apply Z.div_lt_upper_bound; lia.
      * apply Z.div_le_lower_bound; lia.
Qed.


Lemma zfill_length (w : nat) (s : str) :
  length (zfill w s) = Nat.max w (length s).
Proof. unfold zfill. rewrite length_app, repeat_length. lia. Qed.

Lemma zfill_value (w : nat) (s : str) : dec_value (zfill w s) = dec_value s.
Proof.
  unfold zfill, dec_value. rewrite fold_left_app. f_equal.
  induction (w - length s)%nat as [|k IH]; simpl; [reflexivity|].
  exact IH.
Qed.

Lemma zfill_all_digits (w : nat) (s : str) :
  Forall (fun c => ascii_isdigit c = true) s ->
  Forall (fun c => ascii_isdigit c = true) (zfill w s).
Proof.
  intros Hs. unfold zfill. apply Forall_app; split; [|assumption].
  apply Forall_forall. intros c Hc. apply repeat_spec in Hc. subst.
  reflexivity.
Qed.

Lemma zfill_long (w : nat) (s : str) :
  (w <= length s)%nat -> zfill w s = s.
Proof.
  intros Hw. unfold zfill. replace (w - length s)%nat with 0%nat by lia.
  reflexivity.
Qed.

(** Facts about the cohort field of a reference. *)
Lemma format_03d_nonneg (n : Z) :
  0 <= n ->
  Forall (fun c => ascii_isdigit c = true) (format_03d n)
  /\ dec_value (format_03d n) = n
  /\ (n <= 999 -> length (format_03d n) = 3%nat)
  /\ (999 < n -> format_03d n = decimal n /\ (3 < length (format_03d n))%nat).
Proof.
  intros Hn. unfold format_03d.
  destruct (Z.ltb_spec n 0) as [Hneg|_]; [lia|].
  repeat split.
  - apply zfill_all_digits, decimal_all_digits.
  - rewrite zfill_value. apply decimal_value, Hn.
  - intros Hle. rewrite zfill_length.
    pose proof (dec_digits_length_le (S (Z.to_nat (Z.log2 n))) n 2) as Hlen.
    fold (decimal n) in Hlen.
    assert (length (decimal n) <= 3)%nat by (apply Hlen; simpl; lia).
    lia.
  - apply zfill_long.
    pose proof (dec_digits_length_ge _ n 3 (decimal_fuel n Hn)) as Hlen.
    fold (decimal n) in Hlen.
    assert (4 <= length (decimal n))%nat by (apply Hlen; simpl; lia). lia.
  - rewrite zfill_length.
    pose proof (dec_digits_length_ge _ n 3 (decimal_fuel n Hn)) as Hlen.
    fold (decimal n) in Hlen.
    assert (4 <= length (decimal n))%nat by (apply Hlen; simpl; lia). lia.
Qed.

End Decimal.

(** ** Row lookup and row identifiers *)

Section Rows.
Context {R : Type} (key : R -> Z).

Lemma find_absent (k : Z) (rows : list R) :
  (forall r, In r rows -> key r <> k) ->
  find (fun r => key r =? k) rows = None.
Proof.
  induction rows as [|r rows IH]; intros Hk; simpl; [reflexivity|].
  destruct (Z.eqb_spec (key r) k) as [He|_].
  - exfalso. apply (Hk r); [left; reflexivity | exact He].
  - apply IH. intros r' Hr'. apply Hk. right; exact Hr'.
Qed.


Lemma find_appended (k : Z) (rows : list R) (new : R) :
  (forall r, In r rows -> key r <> k) -> key new = k ->
  find (fun r => key r =? k) (rows ++ [new]) = Some new.
Proof.
  intros Hk Hnew.
  induction rows as [|r rows IH]; simpl.
  - rewrite Hnew, Z.eqb_refl. reflexivity.
  - destruct (Z.eqb_spec (key r) k) as [He|_].
    + exfalso. apply (Hk r); [left; reflexivity | exact He].
    + apply IH. intros r' Hr'. apply Hk. right; exact Hr'.
Qed.

(** [UPDATE ... WHERE id = k] followed by [SELECT ... WHERE id = k]. *)
Lemma find_updated (k : Z) (f : R -> R) (rows : list R) :
  (forall r, key (f r) = key r) ->
  find (fun r => key r =? k)
       (map (fun r => if key r =? k then f r else r) rows)
  = option_map f (find (fun r => key r =? k) rows).
Proof.
  intros Hf. induction rows as [|r rows IH]; simpl; [reflexivity|].
  destruct (Z.eqb_spec (key r) k) as [He|Hne].
  - rewrite Hf. destruct (Z.eqb_spec (key r) k); [reflexivity|contradiction].
  - destruct (Z.eqb_spec (key r) k); [contradiction|exact IH].
Qed.


End Rows.

Lemma max_of_bounds (xs : list Z) :
  forall x, x <= max_of x xs /\ (forall y, In y xs -> y <= max_of x xs).
Proof.
  unfold max_of. induction xs as [|a xs IH]; intros x; simpl.
  - split; [lia | intros y []].
  - destruct (IH (Z.max x a)) as [H1 H2]. split; [lia|].
    intros y [<-|Hy]; [lia | apply H2, Hy].
Qed.

Lemma max_of_member (xs : list Z) : forall x, In (max_of x xs) (x :: xs).
Proof.
  unfold max_of. induction xs as [|a xs IH]; intros x; simpl.
  - left; reflexivity.
  - destruct (IH (Z.max x a)) as [He|Hin].
    + destruct (Z.max_spec x a) as [[_ Hm]|[_ Hm]].
      * right; left. rewrite <- He. symmetry; exact Hm.
      * left. rewrite <- He. symmetry; exact Hm.
    + right; right; exact Hin.
Qed.

Lemma next_rowid_fresh (ids : list Z) (i : Z) :
  In i ids -> i < next_rowid ids.
Proof.
  destruct ids as [|a ids]; intros Hin; [destruct Hin|].
  simpl. destruct (max_of_bounds ids a) as [H1 H2].
  destruct Hin as [<-|Hin]; [lia|]. specialize (H2 _ Hin). lia.
Qed.

(** ** Unknown identifiers *)

Lemma fetch_by_id_found {R} (select : Z -> DB -> option R) (k : Z) (db : DB)
  (r : R) :
  select k db = Some r -> fetch_by_id select k db = (Ok (Some r), db).
Proof. intros Hr. unfold fetch_by_id. rewrite Hr. reflexivity. Qed.

Lemma fetch_by_id_missing {R} (select : Z -> DB -> option R) (k : Z)
  (db : DB) :
  select k db = None ->
  fetch_by_id select k db
  = if is_int64 k then (Ok None, db) else (HTTPError 500, db).
Proof. intros Hr. unfold fetch_by_id. rewrite Hr. reflexivity. Qed.

Lemma select_template_brief_absent (k : Z) (db : DB) :
  (forall t, In t (course_templates db) -> t_id t <> k) ->
  Courses.select_template_brief k db = None.
Proof.
  intros Hno. unfold Courses.select_template_brief.
  rewrite (find_absent t_id _ _ Hno). reflexivity.
Qed.

Section NotFound.
Context {U : UnicodeData} {H : Users.PasswordHasher}.

(** C8. A create-course request whose template identifier matches no
    template row, and a partial update (template, participant, user)
    whose identifier matches no row, fail and leave the database exactly
    as it was.  The status is 404 when the identifier is a signed 64-bit
    integer and 500 when it is not. *)
Theorem unknown_id_is_refused_and_state_kept (db : DB) :
  (forall payload,
      (forall t, In t (course_templates db) ->
                 t_id t <> Courses.template_id payload) ->
      Courses.create_course payload db
      = (HTTPError (if is_int64 (Courses.template_id payload)
                    then 404 else 500), db))
  /\ (forall k updates,
         (forall t, In t (course_templates db) -> t_id t <> k) ->
         CourseTemplates.update_course_template k updates db
         = (HTTPError (if is_int64 k then 404 else 500), db))
  /\ (forall k payload,
         (forall p, In p (participants db) -> p_id p <> k) ->
         Participants.update_participant k payload db
         = (HTTPError (if is_int64 k then 404 else 500), db))
  /\ (forall k updates,
         (forall u, In u (users db) -> u_id u <> k) ->
         Users.update_user k updates db
         = (HTTPError (if is_int64 k then 404 else 500), db)).
Proof.
  split; [|split; [|split]].
  - intros payload Hno.
    unfold Courses.create_course. unfold bind at 1.
    rewrite (fetch_by_id_missing _ _ _ (select_template_brief_absent _ _ Hno)).
    destruct (is_int64 (Courses.template_id payload)); reflexivity.
  - intros k updates Hno.
    unfold CourseTemplates.update_course_template. unfold bind at 1.
    rewrite (fetch_by_id_missing CourseTemplates.select_template k db
               (find_absent t_id _ _ Hno)).
    destruct (is_int64 k); reflexivity.
  - intros k payload Hno.
    unfold Participants.update_participant. unfold bind at 1.
    rewrite (fetch_by_id_missing Participants.select_participant k db
               (find_absent p_id _ _ Hno)).
    destruct (is_int64 k); reflexivity.
  - intros k updates Hno.
    unfold Users.update_user. unfold bind at 1.
    rewrite (fetch_by_id_missing Users.select_user k db
               (find_absent u_id _ _ Hno)).
    destruct (is_int64 k); reflexivity.
Qed.

End NotFound.

(** Template 9223372036854775808 = 2^63 does not exist, and the update
    that names it is answered with status 500, not 404. *)
Lemma unknown_id_beyond_int64_is_500 :
  (forall t, In t (course_templates Sample.db_people) -> t_id t <> 2 ^ 63)
  /\ CourseTemplates.update_course_template (2 ^ 63)
       Sample.no_template_update Sample.db_people
     = (HTTPError 500, Sample.db_people)
  /\ CourseTemplates.update_course_template (2 ^ 63)
       Sample.no_template_update Sample.db_people
     <> (HTTPError 404, Sample.db_people).
Proof.
  split; [|split].
  - simpl. intros t [<-|[]]. simpl. lia.
  - reflexivity.
  - discriminate.
Qed.

Lemma unknown_id_is_refused_and_state_kept_witness :
  (Courses.create_course (U := Sample.latin1) (Sample.payload_plain 99 None)
     Sample.db_people = (HTTPError 404, Sample.db_people)
   /\ Courses.create_course (U := Sample.latin1)
        (Sample.payload_plain (- 2 ^ 63 - 1) None)
        Sample.db_people = (HTTPError 500, Sample.db_people))
  /\ (CourseTemplates.update_course_template 99 Sample.no_template_update
        Sample.db_people = (HTTPError 404, Sample.db_people)
      /\ CourseTemplates.update_course_template (2 ^ 63 - 1)
           Sample.no_template_update
           Sample.db_people = (HTTPError 404, Sample.db_people))
  /\ (Participants.update_participant 99 Sample.no_participant_update
        Sample.db_people = (HTTPError 404, Sample.db_people)
      /\ Participants.update_participant (2 ^ 63)
           Sample.no_participant_update
           Sample.db_people = (HTTPError 500, Sample.db_people))
  /\ (Users.update_user (H := Sample.tagging_hasher) 99 Sample.no_user_update
        Sample.db_people = (HTTPError 404, Sample.db_people)
      /\ Users.update_user (H := Sample.tagging_hasher) (2 ^ 64)
           Sample.no_user_update
           Sample.db_people = (HTTPError 500, Sample.db_people)).
Proof.
  destruct (unknown_id_is_refused_and_state_kept
              (U := Sample.latin1) (H := Sample.tagging_hasher)
              Sample.db_people) as (Hc & Ht & Hp & Hu).
  split; [|split; [|split]]; split.
  - apply (Hc (Sample.payload_plain 99 None)).
    simpl. intros t [<-|[]]. simpl. lia.
  - apply (Hc (Sample.payload_plain (- 2 ^ 63 - 1) None)).
    simpl. intros t [<-|[]]. simpl. lia.
  - apply (Ht 99). simpl. intros t [<-|[]]. simpl. lia.
  - apply (Ht (2 ^ 63 - 1)). simpl. intros t [<-|[]]. simpl. lia.
  - apply (Hp 99). simpl. intros p [<-|[]]. simpl. lia.
  - apply (Hp (2 ^ 63)). simpl. intros p [<-|[]]. simpl. lia.
  - apply (Hu 99). simpl. intros u [<-|[]]. simpl. lia.
  - apply (Hu (2 ^ 64)). simpl. intros u [<-|[]]. simpl. lia.
Defined.

(** ** Course creation *)

Section Creation.
Context {U : UnicodeData}.

Lemma next_cohort_runs (tid : Z) (year : str) (db : DB) :
  exists cohort,
    Courses._get_next_cohort_number tid year db = (Ok cohort, db)
    /\ cohort =
       match fold_left Courses.cohort_step
               (Courses.select_course_refs tid (Courses.year_pattern year) db)
               [] with
       | [] => 1
       | n :: rest => max_of n rest + 1
       end.
Proof. eexists. split; reflexivity. Qed.

(** What a create-course request with a known template does: the
    allocation is read-only, one row is appended, and the read-back
    succeeds. *)
Lemma create_course_stores (db : DB) (payload : Courses.CourseCreate)
  (tmpl : Courses.TemplateBrief) :
  Courses.select_template_brief (Courses.template_id payload) db = Some tmpl ->
  exists cohort course row,
    Courses._get_next_cohort_number (Courses.template_id payload)
      (Courses.strftime_Y (Courses.course_date payload)) db = (Ok cohort, db)
    /\ Courses.create_course payload db
       = (Ok course, with_courses (fun rows => rows ++ [row]) db)
    /\ c_id row = next_rowid (map c_id (courses db))
    /\ c_course_ref row =
       Some (Courses._get_template_shortname (Courses.tb_name tmpl)
             ++ [45] ++ Courses.strftime_Y (Courses.course_date payload)
             ++ [45] ++ format_03d cohort)
    /\ c_course_date row =
       Some (Courses.strftime_Ymd (Courses.course_date payload))
    /\ c_template_id row = Some (Courses.template_id payload)
    /\ c_course_title row =
       Some (or_str (Courses.tb_course_title tmpl) (Courses.tb_name tmpl))
    /\ c_trainer row = Some (Courses.trainer payload)
    /\ c_venue_id row = Courses.venue_id payload
    /\ c_capacity row =
       Some (match Courses.capacity payload with
             | Some c =>
                 if negb (c =? 0) && (0 <? c) then c
                 else match Courses.tb_default_capacity tmpl with
                      | Some d => if d =? 0 then 12 else d
                      | None => 12
                      end
             | None =>
                 match Courses.tb_default_capacity tmpl with
                 | Some d => if d =? 0 then 12 else d
                 | None => 12
                 end
             end)
    /\ c_status row =
       Some (if truthy (Courses.payload_status payload)
             then Courses.payload_status payload
             else of_string "Planned")
    /\ Courses.code course =
       Courses._get_template_shortname (Courses.tb_name tmpl)
       ++ [45] ++ Courses.strftime_Y (Courses.course_date payload)
       ++ [45] ++ format_03d cohort.
Proof.
  intros Htmpl.
  destruct (next_cohort_runs (Courses.template_id payload)
              (Courses.strftime_Y (Courses.course_date payload)) db)
    as (cohort & Hrun & _).
  exists cohort.
  unfold Courses.create_course.
  unfold bind at 1. rewrite (fetch_by_id_found _ _ _ _ Htmpl).
  unfold bind at 1. rewrite Hrun.
  unfold Courses.insert_course, bind, query, execute, ret.
  unfold Courses.select_course_joined.
  cbn [courses with_courses].
  rewrite (find_appended c_id).
  - cbn -[format_03d Courses.strftime_Y Courses.strftime_Ymd
           Courses._get_template_shortname of_string or_str next_rowid
           Z.eqb Z.ltb].
    do 2 eexists. repeat (split; [reflexivity|]). reflexivity.
  - intros r Hr Heq.
    pose proof (next_rowid_fresh (map c_id (courses db)) (c_id r)
                  (in_map c_id _ _ Hr)). lia.
  - reflexivity.
Qed.

End Creation.

(** ** The LIKE filter of the cohort scan *)

Section Like.

Lemma like_percent (p s : str) :
  like (37 :: p) s =
  like p s || match s with [] => false | _ :: s' => like (37 :: p) s' end.
Proof. destruct s; reflexivity. Qed.

Lemma like_literal (c : Z) (p s : str) :
  c <> 37 ->
  like (c :: p) s =
  match s with
  | [] => false
  | d :: s' => ((c =? 95) || like_char_eq c d) && like p s'
  end.
Proof.
  intros Hc. cbn [like].
  destruct (Z.eqb_spec c 37) as [He|_]; [contradiction|reflexivity].
Qed.

Lemma like_percent_only (s : str) : like [37] s = true.
Proof.
  induction s as [|d s IH]; [reflexivity|].
  rewrite like_percent, IH. apply orb_true_r.
Qed.

Lemma plain_char_eq (c d : Z) :
  plain_char c -> (c =? 95) || like_char_eq c d = (c =? d).
Proof.
  intros (H37 & H95 & Hup & Hlo).
  destruct (Z.eqb_spec c 95) as [|_]; [contradiction|]. simpl.
  unfold like_char_eq, like_fold. rewrite Hup.
  unfold ascii_isupper, ascii_islower in *.
  destruct (Z.eqb_spec c d) as [<-|Hne].
  - rewrite Hup. apply Z.eqb_refl.
  - destruct ((65 <=? d) && (d <=? 90)) eqn:Hd.
    + apply andb_true_iff in Hd. destruct Hd as [H1 H2].
      apply Z.leb_le in H1, H2. apply Z.eqb_neq. intros He.
      assert (Hc : (97 <=? c) && (c <=? 122) = true).
      { apply andb_true_iff; split; apply Z.leb_le; lia. }
      congruence.
    + apply Z.eqb_neq, Hne.
Qed.

Lemma like_prefix (lit : str) :
  Forall plain_char lit -> forall s, like (lit ++ [37]) s = is_prefix lit s.
Proof.
  induction 1 as [|c lit Hc _ IH]; intros s.
  - simpl app. rewrite like_percent_only. destruct s; reflexivity.
  - simpl app. rewrite like_literal by apply Hc.
    destruct s as [|d s]; [reflexivity|].
    rewrite plain_char_eq by exact Hc. rewrite IH. reflexivity.
Qed.

(** With a plain literal, [LIKE '%lit%'] is substring containment. *)
Lemma like_infix (lit : str) :
  Forall plain_char lit ->
  forall s, like (37 :: lit ++ [37]) s = contains lit s.
Proof.
  intros Hlit. induction s as [|d s IH].
  - rewrite like_percent, like_prefix by exact Hlit.
    destruct lit; reflexivity.
  - rewrite like_percent, like_prefix, IH by exact Hlit. reflexivity.
Qed.

Lemma digit_is_plain (c : Z) : ascii_isdigit c = true -> plain_char c.
Proof.
  unfold ascii_isdigit, plain_char, ascii_isupper, ascii_islower.
  intros Hd. apply andb_true_iff in Hd. destruct Hd as [H1 H2].
  apply Z.leb_le in H1, H2.
  repeat split; try lia; apply andb_false_iff; left; apply Z.leb_gt; lia.
Qed.

Lemma dash_is_plain : plain_char 45.
Proof. repeat split; try lia; reflexivity. Qed.

Lemma digits_are_plain (s : str) :
  Forall (fun c => ascii_isdigit c = true) s -> Forall plain_char s.
Proof. apply Forall_impl. exact digit_is_plain. Qed.

Lemma strftime_Y_plain (d : Courses.date) :
  Forall plain_char (Courses.strftime_Y d).
Proof.
  unfold Courses.strftime_Y. apply digits_are_plain, decimal_all_digits.
Qed.

(** The year segment is the year of the date, in decimal. *)
Lemma strftime_Y_year (d : Courses.date) :
  0 <= Courses.year d ->
  Forall (fun c => ascii_isdigit c = true) (Courses.strftime_Y d)
  /\ dec_value (Courses.strftime_Y d) = Courses.year d
  /\ (1000 <= Courses.year d <= 9999 ->
      length (Courses.strftime_Y d) = 4%nat).
Proof.
  intros Hy. unfold Courses.strftime_Y.
  split; [apply decimal_all_digits|].
  split; [apply decimal_value, Hy|].
  intros Hr.
  pose proof (dec_digits_length_le
                (S (Z.to_nat (Z.log2 (Courses.year d)))) (Courses.year d) 3)
    as Hle.
  pose proof (dec_digits_length_ge _ (Courses.year d) 3
                (decimal_fuel _ Hy)) as Hge.
  fold (decimal (Courses.year d)) in Hle, Hge.
  assert (length (decimal (Courses.year d)) <= 4)%nat
    by (apply Hle; simpl; lia).
  assert (4 <= length (decimal (Courses.year d)))%nat
    by (apply Hge; simpl; lia).
  lia.
Qed.

Lemma year_pattern_infix (year : str) :
  Courses.year_pattern year = 37 :: year_infix year ++ [37].
Proof.
  unfold Courses.year_pattern, year_infix. simpl.
  rewrite <- app_assoc. reflexivity.
Qed.

Lemma year_infix_plain (year : str) :
  Forall plain_char year -> Forall plain_char (year_infix year).
Proof.
  intros Hy. unfold year_infix. constructor; [exact dash_is_plain|].
  apply Forall_app; split; [exact Hy|].
  constructor; [exact dash_is_plain|constructor].
Qed.

Lemma like_year_pattern (year : str) (o : option str) :
  Forall plain_char year ->
  like_opt (Courses.year_pattern year) o =
  match o with Some ref => contains (year_infix year) ref | None => false end.
Proof.
  intros Hy. destruct o as [ref|]; [|reflexivity]. cbn [like_opt].
  rewrite year_pattern_infix. apply like_infix, year_infix_plain, Hy.
Qed.

(** Substrings and splitting. *)
Lemma is_prefix_app (p s : str) :
  is_prefix p s = true -> exists post, s = p ++ post.
Proof.
  revert s. induction p as [|a p IH]; intros s Hp.
  - exists s. reflexivity.
  - destruct s as [|b s]; [discriminate|]. simpl in Hp.
    apply andb_true_iff in Hp. destruct Hp as [Hab Hp].
    apply Z.eqb_eq in Hab. subst b.
    destruct (IH _ Hp) as [post ->]. exists post. reflexivity.
Qed.

Lemma contains_app (needle hay : str) :
  contains needle hay = true -> exists pre post, hay = pre ++ needle ++ post.
Proof.
  induction hay as [|b hay IH]; simpl; intros Hc.
  - rewrite orb_false_r in Hc. destruct (is_prefix_app _ _ Hc) as [post ->].
    exists [], post. reflexivity.
  - apply orb_true_iff in Hc. destruct Hc as [Hp|Hc].
    + destruct (is_prefix_app _ _ Hp) as [post ->].
      exists [], post. reflexivity.
    + destruct (IH Hc) as (pre & post & ->).
      exists (b :: pre), post. reflexivity.
Qed.

Lemma is_prefix_of_app (p post : str) : is_prefix p (p ++ post) = true.
Proof.
  induction p as [|a p IH]; [reflexivity|]. simpl.
  rewrite Z.eqb_refl. exact IH.
Qed.

Lemma contains_of_prefix (needle hay : str) :
  is_prefix needle hay = true -> contains needle hay = true.
Proof. intros Hp. destruct hay; simpl; rewrite Hp; reflexivity. Qed.

Lemma contains_of_app (needle pre post : str) :
  contains needle (pre ++ needle ++ post) = true.
Proof.
  induction pre as [|b pre IH].
  - apply contains_of_prefix. exact (is_prefix_of_app needle post).
  - simpl. rewrite IH. apply orb_true_r.
Qed.

(** [contains] decides the substring relation. *)
Lemma contains_spec (needle hay : str) :
  contains needle hay = true <->
  exists pre post, hay = pre ++ needle ++ post.
Proof.
  split; [apply contains_app|].
  intros (pre & post & ->). apply contains_of_app.
Qed.

Lemma split_length (sep : Z) (s : str) :
  length (split sep s) = S (count_occ Z.eq_dec s sep).
Proof.
  induction s as [|c s IH]; [reflexivity|].
  cbn [split count_occ].
  destruct (Z.eqb_spec c sep) as [He|Hne].
  - destruct (Z.eq_dec c sep); [|contradiction]. simpl. rewrite IH.
    reflexivity.
  - destruct (Z.eq_dec c sep); [contradiction|].
    destruct (split sep s) eqn:Hs; simpl in *; lia.
Qed.

Lemma year_infix_has_two_dashes (year pre post : str) :
  (3 <= length (split 45 (pre ++ year_infix year ++ post)))%nat.
Proof.
  rewrite split_length. unfold year_infix.
  rewrite !count_occ_app. simpl. lia.
Qed.

End Like.

(** ** The cohort scan *)

Section CohortScan.
Context {U : UnicodeData}.

Lemma contains_year_infix_truthy (year ref : str) :
  contains (year_infix year) ref = true ->
  truthy ref = true /\ (length (split 45 ref) <? 3)%nat = false.
Proof.
  intros Hc. destruct (contains_app _ _ Hc) as (pre & post & ->). split.
  - destruct pre; reflexivity.
  - apply Nat.ltb_ge, year_infix_has_two_dashes.
Qed.

Lemma scan_collects (tid : Z) (year : str) (rows : list CourseRow) :
  Forall plain_char year ->
  forall acc,
    fold_left Courses.cohort_step
      (map c_course_ref
         (filter (fun c => eq_opt tid (c_template_id c)
                           && like_opt (Courses.year_pattern year)
                                (c_course_ref c)) rows)) acc
    = acc ++ collected tid year rows.
Proof.
  intros Hy. induction rows as [|c rows IH]; intros acc.
  - simpl. rewrite app_nil_r. reflexivity.
  - cbn [filter collected]. rewrite like_year_pattern by exact Hy.
    destruct (c_template_id c) as [t|]; cbn [eq_opt andb]; [|apply IH].
    destruct (c_course_ref c) as [ref|] eqn:Href;
      [|rewrite andb_false_r; apply IH].
    destruct ((t =? tid) && contains (year_infix year) ref) eqn:Hsel;
      [|apply IH].
    apply andb_true_iff in Hsel. destruct Hsel as [_ Hc].
    destruct (contains_year_infix_truthy _ _ Hc) as [Ht Hl].
    cbn [map fold_left]. unfold Courses.cohort_step at 2.
    rewrite Href, Ht, Hl. cbn [negb]. unfold final_segment_number.
    destruct (py_int (last (split 45 ref) [])) as [n|]; [|apply IH].
    rewrite IH, <- app_assoc. reflexivity.
Qed.

Lemma maximum_max (ys : list Z) :
  forall a b, maximum (Z.max a b) ys = Z.max a (maximum b ys).
Proof.
  induction ys as [|y ys IH]; intros a b; simpl; [reflexivity|].
  apply eq_sym, Z.max_assoc.
Qed.

Lemma max_of_maximum (xs : list Z) : forall x, max_of x xs = maximum x xs.
Proof.
  unfold max_of. induction xs as [|y ys IH]; intros x; simpl; [reflexivity|].
  rewrite IH. apply maximum_max.
Qed.

Lemma next_cohort_above (nums : list Z) :
  Forall (fun n => n < next_cohort nums) nums.
Proof.
  destruct nums as [|n rest]; [constructor|].
  unfold next_cohort. rewrite <- max_of_maximum.
  destruct (max_of_bounds rest n) as [H1 H2].
  constructor; [lia|]. apply Forall_forall. intros y Hy.
  specialize (H2 _ Hy). lia.
Qed.

Lemma next_cohort_attained (nums : list Z) :
  (nums = [] /\ next_cohort nums = 1) \/ In (next_cohort nums - 1) nums.
Proof.
  destruct nums as [|n rest]; [left; split; reflexivity|right].
  unfold next_cohort. rewrite <- max_of_maximum.
  replace (max_of n rest + 1 - 1) with (max_of n rest) by lia.
  apply max_of_member.
Qed.

Lemma scan_result (tid : Z) (year : str) (db : DB) :
  Forall plain_char year ->
  Courses._get_next_cohort_number tid year db
  = (Ok (next_cohort (collected tid year (courses db))), db).
Proof.
  intros Hy.
  unfold Courses._get_next_cohort_number, bind, query, ret,
    Courses.select_course_refs.
  rewrite (scan_collects tid year (courses db) Hy []). simpl app.
  destruct (collected tid year (courses db)) as [|n rest]; [reflexivity|].
  unfold next_cohort. rewrite max_of_maximum. reflexivity.
Qed.

(** C1. The next cohort number of a template and a target year is
    [max(collected) + 1], where [collected] holds the final
    [-]-separated segments that parse as integers among the template's
    references containing [-<year>-], and 1 when nothing was collected:
    it exceeds every collected number and, unless it is 1 for an empty
    collection, its predecessor is one of them.  The scan never raises:
    unparsable segments are skipped.  For the references X-2024-001,
    X-2024-003 and X-2024-abc the collection is 1, 3 and the next
    cohort is 4. *)
Theorem next_cohort_is_max_plus_one (db : DB) (tid : Z) (d : Courses.date) :
  let year := Courses.strftime_Y d in
  let nums := collected tid year (courses db) in
  Courses._get_next_cohort_number tid year db = (Ok (next_cohort nums), db)
  /\ Forall (fun n => n < next_cohort nums) nums
  /\ ((nums = [] /\ next_cohort nums = 1) \/ In (next_cohort nums - 1) nums)
  /\ collected 1 (of_string "2024") (courses Sample.db_three_refs) = [1; 3]
  /\ Courses._get_next_cohort_number 1 (of_string "2024") Sample.db_three_refs
     = (Ok 4, Sample.db_three_refs).
Proof.
  intros year nums. split; [|split; [|split; [|split]]].
  - apply scan_result, strftime_Y_plain.
  - apply next_cohort_above.
  - apply next_cohort_attained.
  - reflexivity.
  - reflexivity.
Qed.

End CohortScan.

(** ** Parsed cohort numbers are not negative *)

Section ParsedNumbers.
Context {U : UnicodeData}.

Lemma lstrip_by_incl (p : Z -> bool) (s : str) (c : Z) :
  In c (lstrip_by p s) -> In c s.
Proof.
  induction s as [|d s IH]; simpl; [tauto|].
  destruct (p d); [right; apply IH; assumption | tauto].
Qed.


Lemma to_ascii_digit_dash (c : Z) : to_ascii_digit c = 45 -> c = 45.
Proof.
  unfold to_ascii_digit.
  destruct (c <? 127); [tauto|].
  destruct (isspace c); [discriminate|].
  destruct (Z.ltb_spec (ucd_decimal c) 0); [discriminate|lia].
Qed.

Lemma int_body_nonneg (s : str) :
  forall prev acc v, 0 <= acc -> int_body s prev acc = Some v -> 0 <= v.
Proof.
  induction s as [|c s IH]; intros prev acc v Hacc; cbn [int_body].
  - destruct (prev =? 95); [discriminate|]. intros [= <-]. exact Hacc.
  - destruct (c =? 95).
    + destruct (prev =? 95); [discriminate|]. apply IH, Hacc.
    + destruct (ascii_isdigit c) eqn:Hd; [|discriminate].
      apply IH. unfold ascii_isdigit in Hd.
      apply andb_true_iff in Hd. destruct Hd as [H1 _].
      apply Z.leb_le in H1. lia.
Qed.

Lemma unsigned_literal_nonneg (a : str) (v : Z) :
  match rstrip_by c_isspace a with
  | [] => None
  | c :: _ =>
      if c =? 95 then None
      else match int_body (rstrip_by c_isspace a) 0 0 with
           | Some v0 => Some (1 * v0)
           | None => None
           end
  end = Some v -> 0 <= v.
Proof.
  destruct (rstrip_by c_isspace a) as [|c r]; [discriminate|].
  destruct (c =? 95); [discriminate|].
  destruct (int_body (c :: r) 0 0) as [v0|] eqn:Hb; [|discriminate].
  intros Hv. apply int_body_nonneg in Hb; [|lia].
  assert (1 * v0 = v) by congruence. lia.
Qed.

Lemma py_int_nonneg (s : str) (v : Z) :
  ~ In 45 s -> py_int s = Some v -> 0 <= v.
Proof.
  intros Hs. unfold py_int.
  assert (Ha : ~ In 45 (lstrip_by c_isspace (map to_ascii_digit s))).
  { intros Hin. apply lstrip_by_incl, in_map_iff in Hin.
    destruct Hin as (c & Hc & Hin). apply to_ascii_digit_dash in Hc.
    subst c. exact (Hs Hin). }
  destruct (lstrip_by c_isspace (map to_ascii_digit s)) as [|c a];
    [discriminate|].
  destruct (Z.eqb_spec c 45) as [->|_];
    [exfalso; apply Ha; left; reflexivity|].
  destruct (c =? 43); apply unsigned_literal_nonneg.
Qed.

Lemma split_nonempty (sep : Z) (s : str) : split sep s <> [].
Proof.
  intros He. pose proof (split_length sep s) as Hl. rewrite He in Hl.
  discriminate.
Qed.

Lemma split_no_sep (sep : Z) (s : str) :
  forall p, In p (split sep s) -> ~ In sep p.
Proof.
  induction s as [|c s IH]; intros p; cbn [split].
  - intros [<-|[]] [].
  - destruct (Z.eqb_spec c sep) as [He|Hne].
    + intros [<-|Hin]; [intros []|apply IH, Hin].
    + destruct (split sep s) as [|q qs] eqn:Hs.
      * intros [<-|[]] [Hc|[]]. contradiction.
      * intros [<-|Hin].
        -- intros [Hc|Hin]; [contradiction|].
           exact (IH q (or_introl eq_refl) Hin).
        -- apply IH. right. exact Hin.
Qed.

Lemma last_member {A} (l : list A) (d : A) : l <> [] -> In (last l d) l.
Proof.
  induction l as [|a l IH]; [contradiction|]. intros _.
  destruct l as [|b l]; [left; reflexivity|].
  right. apply IH. discriminate.
Qed.

Lemma final_segment_nonneg (ref : str) (n : Z) :
  final_segment_number ref = Some n -> 0 <= n.
Proof.
  unfold final_segment_number. apply py_int_nonneg.
  apply (split_no_sep 45 ref). apply last_member, split_nonempty.
Qed.

Lemma collected_nonneg (tid : Z) (year : str) (rows : list CourseRow) :
  Forall (fun n => 0 <= n) (collected tid year rows).
Proof.
  induction rows as [|c rows IH]; [constructor|]. cbn [collected].
  destruct (c_template_id c) as [t|]; [|exact IH].
  destruct (c_course_ref c) as [ref|]; [|exact IH].
  destruct ((t =? tid) && contains (year_infix year) ref); [|exact IH].
  destruct (final_segment_number ref) as [n|] eqn:Hn; [|exact IH].
  constructor; [apply (final_segment_nonneg ref), Hn | exact IH].
Qed.

Lemma next_cohort_positive (nums : list Z) :
  Forall (fun n => 0 <= n) nums -> 1 <= next_cohort nums.
Proof.
  intros Hn. destruct nums as [|n rest]; [simpl; lia|].
  unfold next_cohort. rewrite <- max_of_maximum.
  destruct (max_of_bounds rest n) as [H1 _].
  inversion Hn; subst. lia.
Qed.

End ParsedNumbers.

(** ** What a created course stores *)

Section StoredCourse.
Context {U : UnicodeData}.

Lemma brief_of_row (k : Z) (db : DB) (t : TemplateRow) :
  CourseTemplates.select_template k db = Some t ->
  Courses.select_template_brief k db =
  Some {| Courses.tb_id := t_id t;
          Courses.tb_name := t_name t;
          Courses.tb_course_title := t_course_title t;
          Courses.tb_default_capacity := t_default_capacity t |}.
Proof.
  unfold CourseTemplates.select_template, Courses.select_template_brief.
  intros ->. reflexivity.
Qed.

Lemma find_mapped {R} (key : R -> Z) (g : R -> R) (k : Z) (rows : list R) :
  (forall r, key (g r) = key r) ->
  find (fun r => key r =? k) (map g rows)
  = option_map g (find (fun r => key r =? k) rows).
Proof.
  intros Hg. induction rows as [|r rows IH]; simpl; [reflexivity|].
  rewrite Hg. destruct (key r =? k); [reflexivity|exact IH].
Qed.

Lemma brief_ignores_defaults (k : Z) (db : DB) dt dv :
  Courses.select_template_brief k
    (with_course_templates (map (with_template_defaults dt dv)) db)
  = Courses.select_template_brief k db.
Proof.
  unfold Courses.select_template_brief. cbn [course_templates with_course_templates].
  rewrite (find_mapped t_id) by reflexivity.
  destruct (find (fun t => t_id t =? k) (course_templates db));
    reflexivity.
Qed.

(** The handler reads the database through the template lookup, the
    course table and the venue table only. *)
Lemma create_course_frame (db1 db2 : DB) (payload : Courses.CourseCreate) :
  Courses.select_template_brief (Courses.template_id payload) db1
  = Courses.select_template_brief (Courses.template_id payload) db2 ->
  courses db1 = courses db2 ->
  venues db1 = venues db2 ->
  fst (Courses.create_course payload db1)
  = fst (Courses.create_course payload db2)
  /\ courses (snd (Courses.create_course payload db1))
     = courses (snd (Courses.create_course payload db2)).
Proof.
  intros Hb Hc Hv.
  unfold Courses.create_course, bind, query, fetch_by_id.
  rewrite Hb.
  destruct (Courses.select_template_brief (Courses.template_id payload) db2)
    as [tmpl|];
    [|destruct (is_int64 (Courses.template_id payload));
      (split; [reflexivity|exact Hc])].
  unfold Courses._get_next_cohort_number, Courses.insert_course,
    Courses.select_course_joined, Courses.select_course_refs,
    Courses.joined_venue_name, bind, query, execute, ret, raise.
  cbn [courses venues with_courses]. rewrite Hc, Hv.
  match goal with
  | |- context [find ?f ?l] => destruct (find f l) as [c|]
  end.
  - match goal with
    | |- context [Courses._row_to_course ?r] =>
        destruct (Courses._row_to_course r)
    end; cbn [fst snd courses with_courses]; rewrite ?Hc; split; reflexivity.
  - cbn [fst snd courses with_courses]; rewrite ?Hc; split; reflexivity.
Qed.

Lemma capacity_rule_matches (proposed default : option Z) :
  match proposed with
  | Some c =>
      if negb (c =? 0) && (0 <? c) then c
      else match default with
           | Some d => if d =? 0 then 12 else d
           | None => 12
           end
  | None =>
      match default with
      | Some d => if d =? 0 then 12 else d
      | None => 12
      end
  end = capacity_rule proposed default.
Proof.
  unfold capacity_rule. destruct proposed as [c|]; [|reflexivity].
  destruct (Z.ltb_spec 0 c) as [Hpos|Hle].
  - destruct (Z.eqb_spec c 0); [lia|reflexivity].
  - rewrite andb_false_r. reflexivity.
Qed.

Lemma collected_nothing (tid : Z) (year : str) (rows : list CourseRow) :
  (forall c ref, In c rows -> c_template_id c = Some tid ->
                 c_course_ref c = Some ref ->
                 contains (year_infix year) ref = false) ->
  collected tid year rows = [].
Proof.
  induction rows as [|c rows IH]; intros Hno; [reflexivity|].
  cbn [collected]. rewrite IH by (intros c' ref Hin; apply Hno; right; exact Hin).
  destruct (c_template_id c) as [t|] eqn:Ht; [|reflexivity].
  destruct (c_course_ref c) as [ref|] eqn:Hr; [|reflexivity].
  destruct (Z.eqb_spec t tid) as [->|_]; [|reflexivity].
  rewrite (Hno c ref (or_introl eq_refl) Ht Hr). reflexivity.
Qed.

(** C3 (as amended). The stored capacity of a created course is the
    proposed capacity when it is present and strictly positive;
    otherwise the template's default_capacity when that is present and
    not zero; otherwise, the template default being absent or zero, the
    fixed default 12.  Whenever the template default is not zero this is
    the rule as specified, and a request with capacity 0 then stores the
    template default. *)
Theorem stored_capacity_rule (db : DB) (payload : Courses.CourseCreate)
  (t : TemplateRow) :
  CourseTemplates.select_template (Courses.template_id payload) db = Some t ->
  exists course row,
    Courses.create_course payload db
    = (Ok course, with_courses (fun rows => rows ++ [row]) db)
    /\ c_capacity row =
       Some (capacity_rule (Courses.capacity payload) (t_default_capacity t))
    /\ (t_default_capacity t <> Some 0 ->
        c_capacity row =
        Some (capacity_as_specified (Courses.capacity payload)
                (t_default_capacity t)))
    /\ (forall d, Courses.capacity payload = Some 0 ->
                  t_default_capacity t = Some d -> d <> 0 ->
                  c_capacity row = Some d).
Proof.
  intros Ht.
  destruct (create_course_stores db payload _ (brief_of_row _ _ _ Ht))
    as (cohort & course & row & _ & Hrun & _ & _ & _ & _ & _ & _ & _
        & Hcap & _).
  cbn [Courses.tb_default_capacity] in Hcap.
  rewrite capacity_rule_matches in Hcap.
  exists course, row. split; [exact Hrun|]. split; [exact Hcap|]. split.
  - intros Hnz. rewrite Hcap. f_equal.
    unfold capacity_rule, capacity_as_specified.
    destruct (t_default_capacity t) as [d|]; [|reflexivity].
    destruct (Z.eqb_spec d 0) as [->|_]; [contradiction|reflexivity].
  - intros d Hp Hd Hnz. rewrite Hcap, Hp, Hd. unfold capacity_rule.
    cbn [Z.ltb Z.compare]. destruct (Z.eqb_spec d 0); [contradiction|].
    reflexivity.
Qed.

(** C7. A created course's reference is
    [{shortname}-{year}-{cohort}].  The year segment is the year of the
    course date written in decimal digits, four of them for a year from
    1000 to 9999.  The cohort is the next cohort number, at least 1,
    written in decimal digits whose value is the cohort itself: exactly
    three characters up to 999 and the unpadded number, longer than
    three, beyond.  When no course of the template carries a reference
    containing [-<year>-], the cohort field is [001] and the reference
    ends in [-<year>-001]. *)
Theorem course_ref_form (db : DB) (payload : Courses.CourseCreate)
  (t : TemplateRow) :
  CourseTemplates.select_template (Courses.template_id payload) db = Some t ->
  let year := Courses.strftime_Y (Courses.course_date payload) in
  let cohort :=
    next_cohort (collected (Courses.template_id payload) year (courses db)) in
  let ref :=
    Courses._get_template_shortname (t_name t)
    ++ [45] ++ year ++ [45] ++ format_03d cohort in
  exists course row,
    Courses.create_course payload db
    = (Ok course, with_courses (fun rows => rows ++ [row]) db)
    /\ c_course_ref row = Some ref
    /\ Courses.code course = ref
    /\ Forall (fun c => ascii_isdigit c = true) year
    /\ (0 <= Courses.year (Courses.course_date payload) ->
        dec_value year = Courses.year (Courses.course_date payload))
    /\ (1000 <= Courses.year (Courses.course_date payload) <= 9999 ->
        length year = 4%nat)
    /\ 1 <= cohort
    /\ Forall (fun c => ascii_isdigit c = true) (format_03d cohort)
    /\ dec_value (format_03d cohort) = cohort
    /\ (cohort <= 999 -> length (format_03d cohort) = 3%nat)
    /\ (999 < cohort ->
        format_03d cohort = decimal cohort
        /\ (3 < length (format_03d cohort))%nat)
    /\ ((forall c r, In c (courses db) ->
                     c_template_id c = Some (Courses.template_id payload) ->
                     c_course_ref c = Some r ->
                     contains (year_infix year) r = false) ->
        format_03d cohort = of_string "001"
        /\ c_course_ref row
           = Some (Courses._get_template_shortname (t_name t)
                   ++ [45] ++ year ++ of_string "-001")).
Proof.
  intros Ht year cohort ref.
  destruct (create_course_stores db payload _ (brief_of_row _ _ _ Ht))
    as (cohort' & course & row & Hscan & Hrun & _ & Href & _ & _ & _ & _
        & _ & _ & _ & Hcode).
  fold year in Hscan, Href, Hcode.
  rewrite scan_result in Hscan by apply strftime_Y_plain.
  injection Hscan as Hcohort. fold cohort in Hcohort. subst cohort'.
  cbn [Courses.tb_name] in Href, Hcode.
  assert (Hpos : 1 <= cohort) by apply next_cohort_positive, collected_nonneg.
  destruct (format_03d_nonneg cohort ltac:(lia)) as (Hdig & Hval & Hshort & Hlong).
  assert (Hyd : Forall (fun c => ascii_isdigit c = true) year)
    by apply decimal_all_digits.
  assert (Hyv : 0 <= Courses.year (Courses.course_date payload) ->
                dec_value year = Courses.year (Courses.course_date payload))
    by (intros Hy; apply (strftime_Y_year _ Hy)).
  assert (Hyl : 1000 <= Courses.year (Courses.course_date payload) <= 9999 ->
                length year = 4%nat).
  { intros Hy.
    apply (strftime_Y_year (Courses.course_date payload)); lia. }
  exists course, row.
  repeat (split; [assumption|]).
  intros Hnone.
  assert (Hfirst : format_03d cohort = of_string "001").
  { unfold cohort. rewrite (collected_nothing _ _ _ Hnone). reflexivity. }
  split; [exact Hfirst|].
  rewrite Href. unfold ref. rewrite Hfirst. reflexivity.
Qed.

(** C10. Course creation takes trainer and venue from the request
    alone: the stored trainer is the request's trainer, the empty string
    when the body leaves it out, the stored venue_id is the request's,
    NULL when left out, and replacing every template's default_trainer
    and default_venue_id by anything else changes neither the response
    nor the stored row. *)
Theorem trainer_and_venue_come_from_request (db : DB)
  (b : Courses.CourseCreateBody) (t : TemplateRow) :
  let payload := Courses.parse_CourseCreate b in
  CourseTemplates.select_template (Courses.template_id payload) db = Some t ->
  exists course row,
    Courses.create_course payload db
    = (Ok course, with_courses (fun rows => rows ++ [row]) db)
    /\ c_trainer row =
       Some (match Courses.body_trainer b with Some s => s | None => [] end)
    /\ c_venue_id row = Courses.body_venue_id b
    /\ forall dt dv,
         Courses.create_course payload
           (with_course_templates (map (with_template_defaults dt dv)) db)
         = (Ok course,
            with_courses (fun rows => rows ++ [row])
              (with_course_templates (map (with_template_defaults dt dv)) db)).
Proof.
  intros payload Ht.
  pose proof (brief_of_row _ _ _ Ht) as Hb.
  destruct (create_course_stores db payload _ Hb)
    as (cohort & course & row & _ & Hrun & _ & _ & _ & _ & _ & Htr & Hv & _).
  exists course, row. split; [exact Hrun|]. split; [exact Htr|].
  split; [exact Hv|]. intros dt dv.
  set (db' := with_course_templates (map (with_template_defaults dt dv)) db).
  assert (Hb' : Courses.select_template_brief (Courses.template_id payload) db'
                = Some {| Courses.tb_id := t_id t;
                          Courses.tb_name := t_name t;
                          Courses.tb_course_title := t_course_title t;
                          Courses.tb_default_capacity := t_default_capacity t |}).
  { unfold db'. rewrite brief_ignores_defaults. exact Hb. }
  destruct (create_course_stores db' payload _ Hb')
    as (cohort' & course' & row' & _ & Hrun' & _).
  destruct (create_course_frame db' db payload) as [Hfst Hsnd].
  { rewrite Hb, Hb'. reflexivity. }
  { reflexivity. }
  { reflexivity. }
  rewrite Hrun, Hrun' in Hfst, Hsnd. cbn [fst snd courses with_courses] in *.
  injection Hfst as ->. unfold db' in Hsnd. cbn [courses with_course_templates] in Hsnd.
  apply app_inv_head in Hsnd. injection Hsnd as ->. exact Hrun'.
Qed.

End StoredCourse.

Lemma stored_capacity_rule_witness :
  exists course row,
    Courses.create_course (U := Sample.latin1)
      (Sample.payload_plain 1 (Some 0)) Sample.db_people
    = (Ok course, with_courses (fun rows => rows ++ [row]) Sample.db_people)
    /\ c_capacity row = Some 10
    /\ c_capacity row = Some (capacity_as_specified (Some 0) (Some 10)).
Proof.
  destruct (stored_capacity_rule (U := Sample.latin1) Sample.db_people
              (Sample.payload_plain 1 (Some 0))
              (Sample.template_row 1 "First Aid" (Some 10)) eq_refl)
    as (course & row & Hrun & _ & Hspec & Hzero).
  exists course, row. split; [exact Hrun|]. split.
  - apply (Hzero 10); [reflexivity | reflexivity | lia].
  - apply Hspec. discriminate.
Defined.

(** C3, as first stated, fails where a template's default capacity is
    zero: a request without a capacity stores 12, whereas the rule as
    specified yields the template default, 0. *)
Lemma zero_template_default_stores_twelve :
  CourseTemplates.select_template 1 Sample.db_zero_default
  = Some (Sample.template_row 1 "First Aid" (Some 0))
  /\ map c_capacity
       (courses (snd (Courses.create_course (U := Sample.latin1)
                        (Sample.payload_plain 1 None)
                        Sample.db_zero_default)))
     = [Some 12]
  /\ capacity_as_specified
       (Courses.capacity (Sample.payload_plain 1 None))
       (t_default_capacity (Sample.template_row 1 "First Aid" (Some 0)))
     = 0
  /\ map c_capacity
       (courses (snd (Courses.create_course (U := Sample.latin1)
                        (Sample.payload_plain 1 None)
                        Sample.db_zero_default)))
     <> [Some (capacity_as_specified
                 (Courses.capacity (Sample.payload_plain 1 None))
                 (t_default_capacity
                    (Sample.template_row 1 "First Aid" (Some 0))))].
Proof. split; [|split; [|split]]; try reflexivity. discriminate. Qed.

Lemma course_ref_form_witness :
  (exists course row,
      Courses.create_course (U := Sample.latin1)
        (Sample.payload_plain 1 None) Sample.db_zero_default
      = (Ok course,
         with_courses (fun rows => rows ++ [row]) Sample.db_zero_default)
      /\ c_course_ref row = Some (of_string "FIRSTAID-2024-001")
      /\ Courses.year (Courses.course_date (Sample.payload_plain 1 None))
         = 2024
      /\ dec_value
           (Courses.strftime_Y
              (Courses.course_date (Sample.payload_plain 1 None))) = 2024
      /\ length
           (Courses.strftime_Y
              (Courses.course_date (Sample.payload_plain 1 None))) = 4%nat
      /\ length (format_03d 1) = 3%nat)
  /\ (exists course row,
         Courses.create_course (U := Sample.latin1)
           (Sample.payload_in_year 1 2031) Sample.db_cohort_999
         = (Ok course,
            with_courses (fun rows => rows ++ [row]) Sample.db_cohort_999)
         /\ c_course_ref row = Some (of_string "X-2031-001")
         /\ dec_value
              (Courses.strftime_Y
                 (Courses.course_date (Sample.payload_in_year 1 2031)))
            = 2031)
  /\ (exists course row,
         Courses.create_course (U := Sample.latin1)
           (Sample.payload_plain 1 None) Sample.db_cohort_999
         = (Ok course,
            with_courses (fun rows => rows ++ [row]) Sample.db_cohort_999)
         /\ c_course_ref row = Some (of_string "X-2024-1000")
         /\ (3 < length (format_03d 1000))%nat).
Proof.
  split; [|split].
  - destruct (course_ref_form (U := Sample.latin1) Sample.db_zero_default
                (Sample.payload_plain 1 None)
                (Sample.template_row 1 "First Aid" (Some 0)) eq_refl)
      as (course & row & Hrun & _ & _ & _ & Hyear & Hfour & _ & _ & _
          & Hshort & _ & Hfirst).
    exists course, row. split; [exact Hrun|]. split; [|split; [|split; [|split]]].
    + destruct Hfirst as [_ Href]; [intros c r []|].
      rewrite Href. reflexivity.
    + reflexivity.
    + apply Hyear. simpl. lia.
    + apply Hfour. simpl. lia.
    + apply Hshort. vm_compute. discriminate.
  - destruct (course_ref_form (U := Sample.latin1) Sample.db_cohort_999
                (Sample.payload_in_year 1 2031)
                (Sample.template_row 1 "X" (Some 10)) eq_refl)
      as (course & row & Hrun & Href & _ & _ & Hyear & _).
    exists course, row. split; [exact Hrun|]. split.
    + rewrite Href. reflexivity.
    + apply Hyear. simpl. lia.
  - destruct (course_ref_form (U := Sample.latin1) Sample.db_cohort_999
                (Sample.payload_plain 1 None)
                (Sample.template_row 1 "X" (Some 10)) eq_refl)
      as (course & row & Hrun & Href & _ & _ & _ & _ & _ & _ & _ & _ & Hlong
          & _).
    exists course, row. split; [exact Hrun|]. split.
    + rewrite Href. reflexivity.
    + apply Hlong. reflexivity.
Defined.

Lemma trainer_and_venue_come_from_request_witness :
  t_default_trainer (Sample.template_row 1 "First Aid" (Some 10))
  = Some (of_string "Default Trainer")
  /\ t_default_venue_id (Sample.template_row 1 "First Aid" (Some 10)) = Some 7
  /\ exists course row,
       Courses.create_course (U := Sample.latin1)
         (Courses.parse_CourseCreate (Sample.body_minimal 1)) Sample.db_people
       = (Ok course, with_courses (fun rows => rows ++ [row]) Sample.db_people)
       /\ c_trainer row = Some []
       /\ c_venue_id row = None.
Proof.
  split; [reflexivity|]. split; [reflexivity|].
  destruct (trainer_and_venue_come_from_request (U := Sample.latin1)
              Sample.db_people (Sample.body_minimal 1)
              (Sample.template_row 1 "First Aid" (Some 10)) eq_refl)
    as (course & row & Hrun & Htr & Hv & _).
  exists course, row. split; [exact Hrun|]. split; [exact Htr|exact Hv].
Defined.

(** ** The short-name *)

Section ShortName.
Context {U : UnicodeData}.







End ShortName.


(** ** Partial updates *)

Section Updates.
Context {H : Users.PasswordHasher}.

(** An update of a known template writes the merged columns and reads
    them back. *)
Lemma update_course_template_runs (db : DB) (k : Z)
  (updates : CourseTemplates.CourseTemplateUpdate) (row : TemplateRow) :
  CourseTemplates.select_template k db = Some row ->
  let new :=
    CourseTemplates.merge_template updates
      (CourseTemplates.base (CourseTemplates.row_to_template row)) in
  let new_row := CourseTemplates.template_columns (t_id row) new in
  let db' :=
    with_course_templates (CourseTemplates.update_template_rows k new) db in
  CourseTemplates.update_course_template k updates db
  = (Ok (CourseTemplates.row_to_template new_row), db')
  /\ CourseTemplates.select_template k db' = Some new_row.
Proof.
  intros Hrow new new_row db'.
  assert (Hsel : CourseTemplates.select_template k db' = Some new_row).
  { unfold db', CourseTemplates.select_template,
      CourseTemplates.update_template_rows.
    cbn [course_templates with_course_templates].
    rewrite (find_updated t_id k
               (fun r => CourseTemplates.template_columns (t_id r) new))
      by reflexivity.
    unfold CourseTemplates.select_template in Hrow. rewrite Hrow.
    reflexivity. }
  split; [|exact Hsel].
  unfold CourseTemplates.update_course_template.
  unfold bind at 1. rewrite (fetch_by_id_found _ _ _ _ Hrow).
  unfold bind, execute, query. fold new. fold db'. rewrite Hsel.
  reflexivity.
Qed.

Lemma update_user_runs (db : DB) (k : Z) (updates : Users.UserUpdate)
  (row : UserRow) :
  Users.select_user k db = Some row ->
  let new_row := Users.merge_user updates row in
  let db' := with_users (Users.update_user_rows k new_row) db in
  Users.update_user k updates db = (Ok (Users.row_to_user new_row), db')
  /\ Users.select_user k db' = Some new_row.
Proof.
  intros Hrow new_row db'.
  assert (Hsel : Users.select_user k db' = Some new_row).
  { unfold db', Users.select_user, Users.update_user_rows.
    cbn [users with_users].
    rewrite (find_updated u_id k
               (fun r => {| u_id := u_id r;
                            u_first_name := u_first_name new_row;
                            u_surname := u_surname new_row;
                            u_full_name := u_full_name new_row;
                            u_email := u_email new_row;
                            u_role := u_role new_row;
                            u_must_change_password :=
                              u_must_change_password new_row;
                            u_password_hash := u_password_hash new_row |}))
      by reflexivity.
    unfold Users.select_user in Hrow. rewrite Hrow. reflexivity. }
  split; [|exact Hsel].
  unfold Users.update_user.
  unfold bind at 1. rewrite (fetch_by_id_found _ _ _ _ Hrow).
  unfold bind, execute, query. fold new_row. fold db'. rewrite Hsel.
  reflexivity.
Qed.

Lemma update_participant_runs (db : DB) (k : Z)
  (payload : Participants.ParticipantUpdate) (row : ParticipantRow) :
  Participants.select_participant k db = Some row ->
  let new_row := Participants.merge_participant payload row in
  let db' :=
    with_participants (Participants.update_participant_rows k new_row) db in
  Participants.update_participant k payload db
  = (Ok (Participants.row_to_participant new_row), db')
  /\ Participants.select_participant k db' = Some new_row.
Proof.
  intros Hrow new_row db'.
  assert (Hsel : Participants.select_participant k db' = Some new_row).
  { unfold db', Participants.select_participant,
      Participants.update_participant_rows.
    cbn [participants with_participants].
    rewrite (find_updated p_id k
               (fun r => {| p_id := p_id r;
                            p_course_id := p_course_id r;
                            p_first_name := p_first_name new_row;
                            p_surname := p_surname new_row;
                            p_contact_number := p_contact_number new_row;
                            p_email := p_email new_row;
                            p_payment_status := p_payment_status new_row;
                            p_joining_sent := p_joining_sent new_row;
                            p_notes := p_notes new_row |}))
      by reflexivity.
    unfold Participants.select_participant in Hrow. rewrite Hrow.
    reflexivity. }
  split; [|exact Hsel].
  unfold Participants.update_participant.
  unfold bind at 1. rewrite (fetch_by_id_found _ _ _ _ Hrow).
  unfold bind, execute, query. fold new_row. fold db'. rewrite Hsel.
  reflexivity.
Qed.

End Updates.

(** Stripping leaves no whitespace at either end. *)
Section Strip.
Variable p : Z -> bool.





End Strip.


Section MergeRules.
Context {H : Users.PasswordHasher}.

(** C4. In a course-template partial update, a proposed empty name
    leaves the stored name as it was, whereas a proposed
    default_capacity of 0 is stored as 0: a string field is replaced
    only by a non-empty string, a numeric field by any supplied value. *)
Theorem template_update_asymmetry (db : DB) (k : Z)
  (updates : CourseTemplates.CourseTemplateUpdate) (row : TemplateRow) :
  CourseTemplates.select_template k db = Some row ->
  exists out db' new_row,
    CourseTemplates.update_course_template k updates db = (Ok out, db')
    /\ CourseTemplates.select_template k db' = Some new_row
    /\ CourseTemplates.name (CourseTemplates.base out) = t_name new_row
    /\ CourseTemplates.default_capacity (CourseTemplates.base out)
       = t_default_capacity new_row
    /\ (CourseTemplates.upd_name updates = Some [] ->
        t_name new_row = t_name row)
    /\ (CourseTemplates.upd_name updates = None ->
        t_name new_row = t_name row)
    /\ (forall s, CourseTemplates.upd_name updates = Some s -> s <> [] ->
                  t_name new_row = s)
    /\ (CourseTemplates.upd_default_capacity updates = Some 0 ->
        t_default_capacity new_row = Some 0)
    /\ (forall n, CourseTemplates.upd_default_capacity updates = Some n ->
                  t_default_capacity new_row = Some n)
    /\ (CourseTemplates.upd_default_capacity updates = None ->
        t_default_capacity new_row = t_default_capacity row).
Proof.
  intros Hrow.
  destruct (update_course_template_runs db k updates row Hrow) as [Hrun Hsel].
  do 3 eexists. split; [exact Hrun|]. split; [exact Hsel|].
  cbn [CourseTemplates.template_columns CourseTemplates.merge_template
       CourseTemplates.row_to_template CourseTemplates.base
       CourseTemplates.name CourseTemplates.default_capacity
       t_name t_default_capacity].
  split; [reflexivity|]. split; [reflexivity|].
  split; [intros ->; reflexivity|].
  split; [intros ->; reflexivity|].
  split; [intros s -> Hs; destruct s; [contradiction|reflexivity]|].
  split; [intros ->; reflexivity|].
  split; [intros n ->; reflexivity|].
  intros ->; reflexivity.
Qed.

(** C2 (as amended).  An empty string supplied in a partial update
    leaves the stored value as it was for the fields merged by
    truthiness: the template's name, course_type and provider_type, the
    user's first_name, surname and role, the user's password hash, and
    the user's full_name when neither first_name nor surname is supplied
    non-empty; the template's course_title is then set to the title the
    read path reports (course_title, else default_title).  The fields
    merged by an is-not-None test store the empty string: every string
    field of a participant, the user's email and the template's
    default_trainer. *)
Theorem empty_string_in_partial_update (db : DB) (k : Z) :
  (forall updates row,
      CourseTemplates.select_template k db = Some row ->
      exists out db' new_row,
        CourseTemplates.update_course_template k updates db = (Ok out, db')
        /\ CourseTemplates.select_template k db' = Some new_row
        /\ (CourseTemplates.upd_name updates = Some [] ->
            t_name new_row = t_name row)
        /\ (CourseTemplates.upd_course_type updates = Some [] ->
            t_course_type new_row = t_course_type row)
        /\ (CourseTemplates.upd_provider_type updates = Some [] ->
            t_provider_type new_row = t_provider_type row)
        /\ (CourseTemplates.upd_course_title updates = Some [] ->
            t_course_title new_row
            = or_opt (t_course_title row) (t_default_title row))
        /\ (CourseTemplates.upd_default_trainer updates = Some [] ->
            t_default_trainer new_row = Some []))
  /\ (forall updates row,
         Users.select_user k db = Some row ->
         exists out db' new_row,
           Users.update_user k updates db = (Ok out, db')
           /\ Users.select_user k db' = Some new_row
           /\ (Users.first_name updates = Some [] ->
               u_first_name new_row = u_first_name row)
           /\ (Users.surname updates = Some [] ->
               u_surname new_row = u_surname row)
           /\ (Users.role updates = Some [] -> u_role new_row = u_role row)
           /\ (Users.password updates = Some [] ->
               u_password_hash new_row = u_password_hash row)
           /\ (Users.full_name updates = Some [] ->
               truthy_opt (Users.first_name updates) = false ->
               truthy_opt (Users.surname updates) = false ->
               u_full_name new_row = u_full_name row)
           /\ (Users.email updates = Some [] -> u_email new_row = Some []))
  /\ (forall payload row,
         Participants.select_participant k db = Some row ->
         exists out db' new_row,
           Participants.update_participant k payload db = (Ok out, db')
           /\ Participants.select_participant k db' = Some new_row
           /\ (Participants.first_name payload = Some [] ->
               p_first_name new_row = [])
           /\ (Participants.surname payload = Some [] ->
               p_surname new_row = [])
           /\ (Participants.contact_number payload = Some [] ->
               p_contact_number new_row = Some [])
           /\ (Participants.email payload = Some [] ->
               p_email new_row = Some [])
           /\ (Participants.payment_status payload = Some [] ->
               p_payment_status new_row = Some [])
           /\ (Participants.notes payload = Some [] ->
               p_notes new_row = Some [])).
Proof.
  split; [|split].
  - intros updates row Hrow.
    destruct (update_course_template_runs db k updates row Hrow)
      as [Hrun Hsel].
    do 3 eexists. split; [exact Hrun|]. split; [exact Hsel|].
    cbn [CourseTemplates.template_columns CourseTemplates.merge_template
         CourseTemplates.row_to_template CourseTemplates.base
         CourseTemplates.name CourseTemplates.course_type
         CourseTemplates.provider_type CourseTemplates.course_title
         CourseTemplates.default_trainer
         t_name t_course_type t_provider_type t_course_title
         t_default_trainer].
    repeat split; intros ->; reflexivity.
  - intros updates row Hrow.
    destruct (update_user_runs db k updates row Hrow) as [Hrun Hsel].
    do 3 eexists. split; [exact Hrun|]. split; [exact Hsel|].
    unfold Users.merge_user.
    cbn [u_first_name u_surname u_role u_password_hash u_full_name u_email].
    split; [intros ->; reflexivity|].
    split; [intros ->; reflexivity|].
    split; [intros ->; reflexivity|].
    split; [intros ->; reflexivity|].
    split; [intros -> -> ->; reflexivity|].
    intros ->; reflexivity.
  - intros payload row Hrow.
    destruct (update_participant_runs db k payload row Hrow) as [Hrun Hsel].
    do 3 eexists. split; [exact Hrun|]. split; [exact Hsel|].
    unfold Participants.merge_participant.
    cbn [p_first_name p_surname p_contact_number p_email p_payment_status
         p_notes].
    repeat split; intros ->; reflexivity.
Qed.


End MergeRules.

Lemma template_update_asymmetry_witness :
  (exists out db' new_row,
      CourseTemplates.update_course_template 1
        (Sample.template_name_and_capacity (Some []) (Some 0)) Sample.db_people
      = (Ok out, db')
      /\ CourseTemplates.select_template 1 db' = Some new_row
      /\ t_name new_row = of_string "First Aid"
      /\ t_default_capacity new_row = Some 0)
  /\ (exists out db' new_row,
         CourseTemplates.update_course_template 1
           (Sample.template_name_and_capacity (Some (of_string "CPR")) None)
           Sample.db_people
         = (Ok out, db')
         /\ CourseTemplates.select_template 1 db' = Some new_row
         /\ t_name new_row = of_string "CPR"
         /\ t_default_capacity new_row = Some 10).
Proof.
  split.
  - destruct (template_update_asymmetry Sample.db_people 1
                (Sample.template_name_and_capacity (Some []) (Some 0))
                (Sample.template_row 1 "First Aid" (Some 10)) eq_refl)
      as (out & db' & new_row & Hrun & Hsel & _ & _ & Hname & _ & _
          & Hzero & _).
    exists out, db', new_row. split; [exact Hrun|]. split; [exact Hsel|].
    split; [exact (Hname eq_refl) | exact (Hzero eq_refl)].
  - destruct (template_update_asymmetry Sample.db_people 1
                (Sample.template_name_and_capacity (Some (of_string "CPR")) None)
                (Sample.template_row 1 "First Aid" (Some 10)) eq_refl)
      as (out & db' & new_row & Hrun & Hsel & _ & _ & _ & _ & Hname & _ & _
          & Hcap).
    exists out, db', new_row. split; [exact Hrun|]. split; [exact Hsel|].
    split; [apply Hname; [reflexivity|discriminate] | exact (Hcap eq_refl)].
Defined.

(** C2, as first stated, fails on the participant endpoint: an empty
    first_name replaces the stored one. *)
Lemma empty_first_name_blanks_participant :
  Participants.select_participant 1 Sample.db_people = Some Sample.ann
  /\ map p_first_name (participants Sample.db_people) = [of_string "Ann"]
  /\ map p_first_name
       (participants
          (snd (Participants.update_participant 1
                  (Sample.participant_first_name_only []) Sample.db_people)))
     = [[]]
  /\ map p_first_name
       (participants
          (snd (Participants.update_participant 1
                  (Sample.participant_first_name_only []) Sample.db_people)))
     <> map p_first_name (participants Sample.db_people).
Proof. split; [|split; [|split]]; try reflexivity. discriminate. Qed.

Lemma empty_string_in_partial_update_witness :
  (exists out db' new_row,
      CourseTemplates.update_course_template 1 Sample.template_blank
        Sample.db_legacy = (Ok out, db')
      /\ CourseTemplates.select_template 1 db' = Some new_row
      /\ t_name new_row = of_string "First Aid"
      /\ t_course_type new_row = None
      /\ t_provider_type new_row = None
      /\ t_course_title new_row = Some (of_string "Legacy Title")
      /\ t_default_trainer new_row = Some [])
  /\ (exists out db' new_row,
         Users.update_user (H := Sample.tagging_hasher) 1 Sample.user_blank
           Sample.db_people = (Ok out, db')
         /\ Users.select_user 1 db' = Some new_row
         /\ u_first_name new_row = of_string "Jane"
         /\ u_surname new_row = of_string "Doe"
         /\ u_role new_row = of_string "Trainer"
         /\ u_password_hash new_row = of_string "salt:digest"
         /\ u_full_name new_row = of_string "Jane Doe"
         /\ u_email new_row = Some [])
  /\ (exists out db' new_row,
         Participants.update_participant 1 Sample.participant_blank
           Sample.db_people = (Ok out, db')
         /\ Participants.select_participant 1 db' = Some new_row
         /\ p_first_name new_row = []
         /\ p_surname new_row = []
         /\ p_contact_number new_row = Some []
         /\ p_email new_row = Some []
         /\ p_payment_status new_row = Some []
         /\ p_notes new_row = Some []).
Proof.
  split; [|split].
  - destruct (empty_string_in_partial_update (H := Sample.tagging_hasher)
                Sample.db_legacy 1) as (Ht & _ & _).
    destruct (Ht Sample.template_blank Sample.legacy_template eq_refl)
      as (out & db' & new_row & Hrun & Hsel & H1 & H2 & H3 & H4 & H5).
    exists out, db', new_row. split; [exact Hrun|]. split; [exact Hsel|].
    split; [exact (H1 eq_refl)|]. split; [exact (H2 eq_refl)|].
    split; [exact (H3 eq_refl)|]. split; [exact (H4 eq_refl)|].
    exact (H5 eq_refl).
  - destruct (empty_string_in_partial_update (H := Sample.tagging_hasher)
                Sample.db_people 1) as (_ & Hu & _).
    destruct (Hu Sample.user_blank Sample.jane eq_refl)
      as (out & db' & new_row & Hrun & Hsel & H1 & H2 & H3 & H4 & H5 & H6).
    exists out, db', new_row. split; [exact Hrun|]. split; [exact Hsel|].
    split; [exact (H1 eq_refl)|]. split; [exact (H2 eq_refl)|].
    split; [exact (H3 eq_refl)|]. split; [exact (H4 eq_refl)|].
    split; [exact (H5 eq_refl eq_refl eq_refl)|]. exact (H6 eq_refl).
  - destruct (empty_string_in_partial_update (H := Sample.tagging_hasher)
                Sample.db_people 1) as (_ & _ & Hp).
    destruct (Hp Sample.participant_blank Sample.ann eq_refl)
      as (out & db' & new_row & Hrun & Hsel & H1 & H2 & H3 & H4 & H5 & H6).
    exists out, db', new_row. split; [exact Hrun|]. split; [exact Hsel|].
    split; [exact (H1 eq_refl)|]. split; [exact (H2 eq_refl)|].
    split; [exact (H3 eq_refl)|]. split; [exact (H4 eq_refl)|].
    split; [exact (H5 eq_refl)|]. exact (H6 eq_refl).
Defined.


(** ** The mirrored title columns *)

Section MirroredTitle.

Lemma create_course_template_runs (db : DB)
  (body : CourseTemplates.CourseTemplateCreate) :
  let row :=
    CourseTemplates.template_columns
      (next_rowid (map t_id (course_templates db))) body in
  let db' := with_course_templates (fun rows => rows ++ [row]) db in
  CourseTemplates.create_course_template body db
  = (Ok (CourseTemplates.row_to_template row), db')
  /\ CourseTemplates.select_template (t_id row) db' = Some row.
Proof.
  intros row db'.
  assert (Hsel : CourseTemplates.select_template (t_id row) db' = Some row).
  { unfold db', CourseTemplates.select_template.
    cbn [course_templates with_course_templates].
    apply (find_appended t_id); [|reflexivity].
    intros r Hr Heq.
    pose proof (next_rowid_fresh (map t_id (course_templates db)) (t_id r)
                  (in_map t_id _ _ Hr)) as Hfresh.
    unfold row in Heq. cbn [t_id CourseTemplates.template_columns] in Heq.
    lia. }
  split; [|exact Hsel].
  unfold CourseTemplates.create_course_template, bind, query, execute.
  fold row. fold db'.
  change (next_rowid (map t_id (course_templates db))) with (t_id row).
  rewrite Hsel. reflexivity.
Qed.

Lemma updated_rows_mirrored (k : Z) (new : CourseTemplates.CourseTemplateBase)
  (rows : list TemplateRow) (r : TemplateRow) :
  In r (CourseTemplates.update_template_rows k new rows) ->
  (t_id r = k /\ t_default_title r = CourseTemplates.course_title new
   /\ t_course_title r = CourseTemplates.course_title new)
  \/ (t_id r <> k /\ In r rows).
Proof.
  unfold CourseTemplates.update_template_rows. intros Hin.
  apply in_map_iff in Hin. destruct Hin as (r0 & <- & Hin).
  destruct (Z.eqb_spec (t_id r0) k) as [He|Hne].
  - left. repeat split. exact He.
  - right. split; assumption.
Qed.

(** C9. After a successful course-template create or update the stored
    default_title equals the stored course_title: create binds the
    request's course_title to both columns, update binds the merged
    course_title to both, overwriting the legacy default_title of every
    row it writes; a table in which the two columns agree on every row
    stays so under both operations. *)
Theorem default_title_mirrors_course_title (db : DB) :
  (forall body, exists out row,
      CourseTemplates.create_course_template body db
      = (Ok out, with_course_templates (fun rows => rows ++ [row]) db)
      /\ CourseTemplates.id out = t_id row
      /\ CourseTemplates.select_template (t_id row)
           (with_course_templates (fun rows => rows ++ [row]) db) = Some row
      /\ t_course_title row = CourseTemplates.course_title body
      /\ t_default_title row = t_course_title row)
  /\ (forall k updates out db',
         CourseTemplates.update_course_template k updates db = (Ok out, db') ->
         exists row new_row,
           CourseTemplates.select_template k db = Some row
           /\ CourseTemplates.select_template k db' = Some new_row
           /\ t_course_title new_row
              = or_opt (CourseTemplates.upd_course_title updates)
                  (or_opt (t_course_title row) (t_default_title row))
           /\ t_default_title new_row = t_course_title new_row
           /\ (forall r, In r (course_templates db') -> t_id r = k ->
                         t_default_title r = t_course_title r))
  /\ (Forall (fun r => t_default_title r = t_course_title r)
        (course_templates db) ->
      (forall body,
          Forall (fun r => t_default_title r = t_course_title r)
            (course_templates
               (snd (CourseTemplates.create_course_template body db))))
      /\ (forall k updates,
             Forall (fun r => t_default_title r = t_course_title r)
               (course_templates
                  (snd (CourseTemplates.update_course_template k updates
                          db))))).
Proof.
  split; [|split].
  - intros body.
    destruct (create_course_template_runs db body) as [Hrun Hsel].
    do 2 eexists. split; [exact Hrun|]. split; [reflexivity|].
    split; [exact Hsel|]. split; reflexivity.
  - intros k updates out db' Hok.
    destruct (CourseTemplates.select_template k db) as [row|] eqn:Hrow.
    + destruct (update_course_template_runs db k updates row Hrow)
        as [Hrun Hsel].
      rewrite Hrun in Hok. injection Hok as <- <-.
      do 2 eexists. split; [reflexivity|]. split; [exact Hsel|].
      split; [reflexivity|]. split; [reflexivity|].
      intros r Hin Hk. cbn [course_templates with_course_templates] in Hin.
      apply updated_rows_mirrored in Hin.
      destruct Hin as [(_ & Hd & Hc)|[Hne _]]; [congruence|contradiction].
    + unfold CourseTemplates.update_course_template, bind, fetch_by_id in Hok.
      rewrite Hrow in Hok. destruct (is_int64 k); discriminate.
  - intros Hinv. split.
    + intros body.
      destruct (create_course_template_runs db body) as [Hrun _].
      rewrite Hrun. cbn [snd course_templates with_course_templates].
      apply Forall_app. split; [exact Hinv|].
      constructor; [reflexivity|constructor].
    + intros k updates.
      destruct (CourseTemplates.select_template k db) as [row|] eqn:Hrow.
      * destruct (update_course_template_runs db k updates row Hrow)
          as [Hrun _].
        rewrite Hrun. cbn [snd course_templates with_course_templates].
        apply Forall_forall. intros r Hin.
        apply updated_rows_mirrored in Hin.
        destruct Hin as [(_ & Hd & Hc)|[_ Hin]]; [congruence|].
        rewrite Forall_forall in Hinv. apply Hinv, Hin.
      * unfold CourseTemplates.update_course_template, bind, fetch_by_id.
        rewrite Hrow. destruct (is_int64 k); exact Hinv.
Qed.

End MirroredTitle.

Lemma default_title_mirrors_course_title_witness :
  (exists new_row,
      CourseTemplates.select_template 1
        (snd (CourseTemplates.update_course_template 1
                Sample.no_template_update Sample.db_legacy)) = Some new_row
      /\ t_course_title new_row = Some (of_string "Legacy Title")
      /\ t_default_title new_row = t_course_title new_row)
  /\ Forall (fun r => t_default_title r = t_course_title r)
       (course_templates
          (snd (CourseTemplates.update_course_template 1
                  (Sample.template_name_and_capacity None (Some 0))
                  Sample.db_people))).
Proof.
  split.
  - destruct (default_title_mirrors_course_title Sample.db_legacy)
      as (_ & Hupd & _).
    destruct (Hupd 1 Sample.no_template_update _ _ eq_refl)
      as (row & new_row & Hrow & Hsel & Htitle & Hmirror & _).
    exists new_row. split; [exact Hsel|]. split; [|exact Hmirror].
    rewrite Htitle. injection Hrow as <-. reflexivity.
  - destruct (default_title_mirrors_course_title Sample.db_people)
      as (_ & _ & Hinv).
    apply Hinv. repeat constructor.
Defined.

(** ** Worked values *)

Section WorkedValues.
Context {U : UnicodeData}.

Example int_of_padded : py_int (of_string "001") = Some 1.
Proof. reflexivity. Qed.

Example int_of_letters : py_int (of_string "abc") = None.
Proof. reflexivity. Qed.

Example int_of_nothing : py_int [] = None.
Proof. reflexivity. Qed.

Example int_with_sign_and_underscore :
  py_int (of_string " +1_0 ") = Some 10.
Proof. reflexivity. Qed.

Example int_double_underscore : py_int (of_string "1__0") = None.
Proof. reflexivity. Qed.

Example split_reference :
  split 45 (of_string "X-2024-001")
  = [of_string "X"; of_string "2024"; of_string "001"].
Proof. reflexivity. Qed.

Example split_trailing_dash :
  split 45 (of_string "X-2024-") = [of_string "X"; of_string "2024"; []].
Proof. reflexivity. Qed.

Example format_small : format_03d 4 = of_string "004".
Proof. reflexivity. Qed.

Example format_large : format_03d 1234 = of_string "1234".
Proof. reflexivity. Qed.

Example format_date :
  Courses.strftime_Ymd
    {| Courses.year := 2024; Courses.month := 1; Courses.day := 15 |}
  = of_string "2024-01-15".
Proof. reflexivity. Qed.

Example format_year :
  Courses.strftime_Y
    {| Courses.year := 2031; Courses.month := 6; Courses.day := 1 |}
  = of_string "2031"
  /\ Courses.strftime_Y
       {| Courses.year := 987; Courses.month := 6; Courses.day := 1 |}
     = of_string "987".
Proof. split; reflexivity. Qed.

Example like_year :
  like (Courses.year_pattern (of_string "2024")) (of_string "X-2024-003")
  = true
  /\ like (Courses.year_pattern (of_string "2024")) (of_string "X-2023-003")
     = false.
Proof. split; reflexivity. Qed.

Example like_wildcards :
  like (of_string "a_c%") (of_string "ABCdef") = true.
Proof. reflexivity. Qed.

Example strip_spaces :
  strip (of_string "  Jane Smith ") = of_string "Jane Smith".
Proof. reflexivity. Qed.

Example shortname_ascii :
  Courses._get_template_shortname (of_string "First Aid (L3)")
  = of_string "FIRSTAIDL3".
Proof. reflexivity. Qed.

End WorkedValues.

(** * Further properties of the handlers *)

(** ** A written cohort field reads back *)

Section CohortRoundTrip.
Context {U : UnicodeData}.

Lemma split_app_sep (sep : Z) (a b : str) :
  split sep (a ++ sep :: b) = split sep a ++ split sep b.
Proof.
  induction a as [|c a IH]; cbn [app split].
  - rewrite Z.eqb_refl. reflexivity.
  - destruct (c =? sep); [rewrite IH; reflexivity|].
    rewrite IH. destruct (split sep a) as [|q qs] eqn:Hs.
    + exfalso. exact (split_nonempty sep a Hs).
    + reflexivity.
Qed.

Lemma split_without_sep (sep : Z) (s : str) :
  ~ In sep s -> split sep s = [s].
Proof.
  induction s as [|c s IH]; intros Hs; [reflexivity|]. cbn [split].
  destruct (Z.eqb_spec c sep) as [->|_]; [exfalso; apply Hs; left; reflexivity|].
  rewrite IH by (intros Hin; apply Hs; right; exact Hin). reflexivity.
Qed.

Lemma last_of_app {A} (l1 l2 : list A) (d : A) :
  l2 <> [] -> last (l1 ++ l2) d = last l2 d.
Proof.
  intros Hne. induction l1 as [|a l1 IH]; [reflexivity|].
  cbn [app]. destruct (l1 ++ l2) as [|b l] eqn:He.
  - apply app_eq_nil in He. destruct He as [_ He]. contradiction.
  - change (last (a :: b :: l) d) with (last (b :: l) d). exact IH.
Qed.

Lemma digit_not_dash (s : str) :
  Forall (fun c => ascii_isdigit c = true) s -> ~ In 45 s.
Proof.
  intros Hs Hin. rewrite Forall_forall in Hs. specialize (Hs _ Hin).
  discriminate.
Qed.

(** The final segment of [prefix-digits] is [digits]. *)
Lemma final_segment_of_ref (pre digits : str) :
  Forall (fun c => ascii_isdigit c = true) digits ->
  last (split 45 (pre ++ [45] ++ digits)) [] = digits.
Proof.
  intros Hd. cbn [app]. rewrite split_app_sep.
  rewrite (split_without_sep 45 digits (digit_not_dash _ Hd)).
  rewrite last_of_app by discriminate. reflexivity.
Qed.

Lemma int_body_digits (s : str) :
  Forall (fun c => ascii_isdigit c = true) s ->
  forall prev acc, prev <> 95 ->
    int_body s prev acc = Some (fold_left (fun a c => 10 * a + (c - 48)) s acc).
Proof.
  induction 1 as [|c s Hc _ IH]; intros prev acc Hprev; cbn [int_body fold_left].
  - destruct (Z.eqb_spec prev 95); [contradiction|reflexivity].
  - assert (Hne : c <> 95).
    { intros ->. discriminate. }
    destruct (Z.eqb_spec c 95); [contradiction|].
    rewrite Hc. apply IH, Hne.
Qed.

Lemma lstrip_by_keeps (p : Z -> bool) (c : Z) (s : str) :
  p c = false -> lstrip_by p (c :: s) = c :: s.
Proof. intros Hc. simpl. rewrite Hc. reflexivity. Qed.

Lemma digit_not_c_space (c : Z) :
  ascii_isdigit c = true -> c_isspace c = false.
Proof.
  unfold ascii_isdigit, c_isspace. intros Hd.
  apply andb_true_iff in Hd. destruct Hd as [H1 H2].
  apply Z.leb_le in H1, H2.
  apply orb_false_iff. split; [apply andb_false_iff; right; apply Z.leb_gt; lia|].
  apply Z.eqb_neq. lia.
Qed.

Lemma rstrip_by_digits (s : str) :
  Forall (fun c => ascii_isdigit c = true) s -> rstrip_by c_isspace s = s.
Proof.
  intros Hs. unfold rstrip_by.
  apply Forall_rev in Hs. destruct (rev s) as [|c t] eqn:Hr.
  - simpl. rewrite <- (rev_involutive s), Hr. reflexivity.
  - inversion Hs; subst.
    rewrite lstrip_by_keeps by (apply digit_not_c_space; assumption).
    rewrite <- Hr. apply rev_involutive.
Qed.

Lemma to_ascii_digit_digits (s : str) :
  Forall (fun c => ascii_isdigit c = true) s -> map to_ascii_digit s = s.
Proof.
  induction 1 as [|c s Hc _ IH]; [reflexivity|]. cbn [map]. rewrite IH.
  f_equal. unfold to_ascii_digit, ascii_isdigit in *.
  apply andb_true_iff in Hc. destruct Hc as [_ H2]. apply Z.leb_le in H2.
  destruct (Z.ltb_spec c 127); [reflexivity|lia].
Qed.

(** [int] of a non-empty run of ASCII digits is its decimal value. *)
Lemma py_int_digits (s : str) :
  s <> [] -> Forall (fun c => ascii_isdigit c = true) s ->
  py_int s = Some (dec_value s).
Proof.
  intros Hne Hs. unfold py_int. rewrite to_ascii_digit_digits by exact Hs.
  destruct s as [|c s]; [contradiction|].
  pose proof Hs as Hall. inversion Hs as [|? ? Hc Hrest]; subst.
  rewrite lstrip_by_keeps by (apply digit_not_c_space; exact Hc).
  assert (H43 : (c =? 43) = false).
  { unfold ascii_isdigit in Hc. apply andb_true_iff in Hc.
    destruct Hc as [H1 _]. apply Z.leb_le in H1. apply Z.eqb_neq. lia. }
  assert (H45 : (c =? 45) = false).
  { unfold ascii_isdigit in Hc. apply andb_true_iff in Hc.
    destruct Hc as [H1 _]. apply Z.leb_le in H1. apply Z.eqb_neq. lia. }
  assert (H95 : (c =? 95) = false).
  { unfold ascii_isdigit in Hc. apply andb_true_iff in Hc.
    destruct Hc as [_ H2]. apply Z.leb_le in H2. apply Z.eqb_neq. lia. }
  rewrite H43, H45. rewrite rstrip_by_digits by exact Hall. rewrite H95.
  rewrite (int_body_digits _ Hall 0 0) by lia.
  unfold dec_value.
  destruct (fold_left (fun a c0 => 10 * a + (c0 - 48)) (c :: s) 0); reflexivity.
Qed.

Lemma py_int_format_03d (n : Z) : 0 <= n -> py_int (format_03d n) = Some n.
Proof.
  intros Hn. destruct (format_03d_nonneg n Hn) as (Hdig & Hval & _).
  rewrite py_int_digits; [rewrite Hval; reflexivity| |exact Hdig].
  unfold format_03d. destruct (Z.ltb_spec n 0); [lia|].
  intros He. pose proof (zfill_length 3 (decimal n)) as Hl.
  rewrite He in Hl. cbn [length] in Hl. lia.
Qed.

End CohortRoundTrip.

(** ** Allocation after allocation *)

Section SuccessiveAllocation.
Context {U : UnicodeData}.

Lemma collected_app (tid : Z) (year : str) (r1 r2 : list CourseRow) :
  collected tid year (r1 ++ r2)
  = collected tid year r1 ++ collected tid year r2.
Proof.
  induction r1 as [|c r1 IH]; [reflexivity|]. cbn [app collected].
  rewrite IH.
  destruct (c_template_id c) as [t|]; [|reflexivity].
  destruct (c_course_ref c) as [ref|]; [|reflexivity].
  destruct ((t =? tid) && contains (year_infix year) ref); [|reflexivity].
  destruct (final_segment_number ref); reflexivity.
Qed.

Lemma collected_member (tid : Z) (year : str) (rows : list CourseRow)
  (c : CourseRow) (ref : str) (n : Z) :
  In c rows -> c_template_id c = Some tid -> c_course_ref c = Some ref ->
  contains (year_infix year) ref = true ->
  final_segment_number ref = Some n ->
  In n (collected tid year rows).
Proof.
  intros Hin Ht Hr Hc Hn. induction rows as [|c' rows IH]; [destruct Hin|].
  cbn [collected]. destruct Hin as [->|Hin].
  - rewrite Ht, Hr, Z.eqb_refl, Hc, Hn. left; reflexivity.
  - specialize (IH Hin).
    destruct (c_template_id c') as [t|]; [|exact IH].
    destruct (c_course_ref c') as [ref'|]; [|exact IH].
    destruct ((t =? tid) && contains (year_infix year) ref'); [|exact IH].
    destruct (final_segment_number ref'); [right|]; exact IH.
Qed.

(** A reference assembled by the handler is found again by the scan of
    its year, and its final segment is the cohort it was given. *)
Lemma assembled_ref_scans (short year : str) (n : Z) :
  0 <= n ->
  contains (year_infix year)
    (short ++ [45] ++ year ++ [45] ++ format_03d n) = true
  /\ final_segment_number (short ++ [45] ++ year ++ [45] ++ format_03d n)
     = Some n.
Proof.
  intros Hn. split.
  - replace (short ++ [45] ++ year ++ [45] ++ format_03d n)
      with (short ++ year_infix year ++ format_03d n).
    + apply contains_of_app.
    + unfold year_infix. cbn [app]. rewrite <- app_assoc. reflexivity.
  - unfold final_segment_number.
    replace (short ++ [45] ++ year ++ [45] ++ format_03d n)
      with ((short ++ [45] ++ year) ++ [45] ++ format_03d n)
      by (rewrite <- !app_assoc; reflexivity).
    rewrite final_segment_of_ref by apply (format_03d_nonneg n Hn).
    apply py_int_format_03d, Hn.
Qed.

Lemma collected_single (year : str) (c : CourseRow)
  (short : str) (n : Z) :
  0 <= n ->
  c_course_ref c = Some (short ++ [45] ++ year ++ [45] ++ format_03d n) ->
  forall k,
    collected k year [c]
    = match c_template_id c with
      | Some t => if t =? k then [n] else []
      | None => []
      end.
Proof.
  intros Hn Hr k. cbn [collected]. rewrite Hr.
  destruct (assembled_ref_scans short year n Hn) as [Hc Hf].
  destruct (c_template_id c) as [t|]; [|reflexivity].
  rewrite Hc, Hf, andb_true_r.
  destruct (t =? k); reflexivity.
Qed.

Lemma maximum_snoc (rest : list Z) :
  forall n x, maximum n (rest ++ [x]) = Z.max (maximum n rest) x.
Proof.
  induction rest as [|y rest IH]; intros n x; cbn [app maximum].
  - reflexivity.
  - rewrite IH. apply Z.max_assoc.
Qed.

Lemma next_cohort_snoc (nums : list Z) :
  next_cohort (nums ++ [next_cohort nums]) = next_cohort nums + 1.
Proof.
  pose proof (next_cohort_above nums) as Habove.
  destruct nums as [|n rest]; [reflexivity|].
  cbn [app]. unfold next_cohort at 1. rewrite maximum_snoc.
  cbn [next_cohort] in *.
  assert (maximum n rest < maximum n rest + 1) by lia. lia.
Qed.

(** X1. Cohort numbers of one template and year go up by one: right
    after a creation the scan yields the created cohort plus one, and a
    second creation for the same template and year is given that
    number. *)
Theorem successive_cohorts_increase (db : DB)
  (payload payload2 : Courses.CourseCreate) (t : TemplateRow) :
  CourseTemplates.select_template (Courses.template_id payload) db = Some t ->
  Courses.template_id payload2 = Courses.template_id payload ->
  Courses.strftime_Y (Courses.course_date payload2)
  = Courses.strftime_Y (Courses.course_date payload) ->
  let year := Courses.strftime_Y (Courses.course_date payload) in
  let cohort :=
    next_cohort (collected (Courses.template_id payload) year (courses db)) in
  let short := Courses._get_template_shortname (t_name t) in
  exists course row course2 row2,
    let db1 := with_courses (fun rows => rows ++ [row]) db in
    Courses.create_course payload db = (Ok course, db1)
    /\ c_course_ref row
       = Some (short ++ [45] ++ year ++ [45] ++ format_03d cohort)
    /\ Courses._get_next_cohort_number (Courses.template_id payload) year db1
       = (Ok (cohort + 1), db1)
    /\ Courses.create_course payload2 db1
       = (Ok course2, with_courses (fun rows => rows ++ [row2]) db1)
    /\ c_course_ref row2
       = Some (short ++ [45] ++ year ++ [45] ++ format_03d (cohort + 1)).
Proof.
  intros Ht Htid Hyear year cohort short.
  destruct (create_course_stores db payload _ (brief_of_row _ _ _ Ht))
    as (cohort' & course & row & Hscan & Hrun & _ & Href & _ & Htmpl & _).
  fold year in Hscan, Href.
  rewrite scan_result in Hscan by apply strftime_Y_plain.
  injection Hscan as Hcohort. fold cohort in Hcohort. subst cohort'.
  cbn [Courses.tb_name] in Href. fold short in Href.
  assert (Hpos : 0 <= cohort).
  { pose proof (next_cohort_positive _
                  (collected_nonneg (Courses.template_id payload) year
                     (courses db))). fold cohort in H. lia. }
  set (db1 := with_courses (fun rows => rows ++ [row]) db).
  assert (Hnext : Courses._get_next_cohort_number
                    (Courses.template_id payload) year db1
                  = (Ok (cohort + 1), db1)).
  { rewrite scan_result by apply strftime_Y_plain.
    unfold db1. cbn [courses with_courses].
    rewrite collected_app, (collected_single year row short cohort Hpos Href).
    rewrite Htmpl, Z.eqb_refl. fold cohort.
    unfold cohort at 2. rewrite next_cohort_snoc. reflexivity. }
  assert (Ht1 : CourseTemplates.select_template
                  (Courses.template_id payload2) db1 = Some t).
  { rewrite Htid. exact Ht. }
  destruct (create_course_stores db1 payload2 _ (brief_of_row _ _ _ Ht1))
    as (cohort2 & course2 & row2 & Hscan2 & Hrun2 & _ & Href2 & _).
  rewrite Htid, Hyear in Hscan2. fold year in Hscan2.
  rewrite Hnext in Hscan2. injection Hscan2 as <-.
  rewrite Hyear in Href2. fold year in Href2.
  cbn [Courses.tb_name] in Href2. fold short in Href2.
  exists course, row, course2, row2. cbv zeta. fold db1.
  repeat (split; [assumption|]). exact Href2.
Qed.

(** X2. The reference given to a new course differs from the reference
    of every course the same template already has. *)
Theorem course_ref_is_fresh (db : DB) (payload : Courses.CourseCreate)
  (t : TemplateRow) :
  CourseTemplates.select_template (Courses.template_id payload) db = Some t ->
  exists course row,
    Courses.create_course payload db
    = (Ok course, with_courses (fun rows => rows ++ [row]) db)
    /\ forall c, In c (courses db) ->
                 c_template_id c = Some (Courses.template_id payload) ->
                 c_course_ref c <> c_course_ref row.
Proof.
  intros Ht.
  destruct (create_course_stores db payload _ (brief_of_row _ _ _ Ht))
    as (cohort & course & row & Hscan & Hrun & _ & Href & _).
  exists course, row. split; [exact Hrun|].
  intros c Hin Htid Heq.
  rewrite scan_result in Hscan by apply strftime_Y_plain.
  injection Hscan as Hcohort.
  assert (Hpos : 0 <= cohort).
  { rewrite <- Hcohort.
    pose proof (next_cohort_positive _
                  (collected_nonneg (Courses.template_id payload)
                     (Courses.strftime_Y (Courses.course_date payload))
                     (courses db))). lia. }
  rewrite Href in Heq.
  destruct (assembled_ref_scans
              (Courses._get_template_shortname
                 (Courses.tb_name
                    {| Courses.tb_id := t_id t;
                       Courses.tb_name := t_name t;
                       Courses.tb_course_title := t_course_title t;
                       Courses.tb_default_capacity := t_default_capacity t |}))
              (Courses.strftime_Y (Courses.course_date payload)) cohort Hpos)
    as [Hc Hf].
  pose proof (collected_member _ _ _ c _ cohort Hin Htid Heq Hc Hf) as Hmem.
  pose proof (next_cohort_above
                (collected (Courses.template_id payload)
                   (Courses.strftime_Y (Courses.course_date payload))
                   (courses db))) as Habove.
  rewrite Forall_forall in Habove. specialize (Habove _ Hmem). lia.
Qed.

(** X3. References are kept apart per template only: two different
    templates whose names have the same short-name and whose scans of
    the year stand at the same cohort are given the same reference, one
    creation after the other. *)
Theorem same_shortname_same_ref (db : DB)
  (p1 p2 : Courses.CourseCreate) (t1 t2 : TemplateRow) :
  CourseTemplates.select_template (Courses.template_id p1) db = Some t1 ->
  CourseTemplates.select_template (Courses.template_id p2) db = Some t2 ->
  Courses.template_id p1 <> Courses.template_id p2 ->
  Courses._get_template_shortname (t_name t1)
  = Courses._get_template_shortname (t_name t2) ->
  Courses.strftime_Y (Courses.course_date p1)
  = Courses.strftime_Y (Courses.course_date p2) ->
  next_cohort (collected (Courses.template_id p1)
                 (Courses.strftime_Y (Courses.course_date p1)) (courses db))
  = next_cohort (collected (Courses.template_id p2)
                   (Courses.strftime_Y (Courses.course_date p1)) (courses db)) ->
  exists course1 row1 course2 row2,
    let db1 := with_courses (fun rows => rows ++ [row1]) db in
    Courses.create_course p1 db = (Ok course1, db1)
    /\ Courses.create_course p2 db1
       = (Ok course2, with_courses (fun rows => rows ++ [row2]) db1)
    /\ c_id row1 <> c_id row2
    /\ c_course_ref row1 = c_course_ref row2
    /\ Courses.code course1 = Courses.code course2.
Proof.
  intros Ht1 Ht2 Hne Hshort Hyear Hsame.
  destruct (create_course_stores db p1 _ (brief_of_row _ _ _ Ht1))
    as (cohort1 & course1 & row1 & Hscan1 & Hrun1 & Hid1 & Href1 & _ & Htid1
        & _ & _ & _ & _ & _ & Hcode1).
  rewrite scan_result in Hscan1 by apply strftime_Y_plain.
  injection Hscan1 as Hc1.
  assert (Hpos : 0 <= cohort1).
  { rewrite <- Hc1.
    pose proof (next_cohort_positive _
                  (collected_nonneg (Courses.template_id p1)
                     (Courses.strftime_Y (Courses.course_date p1))
                     (courses db))). lia. }
  set (db1 := with_courses (fun rows => rows ++ [row1]) db).
  assert (Ht2' : CourseTemplates.select_template (Courses.template_id p2) db1
                 = Some t2) by exact Ht2.
  destruct (create_course_stores db1 p2 _ (brief_of_row _ _ _ Ht2'))
    as (cohort2 & course2 & row2 & Hscan2 & Hrun2 & Hid2 & Href2 & _ & _
        & _ & _ & _ & _ & _ & Hcode2).
  rewrite scan_result in Hscan2 by apply strftime_Y_plain.
  injection Hscan2 as Hc2.
  unfold db1 in Hc2. cbn [courses with_courses] in Hc2.
  rewrite <- Hyear in Hc2, Href2, Hcode2.
  cbn [Courses.tb_name] in Href1, Href2, Hcode1, Hcode2.
  rewrite collected_app,
    (collected_single _ row1 _ cohort1 Hpos Href1), Htid1 in Hc2.
  destruct (Z.eqb_spec (Courses.template_id p1) (Courses.template_id p2))
    as [He|_]; [contradiction|].
  rewrite app_nil_r, <- Hsame, Hc1 in Hc2. subst cohort2.
  exists course1, row1, course2, row2. cbv zeta. fold db1.
  split; [exact Hrun1|]. split; [exact Hrun2|]. split.
  - rewrite Hid1, Hid2. unfold db1. cbn [courses with_courses].
    rewrite map_app. cbn [map]. rewrite Hid1.
    pose proof (next_rowid_fresh
                  (map c_id (courses db)
                   ++ [next_rowid (map c_id (courses db))])
                  (next_rowid (map c_id (courses db)))) as Hfresh.
    assert (In (next_rowid (map c_id (courses db)))
              (map c_id (courses db)
               ++ [next_rowid (map c_id (courses db))])).
    { apply in_or_app. right. left. reflexivity. }
    specialize (Hfresh H). lia.
  - split.
    + rewrite Href1, Href2, Hshort. reflexivity.
    + rewrite Hcode1, Hcode2, Hshort. reflexivity.
Qed.

End SuccessiveAllocation.

Lemma successive_cohorts_increase_witness :
  exists course row course2 row2,
    Courses.create_course (U := Sample.latin1) (Sample.payload_plain 1 None)
      Sample.db_three_refs
    = (Ok course,
       with_courses (fun rows => rows ++ [row]) Sample.db_three_refs)
    /\ c_course_ref row = Some (of_string "X-2024-004")
    /\ Courses.create_course (U := Sample.latin1)
         (Sample.payload_plain 1 (Some 5))
         (with_courses (fun rows => rows ++ [row]) Sample.db_three_refs)
       = (Ok course2,
          with_courses (fun rows => rows ++ [row2])
            (with_courses (fun rows => rows ++ [row]) Sample.db_three_refs))
    /\ c_course_ref row2 = Some (of_string "X-2024-005").
Proof.
  destruct (successive_cohorts_increase (U := Sample.latin1)
              Sample.db_three_refs (Sample.payload_plain 1 None)
              (Sample.payload_plain 1 (Some 5))
              (Sample.template_row 1 "X" (Some 10)) eq_refl eq_refl eq_refl)
    as (course & row & course2 & row2 & Hrun & Href & _ & Hrun2 & Href2).
  exists course, row, course2, row2.
  split; [exact Hrun|]. split; [exact Href|]. split; [exact Hrun2|exact Href2].
Defined.

Lemma course_ref_is_fresh_witness :
  exists course row,
    Courses.create_course (U := Sample.latin1) (Sample.payload_plain 1 None)
      Sample.db_three_refs
    = (Ok course,
       with_courses (fun rows => rows ++ [row]) Sample.db_three_refs)
    /\ Some (of_string "X-2024-003") <> c_course_ref row.
Proof.
  destruct (course_ref_is_fresh (U := Sample.latin1) Sample.db_three_refs
              (Sample.payload_plain 1 None)
              (Sample.template_row 1 "X" (Some 10)) eq_refl)
    as (course & row & Hrun & Hfresh).
  exists course, row. split; [exact Hrun|].
  apply (Hfresh (Sample.course_row 2 1 "X-2024-003")).
  - right. left. reflexivity.
  - reflexivity.
Defined.

Lemma same_shortname_same_ref_witness :
  exists course1 row1 course2 row2,
    Courses.create_course (U := Sample.latin1) (Sample.payload_plain 1 None)
      Sample.db_twins
    = (Ok course1, with_courses (fun rows => rows ++ [row1]) Sample.db_twins)
    /\ Courses.create_course (U := Sample.latin1)
         (Sample.payload_plain 2 None)
         (with_courses (fun rows => rows ++ [row1]) Sample.db_twins)
       = (Ok course2,
          with_courses (fun rows => rows ++ [row2])
            (with_courses (fun rows => rows ++ [row1]) Sample.db_twins))
    /\ c_id row1 <> c_id row2
    /\ c_course_ref row1 = c_course_ref row2.
Proof.
  destruct (same_shortname_same_ref (U := Sample.latin1) Sample.db_twins
              (Sample.payload_plain 1 None) (Sample.payload_plain 2 None)
              (Sample.template_row 1 "First Aid" (Some 10))
              (Sample.template_row 2 "FIRST-AID" (Some 8))
              eq_refl eq_refl ltac:(discriminate) eq_refl eq_refl eq_refl)
    as (course1 & row1 & course2 & row2 & Hrun1 & Hrun2 & Hid & Href & _).
  exists course1, row1, course2, row2.
  split; [exact Hrun1|]. split; [exact Hrun2|]. split; [exact Hid|exact Href].
Defined.

Lemma find_present_id {R} (key : R -> Z) (k : Z) (rows : list R) (r : R) :
  find (fun r => key r =? k) rows = Some r -> key r = k.
Proof.
  intros Hf. apply find_some in Hf. apply Z.eqb_eq. exact (proj2 Hf).
Qed.

(** ** Reading courses back *)

Section ReadingCourses.
Context {U : UnicodeData}.

Lemma find_app_found {A} (f : A -> bool) (l l' : list A) (x : A) :
  find f l = Some x -> find f (l ++ l') = Some x.
Proof.
  induction l as [|a l IH]; simpl; [discriminate|].
  destruct (f a); [tauto|exact IH].
Qed.

Lemma find_of_member {A} (f : A -> bool) (l : list A) (a : A) :
  In a l -> f a = true -> exists x, find f l = Some x.
Proof.
  induction l as [|b l IH]; intros Hin Hf; [destruct Hin|]. simpl.
  destruct (f b) eqn:Hb; [eexists; reflexivity|].
  destruct Hin as [->|Hin]; [congruence|]. apply IH; assumption.
Qed.

Lemma select_course_joined_as_join (k : Z) (db : DB) :
  Courses.select_course_joined k db
  = option_map (Courses.join_course db)
      (find (fun c => c_id c =? k) (courses db)).
Proof.
  unfold Courses.select_course_joined.
  destruct (find (fun c => c_id c =? k) (courses db)); reflexivity.
Qed.

Lemma row_to_course_id (r : Courses.CourseJoined) (c : Courses.Course) :
  Courses._row_to_course r = Some c -> Courses.id c = Courses.j_id r.
Proof.
  unfold Courses._row_to_course.
  destruct (Courses.j_title r), (Courses.j_code r), (Courses.j_start_date r);
    try discriminate.
  intros [= <-]. reflexivity.
Qed.

Lemma select_course_joined_id (k : Z) (db : DB) (j : Courses.CourseJoined) :
  Courses.select_course_joined k db = Some j -> Courses.j_id j = k.
Proof.
  rewrite select_course_joined_as_join.
  destruct (find (fun c => c_id c =? k) (courses db)) as [c|] eqn:Hf;
    [|discriminate].
  intros [= <-]. apply (find_present_id c_id k _ _ Hf).
Qed.

End ReadingCourses.

Section CreatedCourse.
Context {U : UnicodeData}.

(** The response of a creation, field by field. *)
Lemma create_course_response (db : DB) (payload : Courses.CourseCreate)
  (t : TemplateRow) :
  CourseTemplates.select_template (Courses.template_id payload) db = Some t ->
  exists course row,
    Courses.create_course payload db
    = (Ok course, with_courses (fun rows => rows ++ [row]) db)
    /\ c_id row = next_rowid (map c_id (courses db))
    /\ c_course_title row = Some (or_str (t_course_title t) (t_name t))
    /\ c_venue_id row = Courses.venue_id payload
    /\ Courses.id course = c_id row
    /\ Courses.title course = or_str (t_course_title t) (t_name t)
    /\ Courses.start_date course
       = Courses.strftime_Ymd (Courses.course_date payload)
    /\ Courses.end_date course
       = Some (Courses.strftime_Ymd (Courses.course_date payload))
    /\ Courses.trainer_name course = Courses.trainer payload
    /\ Courses.venue_name course
       = Courses.joined_venue_name (Courses.venue_id payload) db
    /\ Courses.status course
       = (if truthy (Courses.payload_status payload)
          then Courses.payload_status payload
          else of_string "Planned")
    /\ c_status row
       = Some (if truthy (Courses.payload_status payload)
               then Courses.payload_status payload
               else of_string "Planned").
Proof.
  intros Ht. pose proof (brief_of_row _ _ _ Ht) as Htmpl.
  destruct (next_cohort_runs (Courses.template_id payload)
              (Courses.strftime_Y (Courses.course_date payload)) db)
    as (cohort & Hrun & _).
  unfold Courses.create_course.
  unfold bind at 1. rewrite (fetch_by_id_found _ _ _ _ Htmpl).
  unfold bind at 1. rewrite Hrun.
  unfold Courses.insert_course, bind, query, execute, ret.
  unfold Courses.select_course_joined.
  cbn [courses with_courses].
  rewrite (find_appended c_id).
  - cbn -[format_03d Courses.strftime_Y Courses.strftime_Ymd
           Courses._get_template_shortname of_string or_str next_rowid
           Z.eqb Z.ltb Courses.joined_venue_name].
    do 2 eexists. repeat (split; [reflexivity|]). reflexivity.
  - intros r Hr Heq.
    pose proof (next_rowid_fresh (map c_id (courses db)) (c_id r)
                  (in_map c_id _ _ Hr)). lia.
  - reflexivity.
Qed.

Lemma get_after_create (db db' : DB) (payload : Courses.CourseCreate)
  (course : Courses.Course) :
  Courses.create_course payload db = (Ok course, db') ->
  Courses.get_course (Courses.id course) db' = (Ok course, db').
Proof.
  unfold Courses.create_course. unfold bind at 1. unfold fetch_by_id.
  destruct (Courses.select_template_brief (Courses.template_id payload) db)
    as [tmpl|];
    [|destruct (is_int64 (Courses.template_id payload)); discriminate].
  unfold Courses._get_next_cohort_number, Courses.insert_course, bind, query,
    execute, ret, raise.
  match goal with
  | |- context [Courses.select_course_joined ?k ?d] =>
      set (d1 := d); set (k1 := k); clearbody d1 k1;
      destruct (Courses.select_course_joined k1 d1) as [j|] eqn:Hsel;
        [|discriminate]
  end.
  destruct (Courses._row_to_course j) as [c|] eqn:Hc; [|discriminate].
  intros [= <- <-].
  unfold Courses.get_course, bind, fetch_by_id.
  rewrite (row_to_course_id _ _ Hc), (select_course_joined_id _ _ _ Hsel).
  rewrite Hsel, Hc. reflexivity.
Qed.

(** X4. A created course reads back: [get_course] on the identifier of
    the response returns that response; the identifier was not in use
    before; and what [get_course] returns for the courses that were
    already stored is unchanged by the creation. *)
Theorem created_course_reads_back (db : DB) (payload : Courses.CourseCreate)
  (t : TemplateRow) :
  CourseTemplates.select_template (Courses.template_id payload) db = Some t ->
  exists course db',
    Courses.create_course payload db = (Ok course, db')
    /\ Courses.get_course (Courses.id course) db' = (Ok course, db')
    /\ ~ In (Courses.id course) (map c_id (courses db))
    /\ (forall k, In k (map c_id (courses db)) ->
          exists r, Courses.get_course k db = (r, db)
                    /\ Courses.get_course k db' = (r, db')).
Proof.
  intros Ht.
  destruct (create_course_response db payload t Ht)
    as (course & row & Hrun & Hid & _ & _ & Hcid & _).
  exists course, (with_courses (fun rows => rows ++ [row]) db).
  split; [exact Hrun|]. split; [exact (get_after_create _ _ _ _ Hrun)|]. split.
  - rewrite Hcid, Hid. intros Hin. apply next_rowid_fresh in Hin. lia.
  - intros k Hk. apply in_map_iff in Hk. destruct Hk as (c & Hck & Hin).
    destruct (find_of_member (fun c => c_id c =? k) (courses db) c Hin)
      as [x Hx]; [apply Z.eqb_eq, Hck|].
    unfold Courses.get_course, bind, fetch_by_id.
    rewrite !select_course_joined_as_join. cbn [courses with_courses].
    rewrite (find_app_found _ _ [row] _ Hx), Hx. cbn [option_map].
    change (Courses.join_course
              (with_courses (fun rows => rows ++ [row]) db) x)
      with (Courses.join_course db x).
    destruct (Courses._row_to_course (Courses.join_course db x));
      eexists; split; reflexivity.
Qed.

(** X5. The title of a created course is the template's course_title
    when that is a non-empty string and the template's name otherwise;
    the legacy default_title, which the template read path falls back
    to, is not used.  The status column of the new row holds Planned
    when the request's status is empty or omitted and the request's
    status otherwise, and the response reports the stored title and
    status. *)
Theorem created_course_title_and_status (db : DB)
  (payload : Courses.CourseCreate) (t : TemplateRow) :
  CourseTemplates.select_template (Courses.template_id payload) db = Some t ->
  exists course row,
    Courses.create_course payload db
    = (Ok course, with_courses (fun rows => rows ++ [row]) db)
    /\ c_course_title row = Some (Courses.title course)
    /\ c_status row = Some (Courses.status course)
    /\ (forall s, t_course_title t = Some s -> s <> [] ->
                  c_course_title row = Some s /\ Courses.title course = s)
    /\ (truthy_opt (t_course_title t) = false ->
        c_course_title row = Some (t_name t)
        /\ Courses.title course = t_name t
        /\ CourseTemplates.course_title
             (CourseTemplates.base (CourseTemplates.row_to_template t))
           = t_default_title t)
    /\ (Courses.payload_status payload = [] ->
        c_status row = Some (of_string "Planned")
        /\ Courses.status course = of_string "Planned")
    /\ (Courses.payload_status payload <> [] ->
        c_status row = Some (Courses.payload_status payload)
        /\ Courses.status course = Courses.payload_status payload).
Proof.
  intros Ht.
  destruct (create_course_response db payload t Ht)
    as (course & row & Hrun & _ & Hct & _ & _ & Htitle & _ & _ & _ & _
        & Hst & Hstored).
  exists course, row. split; [exact Hrun|].
  split; [rewrite Htitle; exact Hct|].
  split; [rewrite Hst; exact Hstored|].
  split; [|split; [|split]].
  - intros s Hs Hne. rewrite Hct, Htitle, Hs.
    destruct s; [contradiction|split; reflexivity].
  - intros Hfalse.
    assert (Hor : or_str (t_course_title t) (t_name t) = t_name t).
    { destruct (t_course_title t) as [s|]; [|reflexivity].
      cbn [truthy_opt] in Hfalse. cbn [or_str]. rewrite Hfalse.
      reflexivity. }
    split; [rewrite Hct, Hor; reflexivity|].
    split; [rewrite Htitle; exact Hor|].
    cbn [CourseTemplates.row_to_template CourseTemplates.base
         CourseTemplates.course_title].
    unfold or_opt. rewrite Hfalse. reflexivity.
  - intros He. rewrite Hstored, Hst, He. split; reflexivity.
  - intros Hne. rewrite Hstored, Hst.
    destruct (Courses.payload_status payload);
      [contradiction|split; reflexivity].
Qed.


End CreatedCourse.

(** ** ORDER BY *)

Section OrderBy.
Context {A : Type} (le : A -> A -> bool).

Lemma insert_by_perm (x : A) (l : list A) :
  Permutation (insert_by le x l) (x :: l).
Proof.
  induction l as [|y l IH]; simpl; [apply Permutation_refl|].
  destruct (le x y); [apply Permutation_refl|].
  apply perm_trans with (y :: x :: l); [|apply perm_swap].
  apply perm_skip, IH.
Qed.

Lemma order_by_perm (l : list A) : Permutation (order_by le l) l.
Proof.
  induction l as [|x l IH]; [apply perm_nil|]. cbn [order_by fold_right].
  apply perm_trans with (x :: order_by le l); [apply insert_by_perm|].
  apply perm_skip, IH.
Qed.

Lemma order_by_member (l : list A) (x : A) : In x (order_by le l) <-> In x l.
Proof.
  split; apply Permutation_in;
    [apply order_by_perm | apply Permutation_sym, order_by_perm].
Qed.

Hypothesis le_total : forall a b, le a b = false -> le b a = true.

Lemma insert_by_sorted (x : A) (l : list A) :
  Sorted (fun a b => le a b = true) l ->
  Sorted (fun a b => le a b = true) (insert_by le x l).
Proof.
  induction 1 as [|y l Hs IH Hhd]; simpl.
  - repeat constructor.
  - destruct (le x y) eqn:Hxy.
    + constructor; [constructor; assumption|]. constructor. exact Hxy.
    + constructor; [exact IH|].
      destruct l as [|z l]; simpl.
      * constructor. apply le_total, Hxy.
      * destruct (le x z).
        -- constructor. apply le_total, Hxy.
        -- inversion Hhd; subst. constructor. assumption.
Qed.

Lemma order_by_sorted (l : list A) :
  Sorted (fun a b => le a b = true) (order_by le l).
Proof.
  induction l as [|x l IH]; [constructor|]. cbn [order_by fold_right].
  apply insert_by_sorted, IH.
Qed.

End OrderBy.

Lemma sorted_map {A B} (R : A -> A -> Prop) (R' : B -> B -> Prop) (f : A -> B)
  (l : list A) :
  (forall a b, R a b -> R' (f a) (f b)) ->
  Sorted R l -> Sorted R' (map f l).
Proof.
  intros Hf. induction 1 as [|a l Hs IH Hhd]; simpl; constructor.
  - exact IH.
  - destruct Hhd; simpl; constructor. apply Hf. assumption.
Qed.

Lemma text_compare_antisym (a : str) :
  forall b, text_compare b a = CompOpp (text_compare a b).
Proof.
  induction a as [|x a IH]; intros [|y b]; cbn [text_compare]; try reflexivity.
  rewrite (Z.compare_antisym x y).
  destruct (x ?= y); cbn [CompOpp]; [apply IH|reflexivity|reflexivity].
Qed.

Lemma text_compare_eq (a : str) : forall b, text_compare a b = Eq <-> a = b.
Proof.
  induction a as [|x a IH]; intros [|y b]; cbn [text_compare];
    try (split; [discriminate|discriminate]); [tauto|].
  destruct (Z.compare_spec x y) as [->|Hlt|Hgt].
  - rewrite IH. split; [intros ->; reflexivity|intros [= ->]; reflexivity].
  - split; [discriminate|intros [= -> _]; lia].
  - split; [discriminate|intros [= -> _]; lia].
Qed.

Lemma text_eqb_eq (a b : str) : text_eqb a b = true <-> a = b.
Proof.
  unfold text_eqb. rewrite <- text_compare_eq.
  destruct (text_compare a b); split; congruence.
Qed.

(** ** Listing and fetching courses *)

Section ListingCourses.

(** A course row the response model rejects: title, reference or date
    is NULL. *)
Lemma row_to_course_none (db : DB) (c : CourseRow) :
  Courses._row_to_course (Courses.join_course db c) = None <->
  (c_course_title c = None \/ c_course_ref c = None
   \/ c_course_date c = None).
Proof.
  unfold Courses._row_to_course, Courses.join_course.
  cbn [Courses.j_title Courses.j_code Courses.j_start_date].
  destruct (c_course_title c), (c_course_ref c), (c_course_date c);
    split; intros Hn; try discriminate; auto;
    destruct Hn as [Hn|[Hn|Hn]]; discriminate.
Qed.

Lemma row_to_course_some (db : DB) (c : CourseRow) (r : Courses.Course) :
  Courses._row_to_course (Courses.join_course db c) = Some r ->
  Courses.id r = c_id c
  /\ c_course_title c = Some (Courses.title r)
  /\ c_course_ref c = Some (Courses.code r)
  /\ c_course_date c = Some (Courses.start_date r).
Proof.
  unfold Courses._row_to_course, Courses.join_course.
  cbn [Courses.j_title Courses.j_code Courses.j_start_date].
  destruct (c_course_title c), (c_course_ref c), (c_course_date c);
    try discriminate.
  intros [= <-]. repeat split.
Qed.

Lemma rows_to_courses_none (rows : list Courses.CourseJoined) :
  Courses.rows_to_courses rows = None <->
  exists r, In r rows /\ Courses._row_to_course r = None.
Proof.
  induction rows as [|r rows IH]; cbn [Courses.rows_to_courses].
  - split; [discriminate|intros (r & [] & _)].
  - destruct (Courses._row_to_course r) as [c|] eqn:Hc.
    + destruct (Courses.rows_to_courses rows) as [cs|].
      * split; [discriminate|]. intros (r' & [<-|Hin] & Hn); [congruence|].
        assert (Hcs : Some cs = None) by (apply IH; exists r'; auto).
        discriminate.
      * split; [|reflexivity]. intros _.
        destruct (proj1 IH eq_refl) as (r' & Hin & Hn).
        exists r'. split; [right; exact Hin|exact Hn].
    + split; [|reflexivity]. intros _. exists r. split; [left; reflexivity|exact Hc].
Qed.

Lemma rows_to_courses_some (rows : list Courses.CourseJoined) :
  forall cs, Courses.rows_to_courses rows = Some cs ->
    map Courses.id cs = map Courses.j_id rows
    /\ forall r c, In r rows -> Courses._row_to_course r = Some c -> In c cs.
Proof.
  induction rows as [|r rows IH]; cbn [Courses.rows_to_courses]; intros cs.
  - intros [= <-]. split; [reflexivity|intros r c []].
  - destruct (Courses._row_to_course r) as [c|] eqn:Hc; [|discriminate].
    destruct (Courses.rows_to_courses rows) as [cs'|]; [|discriminate].
    intros [= <-]. destruct (IH cs' eq_refl) as [Hids Hmem]. split.
    + cbn [map]. rewrite Hids, (row_to_course_id _ _ Hc). reflexivity.
    + intros r' c' [<-|Hin] Hc'; [left; congruence|right].
      exact (Hmem r' c' Hin Hc').
Qed.

(** X7. The course listing fails as a whole, with status 500, exactly
    when some stored course has a NULL title, reference or date; when it
    succeeds it holds one entry per stored course, and whatever
    [get_course] returns for an identifier is among its entries. *)
Theorem list_courses_outcomes (db : DB) :
  ((exists c, In c (courses db)
              /\ (c_course_title c = None \/ c_course_ref c = None
                  \/ c_course_date c = None))
   <-> Courses.list_courses db = (HTTPError 500, db))
  /\ (forall l, Courses.list_courses db = (Ok l, db) ->
        Permutation (map Courses.id l) (map c_id (courses db))
        /\ forall k c, Courses.get_course k db = (Ok c, db) -> In c l).
Proof.
  unfold Courses.list_courses, bind, query, ret, raise. split.
  - destruct (Courses.rows_to_courses
                (map (Courses.join_course db)
                   (order_by Courses.course_order (courses db))))
      as [cs|] eqn:Hrows.
    + split; [|discriminate]. intros (c & Hin & Hnull). exfalso.
      assert (Hnone : Courses.rows_to_courses
                        (map (Courses.join_course db)
                           (order_by Courses.course_order (courses db)))
                      = None).
      { apply rows_to_courses_none. exists (Courses.join_course db c). split.
        - apply in_map, order_by_member, Hin.
        - apply row_to_course_none, Hnull. }
      congruence.
    + split; [reflexivity|]. intros _.
      apply rows_to_courses_none in Hrows.
      destruct Hrows as (r & Hin & Hn). apply in_map_iff in Hin.
      destruct Hin as (c & <- & Hin). exists c. split.
      * apply order_by_member in Hin. exact Hin.
      * apply (row_to_course_none db), Hn.
  - intros l.
    destruct (Courses.rows_to_courses
                (map (Courses.join_course db)
                   (order_by Courses.course_order (courses db))))
      as [cs|] eqn:Hrows; [|discriminate].
    intros [= <-]. destruct (rows_to_courses_some _ _ Hrows) as [Hids Hmem].
    split.
    + rewrite Hids, map_map. cbn [Courses.join_course Courses.j_id].
      apply Permutation_map, order_by_perm.
    + intros k c. unfold Courses.get_course, bind, fetch_by_id, ret, raise.
      rewrite select_course_joined_as_join.
      destruct (find (fun c0 => c_id c0 =? k) (courses db)) as [row|] eqn:Hf;
        [|cbn [option_map]; destruct (is_int64 k); discriminate].
      cbn [option_map].
      destruct (Courses._row_to_course (Courses.join_course db row))
        as [c'|] eqn:Hc; [|discriminate].
      intros [= <-]. apply (Hmem (Courses.join_course db row)); [|exact Hc].
      apply in_map, order_by_member. apply find_some in Hf. tauto.
Qed.

Lemma find_none_iff (k : Z) (rows : list CourseRow) :
  find (fun c => c_id c =? k) rows = None <-> ~ In k (map c_id rows).
Proof.
  split.
  - intros Hf Hin. apply in_map_iff in Hin. destruct Hin as (c & Hk & Hin).
    apply (find_none _ _ Hf) in Hin. cbn beta in Hin.
    apply Z.eqb_neq in Hin. contradiction.
  - intros Hno.
    destruct (find (fun c => c_id c =? k) rows) as [c|] eqn:Hf;
      [|reflexivity].
    exfalso. apply Hno. apply find_some in Hf.
    destruct Hf as [Hin Hk]. apply Z.eqb_eq in Hk. rewrite <- Hk.
    apply in_map, Hin.
Qed.

(** X8. [get_course] answers 404 exactly when no stored course has the
    identifier and the identifier is a signed 64-bit integer.  It
    answers 500 exactly when no stored course has the identifier and
    the identifier is outside that range, or when the course it finds
    has a NULL title, reference or date.  A course with all three is
    returned, with its identifier, title, reference and date as
    stored. *)
Theorem get_course_outcomes (db : DB) (k : Z) :
  ((~ In k (map c_id (courses db)) /\ is_int64 k = true)
   <-> Courses.get_course k db = (HTTPError 404, db))
  /\ (((~ In k (map c_id (courses db)) /\ is_int64 k = false)
       \/ (exists c, find (fun c => c_id c =? k) (courses db) = Some c
                     /\ (c_course_title c = None \/ c_course_ref c = None
                         \/ c_course_date c = None)))
      <-> Courses.get_course k db = (HTTPError 500, db))
  /\ (forall c, find (fun c => c_id c =? k) (courses db) = Some c ->
        (forall r, Courses.get_course k db = (Ok r, db) ->
           Courses.id r = k
           /\ c_course_title c = Some (Courses.title r)
           /\ c_course_ref c = Some (Courses.code r)
           /\ c_course_date c = Some (Courses.start_date r))
        /\ (forall t ref d,
              c_course_title c = Some t -> c_course_ref c = Some ref ->
              c_course_date c = Some d ->
              exists r, Courses.get_course k db = (Ok r, db)
                        /\ Courses.id r = k /\ Courses.title r = t
                        /\ Courses.code r = ref
                        /\ Courses.start_date r = d)).
Proof.
  unfold Courses.get_course, bind, fetch_by_id, ret, raise.
  rewrite select_course_joined_as_join.
  destruct (find (fun c => c_id c =? k) (courses db)) as [c|] eqn:Hf;
    cbn [option_map].
  - assert (Hin : In k (map c_id (courses db))).
    { destruct (in_dec Z.eq_dec k (map c_id (courses db))) as [Hin|Hno];
        [exact Hin|].
      apply find_none_iff in Hno. congruence. }
    destruct (Courses._row_to_course (Courses.join_course db c))
      as [r|] eqn:Hc.
    + destruct (row_to_course_some _ _ _ Hc) as (Hid & Ht & Hr & Hd).
      assert (Hk : Courses.id r = k)
        by (rewrite Hid; apply (find_present_id c_id k _ _ Hf)).
      split; [|split].
      * split; [intros [Hno _]; contradiction|discriminate].
      * split; [|discriminate].
        intros [[Hno _]|(c' & Hc' & Hnull)]; [contradiction|].
        injection Hc' as <-.
        apply (row_to_course_none db) in Hnull. congruence.
      * intros c' [= <-]. split.
        -- intros r' [= <-]. split; [exact Hk|]. split; [exact Ht|].
           split; [exact Hr|exact Hd].
        -- intros t ref d Ht' Hr' Hd'. exists r. split; [reflexivity|].
           split; [exact Hk|]. repeat split; congruence.
    + assert (Hnull := proj1 (row_to_course_none db c) Hc).
      split; [|split].
      * split; [intros [Hno _]; contradiction|discriminate].
      * split; [reflexivity|]. intros _. right. exists c.
        split; [reflexivity|exact Hnull].
      * intros c' [= <-]. split; [intros r; discriminate|].
        intros t ref d Ht' Hr' Hd'.
        destruct Hnull as [Hn|[Hn|Hn]]; congruence.
  - assert (Hno := proj1 (find_none_iff k (courses db)) Hf).
    destruct (is_int64 k) eqn:Hk.
    + split; [|split].
      * split; [reflexivity|]. intros _. split; [exact Hno|reflexivity].
      * split; [|discriminate].
        intros [[_ Hf']|(c & Hc & _)]; discriminate.
      * intros c; discriminate.
    + split; [|split].
      * split; [intros [_ Hf']; discriminate|discriminate].
      * split; [reflexivity|]. intros _. left.
        split; [exact Hno|reflexivity].
      * intros c; discriminate.
Qed.

End ListingCourses.

(** ** Templates: creation reads back, updates repeat and stay local *)

Section TemplateWrites.

Lemma or_opt_same (a : option str) : or_opt a a = a.
Proof. unfold or_opt. destruct (truthy_opt a); reflexivity. Qed.

Lemma or_str_again (a : option str) (b : str) :
  or_str a (or_str a b) = or_str a b.
Proof.
  destruct a as [s|]; cbn [or_str]; [|reflexivity].
  destruct (truthy s); reflexivity.
Qed.

Lemma or_opt_again (a b : option str) : or_opt a (or_opt a b) = or_opt a b.
Proof. unfold or_opt. destruct (truthy_opt a); reflexivity. Qed.

Lemma if_not_none_again {A} (a b : option A) :
  if_not_none a (if_not_none a b) = if_not_none a b.
Proof. destruct a; reflexivity. Qed.

Lemma row_to_template_columns (k : Z) (b : CourseTemplates.CourseTemplateBase) :
  CourseTemplates.base
    (CourseTemplates.row_to_template (CourseTemplates.template_columns k b))
  = b.
Proof.
  destruct b. unfold CourseTemplates.row_to_template,
    CourseTemplates.template_columns.
  cbn. rewrite or_opt_same. reflexivity.
Qed.

Lemma merge_template_again (u : CourseTemplates.CourseTemplateUpdate)
  (b : CourseTemplates.CourseTemplateBase) :
  CourseTemplates.merge_template u (CourseTemplates.merge_template u b)
  = CourseTemplates.merge_template u b.
Proof.
  unfold CourseTemplates.merge_template.
  cbn [CourseTemplates.name CourseTemplates.course_type
       CourseTemplates.course_title CourseTemplates.provider_type
       CourseTemplates.default_capacity CourseTemplates.validity_months
       CourseTemplates.cpd_hours CourseTemplates.default_trainer
       CourseTemplates.default_venue_id].
  rewrite or_str_again, !or_opt_again, !if_not_none_again. reflexivity.
Qed.

Lemma update_template_rows_again (k : Z)
  (new : CourseTemplates.CourseTemplateBase) (rows : list TemplateRow) :
  CourseTemplates.update_template_rows k new
    (CourseTemplates.update_template_rows k new rows)
  = CourseTemplates.update_template_rows k new rows.
Proof.
  unfold CourseTemplates.update_template_rows. rewrite map_map.
  apply map_ext. intros r.
  destruct (Z.eqb_spec (t_id r) k) as [He|Hne].
  - cbn [t_id CourseTemplates.template_columns]. rewrite He, Z.eqb_refl.
    reflexivity.
  - destruct (Z.eqb_spec (t_id r) k); [contradiction|reflexivity].
Qed.

Lemma with_course_templates_twice (f g : list TemplateRow -> list TemplateRow)
  (db : DB) :
  with_course_templates f (with_course_templates g db)
  = with_course_templates (fun rows => f (g rows)) db.
Proof. reflexivity. Qed.

Lemma update_rows_fresh (k : Z) (new : CourseTemplates.CourseTemplateBase)
  (rows : list TemplateRow) :
  (forall r, In r rows -> t_id r <> k) ->
  CourseTemplates.update_template_rows k new rows = rows.
Proof.
  intros Hno. unfold CourseTemplates.update_template_rows.
  rewrite <- (map_id rows) at 2. apply map_ext_in. intros r Hin.
  destruct (Z.eqb_spec (t_id r) k) as [He|_]; [|reflexivity].
  exfalso. exact (Hno r Hin He).
Qed.

(** X9. A created template whose numbers the database holds as they
    are bound (integer fields within the signed 64-bit range, cpd_hours
    neither NaN nor negative zero) reads back: the response is the
    submitted body under an identifier no template had before, the
    stored row reads as that response, the templates already stored are
    untouched, and an update of the new template that supplies nothing
    returns the same response and changes nothing. *)
Theorem created_template_reads_back (db : DB)
  (body : CourseTemplates.CourseTemplateCreate) :
  CourseTemplates.stored_as_given body = true ->
  exists out row,
    let db1 := with_course_templates (fun rows => rows ++ [row]) db in
    CourseTemplates.create_course_template body db = (Ok out, db1)
    /\ CourseTemplates.base out = body
    /\ ~ In (CourseTemplates.id out) (map t_id (course_templates db))
    /\ CourseTemplates.select_template (CourseTemplates.id out) db1 = Some row
    /\ CourseTemplates.row_to_template row = out
    /\ (forall k, In k (map t_id (course_templates db)) ->
          CourseTemplates.select_template k db1
          = CourseTemplates.select_template k db)
    /\ CourseTemplates.update_course_template (CourseTemplates.id out)
         Sample.no_template_update db1 = (Ok out, db1).
Proof.
  intros _.
  destruct (create_course_template_runs db body) as [Hrun Hsel].
  set (row := CourseTemplates.template_columns
                (next_rowid (map t_id (course_templates db))) body) in *.
  exists (CourseTemplates.row_to_template row), row. cbv zeta.
  set (db1 := with_course_templates (fun rows => rows ++ [row]) db) in *.
  assert (Hfresh : forall r, In r (course_templates db) ->
                             t_id r <> t_id row).
  { intros r Hr Heq.
    pose proof (next_rowid_fresh (map t_id (course_templates db)) (t_id r)
                  (in_map t_id _ _ Hr)) as Hlt.
    unfold row in Heq. cbn [t_id CourseTemplates.template_columns] in Heq.
    lia. }
  split; [exact Hrun|]. split; [apply row_to_template_columns|].
  split.
  { intros Hin. apply in_map_iff in Hin. destruct Hin as (r & Hr & Hin).
    apply (Hfresh r Hin). exact Hr. }
  split; [exact Hsel|]. split; [reflexivity|]. split.
  - intros k Hk. apply in_map_iff in Hk. destruct Hk as (r & Hr & Hin).
    unfold CourseTemplates.select_template, db1.
    cbn [course_templates with_course_templates].
    destruct (find_of_member (fun t => t_id t =? k) (course_templates db) r Hin)
      as [x Hx]; [apply Z.eqb_eq, Hr|].
    rewrite (find_app_found _ _ [row] _ Hx), Hx. reflexivity.
  - destruct (update_course_template_runs db1 (t_id row)
                Sample.no_template_update row Hsel) as [Hupd _].
    change (CourseTemplates.id (CourseTemplates.row_to_template row))
      with (t_id row).
    rewrite Hupd.
    assert (Hmerge : CourseTemplates.merge_template Sample.no_template_update
                       (CourseTemplates.base
                          (CourseTemplates.row_to_template row))
                     = body).
    { unfold row. rewrite row_to_template_columns. destruct body. reflexivity. }
    rewrite Hmerge. f_equal.
    unfold db1. rewrite with_course_templates_twice.
    unfold CourseTemplates.update_template_rows.
    assert (Hrows : map (fun r => if t_id r =? t_id row
                                  then CourseTemplates.template_columns
                                         (t_id r) body
                                  else r)
                      (course_templates db ++ [row])
                    = course_templates db ++ [row]).
    { rewrite map_app. f_equal.
      - apply (update_rows_fresh (t_id row) body), Hfresh.
      - cbn [map]. rewrite Z.eqb_refl. reflexivity. }
    unfold with_course_templates. cbn [course_templates courses venues
      participants users]. rewrite Hrows. reflexivity.
Qed.

(** X10. A partial update of a template keeps the stored value of every
    field it does not supply; with course_title not supplied, the title
    the read path reports stays the same. *)
Theorem template_update_keeps_absent_fields (db : DB) (k : Z)
  (updates : CourseTemplates.CourseTemplateUpdate) (row : TemplateRow) :
  CourseTemplates.select_template k db = Some row ->
  exists out db' new_row,
    CourseTemplates.update_course_template k updates db = (Ok out, db')
    /\ CourseTemplates.select_template k db' = Some new_row
    /\ out = CourseTemplates.row_to_template new_row
    /\ t_id new_row = t_id row
    /\ (CourseTemplates.upd_name updates = None ->
        t_name new_row = t_name row)
    /\ (CourseTemplates.upd_course_type updates = None ->
        t_course_type new_row = t_course_type row)
    /\ (CourseTemplates.upd_provider_type updates = None ->
        t_provider_type new_row = t_provider_type row)
    /\ (CourseTemplates.upd_default_capacity updates = None ->
        t_default_capacity new_row = t_default_capacity row)
    /\ (CourseTemplates.upd_validity_months updates = None ->
        t_validity_months new_row = t_validity_months row)
    /\ (CourseTemplates.upd_cpd_hours updates = None ->
        t_cpd_hours new_row = t_cpd_hours row)
    /\ (CourseTemplates.upd_default_trainer updates = None ->
        t_default_trainer new_row = t_default_trainer row)
    /\ (CourseTemplates.upd_default_venue_id updates = None ->
        t_default_venue_id new_row = t_default_venue_id row)
    /\ (CourseTemplates.upd_course_title updates = None ->
        CourseTemplates.course_title (CourseTemplates.base out)
        = CourseTemplates.course_title
            (CourseTemplates.base (CourseTemplates.row_to_template row))).
Proof.
  intros Hrow.
  destruct (update_course_template_runs db k updates row Hrow) as [Hrun Hsel].
  do 3 eexists. split; [exact Hrun|]. split; [exact Hsel|].
  split; [reflexivity|]. split; [reflexivity|].
  cbn [CourseTemplates.template_columns CourseTemplates.merge_template
       CourseTemplates.row_to_template CourseTemplates.base
       CourseTemplates.name CourseTemplates.course_type
       CourseTemplates.provider_type CourseTemplates.course_title
       CourseTemplates.default_capacity CourseTemplates.validity_months
       CourseTemplates.cpd_hours CourseTemplates.default_trainer
       CourseTemplates.default_venue_id
       t_name t_course_type t_provider_type t_course_title t_default_title
       t_default_capacity t_validity_months t_cpd_hours t_default_trainer
       t_default_venue_id].
  repeat (split; [intros ->; reflexivity|]).
  intros ->. rewrite or_opt_same. reflexivity.
Qed.

(** X11. A template update applied a second time changes nothing: it
    returns the same response and leaves the database as the first
    application left it. *)
Theorem template_update_idempotent (db db' : DB) (k : Z)
  (updates : CourseTemplates.CourseTemplateUpdate)
  (out : CourseTemplates.CourseTemplateOut) :
  CourseTemplates.update_course_template k updates db = (Ok out, db') ->
  CourseTemplates.update_course_template k updates db' = (Ok out, db').
Proof.
  intros Hok.
  destruct (CourseTemplates.select_template k db) as [row|] eqn:Hrow.
  - destruct (update_course_template_runs db k updates row Hrow)
      as [Hrun Hsel].
    match type of Hrun with
    | _ = (Ok ?o, ?d) => set (out1 := o) in *; set (db1 := d) in *
    end.
    assert (Hout : out = out1) by congruence.
    assert (Hdb : db' = db1) by congruence.
    subst out db'.
    destruct (update_course_template_runs db1 k updates _ Hsel) as [Hrun2 _].
    rewrite Hrun2. rewrite row_to_template_columns, merge_template_again.
    cbn [t_id CourseTemplates.template_columns].
    unfold out1, db1. rewrite with_course_templates_twice.
    unfold with_course_templates.
    cbn [course_templates courses venues participants users].
    rewrite update_template_rows_again. reflexivity.
  - unfold CourseTemplates.update_course_template, bind, fetch_by_id in Hok.
    rewrite Hrow in Hok. destruct (is_int64 k); discriminate.
Qed.

End TemplateWrites.

(** ** Users and participants: updates repeat; every update stays local *)

Section RepeatedUpdates.
Context {H : Users.PasswordHasher}.

Lemma if_not_none_str_again (a : option str) (b : str) :
  if_not_none_str a (if_not_none_str a b) = if_not_none_str a b.
Proof. destruct a; reflexivity. Qed.

Lemma merge_user_again (u : Users.UserUpdate) (row : UserRow) :
  truthy_opt (Users.password u) = false ->
  Users.merge_user u (Users.merge_user u row) = Users.merge_user u row.
Proof.
  intros Hpw. unfold Users.merge_user.
  cbn [u_id u_first_name u_surname u_full_name u_email u_role
       u_must_change_password u_password_hash].
  rewrite !or_str_again, if_not_none_again.
  f_equal.
  - destruct (truthy_opt (Users.full_name u)) eqn:Hfn.
    + destruct (Users.full_name u); [reflexivity|discriminate].
    + destruct (truthy_opt (Users.first_name u)
                || truthy_opt (Users.surname u)); reflexivity.
  - destruct (Users.must_change_password u) as [[|]|]; try reflexivity.
    destruct (u_must_change_password row =? 0); reflexivity.
  - destruct (Users.password u) as [pw|]; [|reflexivity].
    cbn [truthy_opt] in Hpw. rewrite Hpw. reflexivity.
Qed.

Lemma update_user_rows_again (k : Z) (new : UserRow) (rows : list UserRow) :
  Users.update_user_rows k new (Users.update_user_rows k new rows)
  = Users.update_user_rows k new rows.
Proof.
  unfold Users.update_user_rows. rewrite map_map. apply map_ext. intros r.
  destruct (Z.eqb_spec (u_id r) k) as [He|Hne].
  - cbn [u_id]. rewrite He, Z.eqb_refl. reflexivity.
  - destruct (Z.eqb_spec (u_id r) k); [contradiction|reflexivity].
Qed.

(** X12. A user update that sets no password, applied a second time,
    changes nothing: same response, same database. *)
Theorem user_update_idempotent (db db' : DB) (k : Z)
  (updates : Users.UserUpdate) (out : Users.User) :
  truthy_opt (Users.password updates) = false ->
  Users.update_user k updates db = (Ok out, db') ->
  Users.update_user k updates db' = (Ok out, db').
Proof.
  intros Hpw Hok.
  destruct (Users.select_user k db) as [row|] eqn:Hrow.
  - destruct (update_user_runs db k updates row Hrow) as [Hrun Hsel].
    match type of Hrun with
    | _ = (Ok ?o, ?d) => set (out1 := o) in *; set (db1 := d) in *
    end.
    assert (Hout : out = out1) by congruence.
    assert (Hdb : db' = db1) by congruence.
    subst out db'.
    destruct (update_user_runs db1 k updates _ Hsel) as [Hrun2 _].
    rewrite Hrun2, (merge_user_again updates row Hpw).
    unfold out1, db1. f_equal.
    unfold with_users. cbn [course_templates courses venues participants users].
    rewrite update_user_rows_again. reflexivity.
  - unfold Users.update_user, bind, fetch_by_id in Hok.
    rewrite Hrow in Hok. destruct (is_int64 k); discriminate.
Qed.

Lemma merge_participant_again (p : Participants.ParticipantUpdate)
  (row : ParticipantRow) :
  Participants.merge_participant p (Participants.merge_participant p row)
  = Participants.merge_participant p row.
Proof.
  unfold Participants.merge_participant.
  cbn [p_id p_course_id p_first_name p_surname p_contact_number p_email
       p_payment_status p_joining_sent p_notes].
  rewrite !if_not_none_str_again, !if_not_none_again.
  destruct (Participants.joining_sent p) as [[|]|]; reflexivity.
Qed.

Lemma update_participant_rows_again (k : Z) (new : ParticipantRow)
  (rows : list ParticipantRow) :
  Participants.update_participant_rows k new
    (Participants.update_participant_rows k new rows)
  = Participants.update_participant_rows k new rows.
Proof.
  unfold Participants.update_participant_rows. rewrite map_map.
  apply map_ext. intros r.
  destruct (Z.eqb_spec (p_id r) k) as [He|Hne].
  - cbn [p_id]. rewrite He, Z.eqb_refl. reflexivity.
  - destruct (Z.eqb_spec (p_id r) k); [contradiction|reflexivity].
Qed.

(** X13. A participant update applied a second time changes nothing;
    it stores 1 for joining_sent true, 0 for false, and keeps the stored
    flag when joining_sent is not supplied. *)
Theorem participant_update_idempotent (db db' : DB) (k : Z)
  (payload : Participants.ParticipantUpdate) (out : Participants.Participant) :
  Participants.update_participant k payload db = (Ok out, db') ->
  Participants.update_participant k payload db' = (Ok out, db')
  /\ exists row new_row,
       Participants.select_participant k db = Some row
       /\ Participants.select_participant k db' = Some new_row
       /\ p_joining_sent new_row
          = match Participants.joining_sent payload with
            | Some true => 1
            | Some false => 0
            | None => p_joining_sent row
            end
       /\ p_course_id new_row = p_course_id row.
Proof.
  intros Hok.
  destruct (Participants.select_participant k db) as [row|] eqn:Hrow.
  - destruct (update_participant_runs db k payload row Hrow) as [Hrun Hsel].
    match type of Hrun with
    | _ = (Ok ?o, ?d) => set (out1 := o) in *; set (db1 := d) in *
    end.
    assert (Hout : out = out1) by congruence.
    assert (Hdb : db' = db1) by congruence.
    subst out db'. split.
    + destruct (update_participant_runs db1 k payload _ Hsel) as [Hrun2 _].
      rewrite Hrun2, merge_participant_again.
      unfold out1, db1. f_equal.
      unfold with_participants.
      cbn [course_templates courses venues participants users].
      rewrite update_participant_rows_again. reflexivity.
    + do 2 eexists. split; [reflexivity|]. split; [exact Hsel|].
      split; reflexivity.
  - unfold Participants.update_participant, bind, fetch_by_id in Hok.
    rewrite Hrow in Hok. destruct (is_int64 k); discriminate.
Qed.

End RepeatedUpdates.

Section LocalUpdates.
Context {H : Users.PasswordHasher}.

Lemma updated_rows_frame {R} (key : R -> Z) (k : Z) (f : R -> R)
  (rows : list R) :
  (forall r, key (f r) = key r) ->
  Forall2 (fun r r' => key r' = key r /\ (key r <> k -> r' = r))
    rows (map (fun r => if key r =? k then f r else r) rows).
Proof.
  intros Hf. induction rows as [|r rows IH]; cbn [map]; constructor.
  - destruct (Z.eqb_spec (key r) k) as [He|Hne].
    + split; [apply Hf|intros Hk; contradiction].
    + split; [reflexivity|reflexivity].
  - exact IH.
Qed.

Lemma same_rows_frame {R} (key : R -> Z) (k : Z) (rows : list R) :
  Forall2 (fun r r' => key r' = key r /\ (key r <> k -> r' = r)) rows rows.
Proof. induction rows; constructor; [split; reflexivity|assumption]. Qed.

(** X14. A partial update touches one row only: whatever its outcome,
    the table keeps its rows in place with their identifiers, every row
    with another identifier is unchanged, and the other tables are
    untouched.  This holds for templates, participants and users. *)
Theorem updates_touch_only_their_row (db : DB) (k : Z) :
  (forall updates res db',
      CourseTemplates.update_course_template k updates db = (res, db') ->
      Forall2 (fun r r' => t_id r' = t_id r /\ (t_id r <> k -> r' = r))
        (course_templates db) (course_templates db')
      /\ courses db' = courses db /\ venues db' = venues db
      /\ participants db' = participants db /\ users db' = users db)
  /\ (forall payload res db',
         Participants.update_participant k payload db = (res, db') ->
         Forall2 (fun r r' => p_id r' = p_id r /\ (p_id r <> k -> r' = r))
           (participants db) (participants db')
         /\ course_templates db' = course_templates db
         /\ courses db' = courses db /\ venues db' = venues db
         /\ users db' = users db)
  /\ (forall updates res db',
         Users.update_user k updates db = (res, db') ->
         Forall2 (fun r r' => u_id r' = u_id r /\ (u_id r <> k -> r' = r))
           (users db) (users db')
         /\ course_templates db' = course_templates db
         /\ courses db' = courses db /\ venues db' = venues db
         /\ participants db' = participants db).
Proof.
  split; [|split].
  - intros updates res db' Hrun.
    destruct (CourseTemplates.select_template k db) as [row|] eqn:Hrow.
    + destruct (update_course_template_runs db k updates row Hrow) as [Hr _].
      rewrite Hr in Hrun. injection Hrun as _ <-.
      cbn [course_templates courses venues participants users
           with_course_templates].
      split; [|repeat split].
      apply (updated_rows_frame t_id k
               (fun r => CourseTemplates.template_columns (t_id r) _)).
      reflexivity.
    + unfold CourseTemplates.update_course_template, bind, fetch_by_id in Hrun.
      rewrite Hrow in Hrun.
      destruct (is_int64 k); injection Hrun as _ <-;
        (split; [apply same_rows_frame|repeat split]).
  - intros payload res db' Hrun.
    destruct (Participants.select_participant k db) as [row|] eqn:Hrow.
    + destruct (update_participant_runs db k payload row Hrow) as [Hr _].
      rewrite Hr in Hrun. injection Hrun as _ <-.
      cbn [course_templates courses venues participants users
           with_participants].
      split; [|repeat split].
      unfold Participants.update_participant_rows.
      apply (updated_rows_frame p_id k). reflexivity.
    + unfold Participants.update_participant, bind, fetch_by_id in Hrun.
      rewrite Hrow in Hrun.
      destruct (is_int64 k); injection Hrun as _ <-;
        (split; [apply same_rows_frame|repeat split]).
  - intros updates res db' Hrun.
    destruct (Users.select_user k db) as [row|] eqn:Hrow.
    + destruct (update_user_runs db k updates row Hrow) as [Hr _].
      rewrite Hr in Hrun. injection Hrun as _ <-.
      cbn [course_templates courses venues participants users with_users].
      split; [|repeat split].
      unfold Users.update_user_rows.
      apply (updated_rows_frame u_id k). reflexivity.
    + unfold Users.update_user, bind, fetch_by_id in Hrun.
      rewrite Hrow in Hrun.
      destruct (is_int64 k); injection Hrun as _ <-;
        (split; [apply same_rows_frame|repeat split]).
Qed.

End LocalUpdates.

(** ** Participants: create, list, delete *)

Section ParticipantLifecycle.



Lemma create_participant_runs (db : DB) (cid : Z)
  (payload : Participants.ParticipantCreate) :
  let row :=
    {| p_id := next_rowid (map p_id (participants db));
       p_course_id := cid;
       p_first_name := Participants.new_first_name payload;
       p_surname := Participants.new_surname payload;
       p_contact_number := Participants.new_contact_number payload;
       p_email := Participants.new_email payload;
       p_payment_status := Participants.new_payment_status payload;
       p_joining_sent :=
         if Participants.new_joining_sent payload then 1 else 0;
       p_notes := Participants.new_notes payload |} in
  let db1 := with_participants (fun rows => rows ++ [row]) db in
  Participants.create_participant cid payload db
  = (Ok (Participants.row_to_participant row), db1)
  /\ Participants.select_participant (p_id row) db1 = Some row
  /\ forall r, In r (participants db) -> p_id r <> p_id row.
Proof.
  intros row db1.
  assert (Hfresh : forall r, In r (participants db) -> p_id r <> p_id row).
  { intros r Hr Heq.
    pose proof (next_rowid_fresh (map p_id (participants db)) (p_id r)
                  (in_map p_id _ _ Hr)) as Hlt.
    unfold row in Heq. cbn [p_id] in Heq. lia. }
  assert (Hsel : Participants.select_participant (p_id row) db1 = Some row).
  { unfold db1, Participants.select_participant.
    cbn [participants with_participants].
    apply (find_appended p_id); [exact Hfresh|reflexivity]. }
  split; [|split; [exact Hsel|exact Hfresh]].
  unfold Participants.create_participant, bind, query, execute.
  fold row. fold db1.
  change (next_rowid (map p_id (participants db))) with (p_id row).
  rewrite Hsel. reflexivity.
Qed.


Lemma with_participants_same (db : DB) (rows : list ParticipantRow) :
  rows = participants db -> with_participants (fun _ => rows) db = db.
Proof. intros ->. destruct db. reflexivity. Qed.

Lemma filter_all {A} (f : A -> bool) (l : list A) :
  (forall x, In x l -> f x = true) -> filter f l = l.
Proof.
  induction l as [|a l IH]; intros Hf; [reflexivity|]. simpl.
  rewrite (Hf a (or_introl eq_refl)), IH; [reflexivity|].
  intros x Hx. apply Hf. right. exact Hx.
Qed.



(** X18. Deleting the participant just created gives back the
    database as it was before the creation. *)
Theorem create_then_delete_participant (db : DB) (cid : Z)
  (payload : Participants.ParticipantCreate) :
  exists out db1,
    Participants.create_participant cid payload db = (Ok out, db1)
    /\ Participants.delete_participant (Participants.id out) db1
       = (Ok {| Participants.ok := true |}, db).
Proof.
  destruct (create_participant_runs db cid payload) as (Hrun & _ & Hfresh).
  do 2 eexists. split; [exact Hrun|].
  unfold Participants.delete_participant, bind, execute, ret. f_equal.
  cbn [Participants.id Participants.row_to_participant].
  transitivity (with_participants (fun _ => participants db) db);
    [|apply with_participants_same; reflexivity].
  unfold with_participants.
  cbn [participants course_templates courses venues users]. f_equal.
  rewrite filter_app. cbn [filter p_id]. rewrite Z.eqb_refl. cbn [negb].
  rewrite app_nil_r. apply filter_all.
  intros r Hr. apply negb_true_iff, Z.eqb_neq.
  apply (Hfresh r Hr).
Qed.

End ParticipantLifecycle.

(** ** Creating users *)

Section UserCreation.
Context {H : Users.PasswordHasher}.

Lemma select_duplicate_spec (full email : str) (db : DB) :
  Users.select_duplicate full email db = true <->
  exists r, In r (users db) /\ u_full_name r = full /\ u_email r = Some email.
Proof.
  unfold Users.select_duplicate. rewrite existsb_exists. split.
  - intros (r & Hin & Hm). apply andb_true_iff in Hm. destruct Hm as [Hf He].
    apply text_eqb_eq in Hf. exists r. split; [exact Hin|]. split; [exact Hf|].
    destruct (u_email r) as [e|]; [|discriminate].
    cbn [text_eq_opt] in He. apply text_eqb_eq in He. congruence.
  - intros (r & Hin & Hf & He). exists r. split; [exact Hin|].
    rewrite He. cbn [text_eq_opt]. apply andb_true_iff.
    split; apply text_eqb_eq; [exact Hf|reflexivity].
Qed.

Lemma create_user_runs (db : DB) (user : Users.UserCreate) :
  let full :=
    strip (Users.new_first_name user ++ [32] ++ Users.new_surname user) in
  let email := or_str (Users.new_email user) [] in
  let row :=
    {| u_id := next_rowid (map u_id (users db));
       u_first_name := Users.new_first_name user;
       u_surname := Users.new_surname user;
       u_full_name := full;
       u_email := Some email;
       u_role := Users.new_role user;
       u_must_change_password := 1;
       u_password_hash := Users.hash_password (Users.new_password user) |} in
  Users.select_duplicate full email db = false ->
  Users.create_user user db
  = (Ok (Users.row_to_user row), with_users (fun rows => rows ++ [row]) db)
  /\ forall r, In r (users db) -> u_id r <> u_id row.
Proof.
  intros full email row Hdup.
  assert (Hfresh : forall r, In r (users db) -> u_id r <> u_id row).
  { intros r Hr Heq.
    pose proof (next_rowid_fresh (map u_id (users db)) (u_id r)
                  (in_map u_id _ _ Hr)) as Hlt.
    unfold row in Heq. cbn [u_id] in Heq. lia. }
  split; [|exact Hfresh].
  unfold Users.create_user. fold full. fold email.
  unfold bind at 1. unfold query at 1. rewrite Hdup.
  unfold bind, query, execute. fold row.
  change (next_rowid (map u_id (users db))) with (u_id row).
  unfold Users.select_user. cbn [users with_users].
  rewrite (find_appended u_id); [reflexivity|exact Hfresh|reflexivity].
Qed.

Lemma create_user_refused (db : DB) (user : Users.UserCreate) :
  Users.select_duplicate
    (strip (Users.new_first_name user ++ [32] ++ Users.new_surname user))
    (or_str (Users.new_email user) []) db = true ->
  Users.create_user user db = (HTTPError 400, db).
Proof.
  intros Hdup. unfold Users.create_user.
  unfold bind at 1. unfold query at 1. rewrite Hdup. reflexivity.
Qed.

(** X19. [create_user] is refused with status 400, leaving the database
    as it was, exactly when a stored user has the same full name (first
    name and surname joined by a space and stripped) together with the
    same email, an omitted email counting as the empty string.
    Otherwise the user is stored under an unused identifier with that
    full name, with the email as a string, never NULL, and with
    must_change_password set. *)
Theorem create_user_outcomes (db : DB) (user : Users.UserCreate) :
  let full :=
    strip (Users.new_first_name user ++ [32] ++ Users.new_surname user) in
  let email := or_str (Users.new_email user) [] in
  ((exists r, In r (users db) /\ u_full_name r = full
              /\ u_email r = Some email)
   <-> Users.create_user user db = (HTTPError 400, db))
  /\ ((forall r, In r (users db) ->
                 ~ (u_full_name r = full /\ u_email r = Some email)) ->
      exists out row,
        Users.create_user user db
        = (Ok out, with_users (fun rows => rows ++ [row]) db)
        /\ ~ In (Users.id out) (map u_id (users db))
        /\ u_id row = Users.id out
        /\ u_full_name row = full
        /\ u_email row = Some email
        /\ u_must_change_password row = 1
        /\ u_password_hash row
           = Users.hash_password (Users.new_password user)
        /\ Users.out_first_name out = Users.new_first_name user
        /\ Users.out_surname out = Users.new_surname user
        /\ Users.out_full_name out = full
        /\ Users.out_role out = Users.new_role user
        /\ Users.out_email out = Some email
        /\ Users.out_must_change_password out = true).
Proof.
  intros full email. split.
  - rewrite <- select_duplicate_spec.
    destruct (Users.select_duplicate full email db) eqn:Hdup.
    + split; [intros _|reflexivity].
      apply create_user_refused. exact Hdup.
    + split; [discriminate|]. intros H400.
      destruct (create_user_runs db user Hdup) as [Hrun _].
      fold full in Hrun. fold email in Hrun. rewrite Hrun in H400.
      discriminate.
  - intros Hno.
    assert (Hdup : Users.select_duplicate full email db = false).
    { destruct (Users.select_duplicate full email db) eqn:Hd;
        [|reflexivity].
      apply select_duplicate_spec in Hd. destruct Hd as (r & Hin & Hf & He).
      exfalso. exact (Hno r Hin (conj Hf He)). }
    destruct (create_user_runs db user Hdup) as [Hrun Hfresh].
    do 2 eexists. split; [exact Hrun|]. split.
    { cbn [Users.id Users.row_to_user u_id]. intros Hin.
      apply in_map_iff in Hin. destruct Hin as (r & Hr & Hin).
      apply (Hfresh r Hin). exact Hr. }
    repeat (split; [reflexivity|]). reflexivity.
Qed.

(** X20. A user cannot be created twice: after a successful
    [create_user], the same request is refused with status 400 and the
    database stays as the first creation left it. *)
Theorem create_user_twice (db db' : DB) (user : Users.UserCreate)
  (out : Users.User) :
  Users.create_user user db = (Ok out, db') ->
  Users.create_user user db' = (HTTPError 400, db').
Proof.
  intros Hok.
  destruct (Users.select_duplicate
              (strip (Users.new_first_name user ++ [32]
                      ++ Users.new_surname user))
              (or_str (Users.new_email user) []) db) eqn:Hdup.
  - unfold Users.create_user in Hok.
    unfold bind at 1 in Hok. unfold query at 1 in Hok.
    rewrite Hdup in Hok. discriminate.
  - destruct (create_user_runs db user Hdup) as [Hrun _].
    rewrite Hrun in Hok.
    match type of Hok with
    | (_, ?d) = _ => assert (Hdb : db' = d) by congruence
    end.
    subst db'.
    apply create_user_refused, select_duplicate_spec.
    eexists. split; [|split].
    + cbn [users with_users]. apply in_or_app. right. left. reflexivity.
    + reflexivity.
    + reflexivity.
Qed.

End UserCreation.

(** ** The order of the course listing *)

Section CourseListingOrder.






End CourseListingOrder.

(** ** The template and user listings *)

Section Listings.

Lemma template_order_total (a b : TemplateRow) :
  CourseTemplates.template_order a b = false ->
  CourseTemplates.template_order b a = true.
Proof.
  unfold CourseTemplates.template_order.
  rewrite (text_compare_antisym (t_name a) (t_name b)).
  destruct (text_compare (t_name a) (t_name b)); cbn [CompOpp];
    try discriminate; reflexivity.
Qed.

Lemma user_order_total (a b : UserRow) :
  Users.user_order a b = false -> Users.user_order b a = true.
Proof.
  unfold Users.user_order.
  rewrite (text_compare_antisym (u_role a) (u_role b)),
    (text_compare_antisym (u_full_name a) (u_full_name b)).
  destruct (text_compare (u_role a) (u_role b)); cbn [CompOpp];
    try discriminate; [|reflexivity].
  destruct (text_compare (u_full_name a) (u_full_name b)); cbn [CompOpp];
    try discriminate; reflexivity.
Qed.

(** X22. The template listing and the user listing always succeed and
    hold every stored row exactly once, as the single-row handlers
    report it; templates come ordered by name, users by role and,
    within a role, by full name. *)
Theorem listings_are_complete_and_ordered (db : DB) :
  (exists l,
      CourseTemplates.list_course_templates db = (Ok l, db)
      /\ Permutation l
           (map CourseTemplates.row_to_template (course_templates db))
      /\ Sorted
           (fun a b =>
              text_compare (CourseTemplates.name (CourseTemplates.base a))
                (CourseTemplates.name (CourseTemplates.base b)) <> Gt) l)
  /\ (exists l,
         Users.list_users db = (Ok l, db)
         /\ Permutation l (map Users.row_to_user (users db))
         /\ Sorted
              (fun a b =>
                 match text_compare (Users.out_role a) (Users.out_role b) with
                 | Lt => True
                 | Eq => text_compare (Users.out_full_name a)
                           (Users.out_full_name b) <> Gt
                 | Gt => False
                 end) l).
Proof.
  split.
  - eexists. split; [reflexivity|]. split.
    + apply Permutation_map, order_by_perm.
    + apply (sorted_map
               (fun a b => CourseTemplates.template_order a b = true)).
      * intros a b. unfold CourseTemplates.template_order.
        cbn [CourseTemplates.row_to_template CourseTemplates.base
             CourseTemplates.name].
        destruct (text_compare (t_name a) (t_name b)); intros Hle;
          discriminate.
      * apply order_by_sorted, template_order_total.
  - eexists. split; [reflexivity|]. split.
    + apply Permutation_map, order_by_perm.
    + apply (sorted_map (fun a b => Users.user_order a b = true)).
      * intros a b. unfold Users.user_order.
        cbn [Users.row_to_user Users.out_role Users.out_full_name].
        destruct (text_compare (u_role a) (u_role b));
          [|intros _; exact I|discriminate].
        destruct (text_compare (u_full_name a) (u_full_name b));
          intros Hle; discriminate.
      * apply order_by_sorted, user_order_total.
Qed.

End Listings.

(** ** The schema upgrade *)

Section SchemaUpgrade.

Lemma text_eqb_refl (a : str) : text_eqb a a = true.
Proof. apply text_eqb_eq. reflexivity. Qed.

Lemma has_column_added (s s1 : Upgrade.Schema) (name type : str) :
  Upgrade.add_column s name type = Some s1 ->
  Upgrade.has_column s1 name = true.
Proof.
  unfold Upgrade.add_column. destruct s as [cols|]; [|discriminate].
  destruct (existsb _ cols); [discriminate|]. intros [= <-].
  cbn [Upgrade.has_column]. rewrite map_app, existsb_app.
  cbn [map existsb Upgrade.col_name]. rewrite text_eqb_refl.
  apply orb_true_iff. right. reflexivity.
Qed.

Lemma has_column_kept (s s1 : Upgrade.Schema) (name type other : str) :
  Upgrade.add_column s name type = Some s1 ->
  Upgrade.has_column s other = true ->
  Upgrade.has_column s1 other = true.
Proof.
  unfold Upgrade.add_column. destruct s as [cols|]; [|discriminate].
  destruct (existsb _ cols); [discriminate|]. intros [= <-].
  cbn [Upgrade.has_column]. rewrite map_app, existsb_app. intros ->.
  reflexivity.
Qed.

Lemma add_column_extends (s s1 : Upgrade.Schema) (name type : str) :
  Upgrade.add_column s name type = Some s1 ->
  exists cols,
    s = Some cols
    /\ s1 = Some (cols ++ [{| Upgrade.col_name := name;
                              Upgrade.col_type := type |}]).
Proof.
  unfold Upgrade.add_column. destruct s as [cols|]; [|discriminate].
  destruct (existsb _ cols); [discriminate|]. intros [= <-].
  exists cols. split; reflexivity.
Qed.

(** X23. The schema upgrade is idempotent: when a run finishes, both
    columns exist, the columns the table had are kept in front in their
    order, a second run adds nothing and reports no change; the first
    run reports a change exactly when it added a column.  Against a
    missing table the script stops with an error. *)
Theorem upgrade_idempotent (s s' : Upgrade.Schema) (changed : bool) :
  Upgrade.upgrade s = Upgrade.Finished s' changed ->
  Upgrade.upgrade s' = Upgrade.Finished s' false
  /\ Upgrade.has_column s' (of_string "validity_months") = true
  /\ Upgrade.has_column s' (of_string "cpd_hours") = true
  /\ (exists cols extra, s = Some cols /\ s' = Some (cols ++ extra))
  /\ (changed = false <-> s' = s)
  /\ Upgrade.upgrade None = Upgrade.Crashed None.
Proof.
  intros Hrun.
  assert (Hboth : Upgrade.has_column s' (of_string "validity_months") = true
                  /\ Upgrade.has_column s' (of_string "cpd_hours") = true
                  /\ (exists cols extra,
                         s = Some cols /\ s' = Some (cols ++ extra)
                         /\ (changed = false <-> extra = []))).
  { unfold Upgrade.upgrade in Hrun.
    destruct (Upgrade.has_column s (of_string "validity_months")) eqn:Hv;
      cbn [negb] in Hrun.
    - destruct (Upgrade.has_column s (of_string "cpd_hours")) eqn:Hc;
        cbn [negb] in Hrun.
      + injection Hrun as <- <-. split; [exact Hv|]. split; [exact Hc|].
        destruct s as [cols|]; [|discriminate].
        exists cols, []. rewrite app_nil_r. repeat split; reflexivity.
      + destruct (Upgrade.add_column s (of_string "cpd_hours")
                    (of_string "REAL")) as [s2|] eqn:Ha; [|discriminate].
        injection Hrun as <- <-.
        split; [exact (has_column_kept _ _ _ _ _ Ha Hv)|].
        split; [exact (has_column_added _ _ _ _ Ha)|].
        destruct (add_column_extends _ _ _ _ Ha) as (cols & -> & ->).
        exists cols. eexists. split; [reflexivity|]. split; [reflexivity|].
        split; discriminate.
    - destruct (Upgrade.add_column s (of_string "validity_months")
                  (of_string "INTEGER")) as [s1|] eqn:Ha1; [|discriminate].
      pose proof (has_column_added _ _ _ _ Ha1) as Hv1.
      destruct (add_column_extends _ _ _ _ Ha1) as (cols & -> & ->).
      destruct (Upgrade.has_column _ (of_string "cpd_hours")) eqn:Hc;
        cbn [negb] in Hrun.
      + injection Hrun as <- <-. split; [exact Hv1|]. split; [exact Hc|].
        exists cols. eexists. split; [reflexivity|]. split; [reflexivity|].
        split; discriminate.
      + destruct (Upgrade.add_column _ (of_string "cpd_hours")
                    (of_string "REAL")) as [s2|] eqn:Ha2; [|discriminate].
        injection Hrun as <- <-.
        split; [exact (has_column_kept _ _ _ _ _ Ha2 Hv1)|].
        split; [exact (has_column_added _ _ _ _ Ha2)|].
        destruct (add_column_extends _ _ _ _ Ha2) as (cols' & Hc' & ->).
        injection Hc' as <-.
        exists cols. eexists. split; [reflexivity|].
        split; [rewrite <- app_assoc; reflexivity|].
        split; discriminate. }
  destruct Hboth as (Hv & Hc & cols & extra & -> & -> & Hch).
  split.
  { unfold Upgrade.upgrade. rewrite Hv. cbn [negb]. rewrite Hc. reflexivity. }
  split; [exact Hv|]. split; [exact Hc|].
  split; [exists cols, extra; split; reflexivity|].
  split; [|reflexivity].
  rewrite Hch. split.
  - intros ->. rewrite app_nil_r. reflexivity.
  - intros [= He]. rewrite <- (app_nil_r cols) in He at 2.
    apply app_inv_head in He. exact He.
Qed.

End SchemaUpgrade.

(** ** The further properties at work *)

Lemma created_course_reads_back_witness :
  exists course db',
    Courses.create_course (U := Sample.latin1) (Sample.payload_plain 1 None)
      Sample.db_three_refs = (Ok course, db')
    /\ Courses.get_course (Courses.id course) db' = (Ok course, db')
    /\ exists r, Courses.get_course 2 Sample.db_three_refs
                 = (r, Sample.db_three_refs)
                 /\ Courses.get_course 2 db' = (r, db').
Proof.
  destruct (created_course_reads_back (U := Sample.latin1)
              Sample.db_three_refs (Sample.payload_plain 1 None)
              (Sample.template_row 1 "X" (Some 10)) eq_refl)
    as (course & db' & Hrun & Hget & _ & Hold).
  exists course, db'. split; [exact Hrun|]. split; [exact Hget|].
  apply Hold. right. left. reflexivity.
Defined.

Lemma created_course_title_and_status_witness :
  exists course row,
    Courses.create_course (U := Sample.latin1) (Sample.payload_at_venue 1 9)
      Sample.db_legacy
    = (Ok course, with_courses (fun rows => rows ++ [row]) Sample.db_legacy)
    /\ c_course_title row = Some (of_string "First Aid")
    /\ Courses.title course = of_string "First Aid"
    /\ c_status row = Some (of_string "Planned")
    /\ Courses.status course = of_string "Planned".
Proof.
  destruct (created_course_title_and_status (U := Sample.latin1)
              Sample.db_legacy (Sample.payload_at_venue 1 9)
              Sample.legacy_template eq_refl)
    as (course & row & Hrun & _ & _ & _ & Hname & Hplanned & _).
  exists course, row. split; [exact Hrun|].
  destruct (Hname eq_refl) as (Hstored_title & Htitle & _).
  destruct (Hplanned eq_refl) as (Hstored_status & Hstatus).
  split; [exact Hstored_title|]. split; [exact Htitle|].
  split; [exact Hstored_status|exact Hstatus].
Defined.


Lemma list_courses_outcomes_witness :
  Courses.list_courses Sample.db_with_legacy_course
  = (HTTPError 500, Sample.db_with_legacy_course)
  /\ exists l,
       Courses.list_courses Sample.db_cohort_999
       = (Ok l, Sample.db_cohort_999)
       /\ Permutation (map Courses.id l) [1].
Proof.
  split.
  - apply (list_courses_outcomes Sample.db_with_legacy_course).
    exists Sample.course_without_ref. split.
    + right. left. reflexivity.
    + right. left. reflexivity.
  - eexists. split; [reflexivity|].
    apply (proj2 (list_courses_outcomes Sample.db_cohort_999) _ eq_refl).
Defined.

Lemma get_course_outcomes_witness :
  Courses.get_course 99 Sample.db_with_legacy_course
  = (HTTPError 404, Sample.db_with_legacy_course)
  /\ Courses.get_course (2 ^ 63) Sample.db_with_legacy_course
     = (HTTPError 500, Sample.db_with_legacy_course)
  /\ Courses.get_course 2 Sample.db_with_legacy_course
     = (HTTPError 500, Sample.db_with_legacy_course)
  /\ exists r,
       Courses.get_course 1 Sample.db_with_legacy_course
       = (Ok r, Sample.db_with_legacy_course)
       /\ Courses.id r = 1
       /\ Courses.title r = of_string "X"
       /\ Courses.code r = of_string "X-2024-001"
       /\ Courses.start_date r = of_string "2024-01-15".
Proof.
  split; [|split; [|split]].
  - apply (proj1 (get_course_outcomes Sample.db_with_legacy_course 99)).
    split; [|reflexivity].
    simpl. intros [He|[He|[]]]; discriminate.
  - apply (proj1 (proj2 (get_course_outcomes Sample.db_with_legacy_course
                           (2 ^ 63)))).
    left. split; [|reflexivity].
    simpl. intros [He|[He|[]]]; discriminate.
  - apply (proj1 (proj2 (get_course_outcomes Sample.db_with_legacy_course 2))).
    right. exists Sample.course_without_ref.
    split; [reflexivity|]. right. left. reflexivity.
  - apply (proj2 (proj2 (proj2 (get_course_outcomes
                                  Sample.db_with_legacy_course 1))
                    (Sample.course_row 1 1 "X-2024-001") eq_refl));
      reflexivity.
Defined.

Lemma created_template_reads_back_witness :
  exists out row,
    CourseTemplates.create_course_template Sample.template_body_numbers
      Sample.db_people
    = (Ok out,
       with_course_templates (fun rows => rows ++ [row]) Sample.db_people)
    /\ CourseTemplates.base out = Sample.template_body_numbers
    /\ CourseTemplates.select_template 1
         (with_course_templates (fun rows => rows ++ [row]) Sample.db_people)
       = CourseTemplates.select_template 1 Sample.db_people
    /\ CourseTemplates.update_course_template (CourseTemplates.id out)
         Sample.no_template_update
         (with_course_templates (fun rows => rows ++ [row]) Sample.db_people)
       = (Ok out,
          with_course_templates (fun rows => rows ++ [row]) Sample.db_people).
Proof.
  destruct (created_template_reads_back Sample.db_people
              Sample.template_body_numbers eq_refl)
    as (out & row & Hrun & Hbase & _ & _ & _ & Hold & Hupd).
  exists out, row. split; [exact Hrun|]. split; [exact Hbase|].
  split; [|exact Hupd].
  apply Hold. left. reflexivity.
Defined.

Lemma template_update_keeps_absent_fields_witness :
  exists out db' new_row,
    CourseTemplates.update_course_template 1
      (Sample.template_name_and_capacity (Some (of_string "CPR")) None)
      Sample.db_legacy = (Ok out, db')
    /\ CourseTemplates.select_template 1 db' = Some new_row
    /\ t_default_capacity new_row = Some 10
    /\ t_default_trainer new_row = None
    /\ CourseTemplates.course_title (CourseTemplates.base out)
       = Some (of_string "Legacy Title").
Proof.
  destruct (template_update_keeps_absent_fields Sample.db_legacy 1
              (Sample.template_name_and_capacity (Some (of_string "CPR")) None)
              Sample.legacy_template eq_refl)
    as (out & db' & new_row & Hrun & Hsel & _ & _ & _ & _ & _ & Hcap & _ & _
        & Htr & _ & Htitle).
  exists out, db', new_row. split; [exact Hrun|]. split; [exact Hsel|].
  split; [exact (Hcap eq_refl)|]. split; [exact (Htr eq_refl)|].
  exact (Htitle eq_refl).
Defined.

Lemma template_update_idempotent_witness :
  CourseTemplates.update_course_template 1 Sample.template_blank
    (snd (CourseTemplates.update_course_template 1 Sample.template_blank
            Sample.db_legacy))
  = CourseTemplates.update_course_template 1 Sample.template_blank
      Sample.db_legacy.
Proof.
  apply (template_update_idempotent Sample.db_legacy _ 1
           Sample.template_blank _ eq_refl).
Defined.

Lemma user_update_idempotent_witness :
  Users.update_user (H := Sample.tagging_hasher) 1
    (Sample.surname_only "Smith")
    (snd (Users.update_user (H := Sample.tagging_hasher) 1
            (Sample.surname_only "Smith") Sample.db_people))
  = Users.update_user (H := Sample.tagging_hasher) 1
      (Sample.surname_only "Smith") Sample.db_people.
Proof.
  apply (user_update_idempotent (H := Sample.tagging_hasher)
           Sample.db_people _ 1 (Sample.surname_only "Smith") _
           eq_refl eq_refl).
Defined.

Lemma participant_update_idempotent_witness :
  Participants.update_participant 1 Sample.participant_blank
    (snd (Participants.update_participant 1 Sample.participant_blank
            Sample.db_people))
  = Participants.update_participant 1 Sample.participant_blank
      Sample.db_people.
Proof.
  apply (participant_update_idempotent Sample.db_people _ 1
           Sample.participant_blank _ eq_refl).
Defined.

Lemma updates_touch_only_their_row_witness :
  users (snd (CourseTemplates.update_course_template 1 Sample.template_blank
                Sample.db_people)) = [Sample.jane]
  /\ course_templates
       (snd (Users.update_user (H := Sample.tagging_hasher) 1
               Sample.user_blank Sample.db_people))
     = course_templates Sample.db_people.
Proof.
  destruct (updates_touch_only_their_row (H := Sample.tagging_hasher)
              Sample.db_people 1) as (Ht & _ & Hu).
  split.
  - apply (Ht Sample.template_blank _ _ eq_refl).
  - apply (Hu Sample.user_blank _ _ eq_refl).
Defined.



Lemma create_user_outcomes_witness :
  (exists out row,
      Users.create_user (H := Sample.tagging_hasher) (Sample.new_user None)
        Sample.db_people
      = (Ok out, with_users (fun rows => rows ++ [row]) Sample.db_people)
      /\ u_email row = Some []
      /\ Users.out_must_change_password out = true)
  /\ Users.create_user (H := Sample.tagging_hasher)
       (Sample.new_user (Some (of_string "jane@example.org")))
       Sample.db_people
     = (HTTPError 400, Sample.db_people).
Proof.
  split.
  - destruct (proj2 (create_user_outcomes (H := Sample.tagging_hasher)
                       Sample.db_people (Sample.new_user None)))
      as (out & row & Hrun & _ & _ & _ & Hemail & _ & _ & _ & _ & _ & _ & _
          & Hflag).
    + intros r [<-|[]] [_ He]. discriminate.
    + exists out, row. split; [exact Hrun|]. split; [exact Hemail|exact Hflag].
  - apply (create_user_outcomes (H := Sample.tagging_hasher) Sample.db_people
             (Sample.new_user (Some (of_string "jane@example.org")))).
    exists Sample.jane. split; [left; reflexivity|]. split; reflexivity.
Defined.

Lemma create_user_twice_witness :
  Users.create_user (H := Sample.tagging_hasher) (Sample.new_user None)
    (snd (Users.create_user (H := Sample.tagging_hasher)
            (Sample.new_user None) Sample.db_people))
  = (HTTPError 400,
     snd (Users.create_user (H := Sample.tagging_hasher)
            (Sample.new_user None) Sample.db_people)).
Proof.
  apply (create_user_twice (H := Sample.tagging_hasher) Sample.db_people _
           (Sample.new_user None) _ eq_refl).
Defined.


Lemma upgrade_idempotent_witness :
  exists s',
    Upgrade.upgrade Sample.old_template_schema = Upgrade.Finished s' true
    /\ Upgrade.upgrade s' = Upgrade.Finished s' false.
Proof.
  eexists. split; [reflexivity|].
  apply (upgrade_idempotent Sample.old_template_schema _ true eq_refl).
Defined.
